(** * Chatterbox-TTS interactive installer: model and properties

    A shallow embedding of [ChatterboxInstaller.py].  Pure helpers are
    Rocq functions; the parts of [main] that talk to the operating system
    are programs of a small state-and-exception monad over an abstract
    operating-system interface, with an in-memory instance used to run
    them on concrete inputs. *)

From Stdlib Require Import ZArith List String Ascii Bool Lia Permutation.
From Stdlib Require Import Numbers.DecimalString.
From stdpp Require Import base decidable option list strings gmap.

Import ListNotations.
Local Open Scope string_scope.
Local Open Scope list_scope.

(** ** Python string helpers *)

Module PyStr.

(** [s.split(sep)] for a one-character separator: cuts at every
    occurrence, so the result always has one more piece than there are
    separators (and is never empty). *)
Fixpoint split (sep : ascii) (s : string) : list string :=
  match s with
  | EmptyString => [EmptyString]
  | String c rest =>
      if Ascii.eqb c sep then EmptyString :: split sep rest
      else match split sep rest with
           | [] => [String c EmptyString]
           | w :: ws => String c w :: ws
           end
  end.

(** [l[-1]] and [l[0]] on a list known to be non-empty. *)
Definition item_last (l : list string) : string := List.last l EmptyString.
Definition item_first (l : list string) : string := List.hd EmptyString l.

(** [sep.join(l)]. *)
Definition join (sep : string) (l : list string) : string := String.concat sep l.

(** [str(n)] for an integer. *)
Definition of_Z (n : Z) : string := NilZero.string_of_int (Z.to_int n).

End PyStr.

(** ** Configuration *)

Definition VENV_NAME : string := "Chatterbox_TTS".
Definition MODEL_DIR : string := "Model".

Definition ORIGINAL_FILES : list string :=
  [ "https://huggingface.co/ResembleAI/chatterbox/resolve/main/t3_cfg.safetensors?download=true";
    "https://huggingface.co/ResembleAI/chatterbox/resolve/main/s3gen.safetensors?download=true";
    "https://huggingface.co/ResembleAI/chatterbox/resolve/main/tokenizer.json?download=true";
    "https://huggingface.co/ResembleAI/chatterbox/resolve/main/ve.safetensors?download=true" ].

Definition TURBO_FILES : list string :=
  [ "https://huggingface.co/ResembleAI/chatterbox-turbo/resolve/main/s3gen.safetensors?download=true";
    "https://huggingface.co/ResembleAI/chatterbox-turbo/resolve/main/conds.pt?download=true";
    "https://huggingface.co/ResembleAI/chatterbox-turbo/resolve/main/added_tokens.json?download=true";
    "https://huggingface.co/ResembleAI/chatterbox-turbo/resolve/main/s3gen_meanflow.safetensors?download=true";
    "https://huggingface.co/ResembleAI/chatterbox-turbo/resolve/main/special_tokens_map.json?download=true";
    "https://huggingface.co/ResembleAI/chatterbox-turbo/resolve/main/t3_turbo_v1.safetensors?download=true";
    "https://huggingface.co/ResembleAI/chatterbox-turbo/resolve/main/t3_turbo_v1.yaml?download=true";
    "https://huggingface.co/ResembleAI/chatterbox-turbo/resolve/main/tokenizer_config.json?download=true";
    "https://huggingface.co/ResembleAI/chatterbox-turbo/resolve/main/ve.safetensors?download=true";
    "https://huggingface.co/ResembleAI/chatterbox-turbo/resolve/main/vocab.json?download=true";
    "https://huggingface.co/ResembleAI/chatterbox-turbo/resolve/main/merges.txt?download=true" ].

Definition ORIGINAL_EXPECTED : list string :=
  [ "t3_cfg.safetensors"; "s3gen.safetensors"; "tokenizer.json"; "ve.safetensors" ].

Definition TURBO_EXPECTED : list string :=
  [ "added_tokens.json"; "conds.pt"; "merges.txt"; "s3gen.safetensors";
    "s3gen_meanflow.safetensors"; "special_tokens_map.json"; "t3_turbo_v1.safetensors";
    "t3_turbo_v1.yaml"; "tokenizer_config.json"; "ve.safetensors"; "vocab.json" ].

(** [url.split('/')[-1].split('?')[0]], the expression that both
    [download_file] and the download loop of [main] use to name the local
    file of a locator. *)
Definition url_filename (url : string) : string :=
  PyStr.item_first (PyStr.split "?" (PyStr.item_last (PyStr.split "/" url))).


(** ** Exceptions, events and the installer monad *)

(** The exceptions the installer raises or handles.  [OSError] stands for
    every other subclass of [Exception] that a library call can raise
    (a process that cannot be spawned, a failed download, a failed copy);
    its payload is the text of [str(e)]. *)
Inductive exn : Type :=
  | CalledProcessError (cmd : list string) (returncode : Z)
  | OSError (msg : string)
  | ValueError
  | EOFError
  | KeyboardInterrupt
  | SystemExit (code : Z).

(** [isinstance(e, Exception)]: [KeyboardInterrupt] and [SystemExit]
    derive from [BaseException] only. *)
Definition is_Exception (e : exn) : bool :=
  match e with
  | KeyboardInterrupt | SystemExit _ => false
  | _ => true
  end.

Definition is_CalledProcessError (e : exn) : bool :=
  match e with CalledProcessError _ _ => true | _ => false end.

Definition is_KeyboardInterrupt (e : exn) : bool :=
  match e with KeyboardInterrupt => true | _ => false end.

(** What [subprocess.run] observes of the child: an exit status, or the
    child could not be started at all. *)
Inductive run_outcome : Type :=
  | Exited (returncode : Z)
  | SpawnFailed (msg : string).

(** One line typed at the terminal, or Ctrl-C while [input()] waits.
    The end of the list is the end of standard input. *)
Inductive input_event : Type :=
  | Line (text : string)
  | Interrupt.

(** How a computation ends: with a value, with a raised exception, or
    with the process image replaced by [os.execv] (after which none of
    this program runs any more, handlers included). *)
Inductive result (A : Type) : Type :=
  | Ok (a : A)
  | Raise (e : exn)
  | Replaced (prog : string) (argv : list string).
Arguments Ok {A} a.
Arguments Raise {A} e.
Arguments Replaced {A} prog argv.

(** What a function that only looks at the machine gives back: a
    value, or an exception. *)
Inductive outcome (A : Type) : Type :=
  | Returns (a : A)
  | Raises (e : exn).
Arguments Returns {A} a.
Arguments Raises {A} e.

(** The interpreter process: [sys.executable], [__file__],
    [sys.version_info] and [platform.system()]. *)
Record process : Type := mkProcess {
  sys_executable : string;
  script_file : string;
  version_major : Z;
  version_minor : Z;
  platform_system : string
}.

(** The library calls of the installer, over an abstract path type and
    an abstract state of the machine.  Calls that only look take the
    machine state; calls that act return the new one, together with
    [Some msg] when they raise.

    [Path_exists], [Path_is_dir] and [Path_is_file] tell what [stat]
    finds at a path.  Where it finds nothing, [Path_stat_error] is the
    [OSError] it fails with when that error is not one of those that
    [pathlib] reads as an absent path (a name that is too long, a
    parent that may not be searched): [p.exists()] lets it through.
    The folder that the user types can be any text, and the validator
    probes it with [path_exists] below, which raises that error.  The
    paths that the installer makes up itself (the environment and the
    model directory under the working directory, and the files of a
    folder that has passed validation) are taken to be free of it, and
    are probed with [Path_exists] directly.

    [signal_name n] is the name of the signal with number [n], as
    [signal.Signals(n)] has it. *)
Class Runtime (Path Env : Type) : Type := {
  Path_eq_dec :: EqDecision Path;
  (* pathlib *)
  Path_of : string -> Path;
  Path_div : Path -> string -> Path;
  Path_str : Path -> string;
  Path_exists : Env -> Path -> bool;
  Path_stat_error : Env -> Path -> option string;
  Path_is_dir : Env -> Path -> bool;
  Path_is_file : Env -> Path -> bool;
  Path_resolve : Env -> Path -> Path;
  Path_mkdir_exist_ok : Path -> Env -> option string * Env;
  (* os, subprocess, urllib.request, shutil *)
  os_system : string -> Env -> Env;
  os_execv : string -> list string -> Env -> option string;
  subprocess_run : list string -> Env -> run_outcome * Env;
  urlretrieve : string -> Path -> Env -> option string * Env;
  copy2 : Path -> Path -> Env -> option string * Env;
  (* builtins *)
  str_strip : string -> string;
  str_lower : string -> string;
  str_capitalize : string -> string;
  int_of_str : string -> option Z;
  repr_cmd : list string -> string;
  signal_name : Z -> option string
}.

Section Installer.

Context {Path Env : Type} {RT : Runtime Path Env}.

(** What the run does to the outside world, in order. *)
Inductive event : Type :=
  | EvPrint (text : string)
  | EvPrompt (text : string)
  | EvSystem (cmd : string)
  | EvRun (cmd : list string)
  | EvExecv (prog : string) (argv : list string)
  | EvFetch (url : string) (dest : Path)
  | EvCopy (src dst : Path)
  | EvMkdir (dir : Path)
  | EvTraceback (e : exn).

(** The machine and everything done so far.  Standard input is not
    part of it: the functions that read pass the pending input along. *)
Record state : Type := mkState {
  st_env : Env;
  st_out : list event
}.

Definition M (A : Type) : Type := state -> result A * state.

#[export] Instance M_ret : MRet M := fun A a s => (Ok a, s).

#[export] Instance M_bind : MBind M := fun A B f m s =>
  match m s with
  | (Ok a, s') => f a s'
  | (Raise e, s') => (Raise e, s')
  | (Replaced prog argv, s') => (Replaced prog argv, s')
  end.

Definition raise {A : Type} (e : exn) : M A := fun s => (Raise e, s).

(** [try: body / except <catches> as e: handler e]. *)
Definition try_except {A : Type} (body : M A) (catches : exn -> bool)
    (handler : exn -> M A) : M A := fun s =>
  match body s with
  | (Raise e, s') => if catches e then handler e s' else (Raise e, s')
  | r => r
  end.

Definition get_env : M Env := fun s => (Ok (st_env s), s).

Definition emit (ev : event) : M unit := fun s =>
  (Ok tt, {| st_env := st_env s; st_out := st_out s ++ [ev] |}).

(** A library call that changes the machine and may raise. *)
Definition call (ev : event) (f : Env -> option string * Env) : M unit := fun s =>
  let '(err, e') := f (st_env s) in
  let s' := {| st_env := e'; st_out := st_out s ++ [ev] |} in
  match err with
  | None => (Ok tt, s')
  | Some msg => (Raise (OSError msg), s')
  end.

(** [for x in l: body x]. *)
Fixpoint for_each {A : Type} (l : list A) (body : A -> M unit) : M unit :=
  match l with
  | [] => mret tt
  | x :: rest => body x ;; for_each rest body
  end.

(** [str(e)].  A child that a signal has killed has the negated
    signal number as its status. *)
Definition exn_str (e : exn) : string :=
  match e with
  | CalledProcessError cmd rc =>
      if (rc <? 0)%Z then
        match signal_name (- rc) with
        | Some name =>
            "Command '" +:+ repr_cmd cmd +:+ "' died with <Signals." +:+ name
              +:+ ": " +:+ PyStr.of_Z (- rc) +:+ ">."
        | None =>
            "Command '" +:+ repr_cmd cmd +:+ "' died with unknown signal "
              +:+ PyStr.of_Z (- rc) +:+ "."
        end
      else
        "Command '" +:+ repr_cmd cmd +:+ "' returned non-zero exit status "
          +:+ PyStr.of_Z rc +:+ "."
  | OSError msg => msg
  | ValueError => "invalid literal for int() with base 10"
  | EOFError => "EOF when reading a line"
  | KeyboardInterrupt => EmptyString
  | SystemExit code => PyStr.of_Z code
  end.

Definition nl : string := String (ascii_of_nat 10) EmptyString.

Fixpoint str_repeat (s : string) (n : nat) : string :=
  match n with
  | O => EmptyString
  | S k => s +:+ str_repeat s k
  end.

(** *** Utility functions *)

(** [print(text)].  Standard output is taken to accept every text the
    installer prints, the marks of [print_warning], [print_success] and
    [print_error] included; on a terminal whose encoding lacks them
    [print] would raise [UnicodeEncodeError]. *)
Definition print (text : string) : M unit := emit (EvPrint text).

Definition sys_exit {A : Type} (code : Z) : M A := raise (SystemExit code).

Definition clear_screen (pr : process) : M unit := fun s =>
  let cmd := if String.eqb (str_lower (platform_system pr)) "windows"
             then "cls" else "clear" in
  (Ok tt, {| st_env := os_system cmd (st_env s);
             st_out := st_out s ++ [EvSystem cmd] |}).

Definition print_header (text : string) : M unit :=
  print (nl +:+ str_repeat "=" 70) ;;
  print ("  " +:+ text) ;;
  print (str_repeat "=" 70 +:+ nl).

Definition print_warning (text : string) : M unit := print ("⚠️  " +:+ text).
Definition print_success (text : string) : M unit := print ("✓ " +:+ text).
Definition print_error (text : string) : M unit := print ("✗ " +:+ text).

(** [run(cmd, check)], for a command given as a list and without
    [capture] (the installer never captures output). *)
Definition run (cmd : list string) (check : bool) : M unit := fun s =>
  let '(o, e') := subprocess_run cmd (st_env s) in
  let s' := {| st_env := e'; st_out := st_out s ++ [EvRun cmd] |} in
  match o with
  | Exited rc =>
      if check && negb (rc =? 0)%Z then (Raise (CalledProcessError cmd rc), s')
      else (Ok tt, s')
  | SpawnFailed msg => (Raise (OSError msg), s')
  end.

(** The module globals that [main] sets in step 3 and [pip_install]
    reads. *)
Record venv : Type := mkVenv {
  VENV_DIR : Path;
  PYTHON_EXE : Path;
  PIP_EXE : Path;
  ACTIVATE : Path
}.

Definition pip_cmd (e : Env) (v : venv) (args : list string) : list string :=
  (if Path_exists e (PIP_EXE v)
   then [Path_str (PIP_EXE v); "install"; "--upgrade"]
   else [Path_str (PYTHON_EXE v); "-m"; "pip"; "install"; "--upgrade"])
  ++ args.

Definition pip_install (v : venv) (args : list string) : M unit :=
  e ← get_env;
  let cmd := pip_cmd e v args in
  try_except (run cmd true) is_CalledProcessError (fun e =>
    print_warning ("Install failed: " +:+ exn_str e) ;;
    print_warning "Retrying once..." ;;
    run cmd true).

Definition download_file (url : string) (dest : Path) : M unit :=
  let filename := url_filename url in
  print ("📥 Downloading " +:+ filename +:+ "...") ;;
  try_except
    (call (EvFetch url dest) (urlretrieve url dest) ;;
     print_success ("Downloaded " +:+ filename))
    is_Exception
    (fun e =>
       print_error ("Failed to download " +:+ filename +:+ ": " +:+ exn_str e) ;;
       raise e).

(** The [for i, option in enumerate(options, 1)] loop, from index [i]. *)
Fixpoint print_options (i : Z) (options : list string) : M unit :=
  match options with
  | [] => mret tt
  | option :: rest =>
      print (PyStr.of_Z i +:+ ". " +:+ option) ;; print_options (i + 1) rest
  end.

(** [get_user_choice]: the [while True] loop runs along the pending
    input, one line per round; the rest of the input is returned with
    the choice. *)
Fixpoint get_user_choice (prompt : string) (options : list string)
    (inp : list input_event) : M (Z * list input_event) :=
  print prompt ;;
  print_options 1 options ;;
  emit (EvPrompt (nl +:+ "Enter your choice (number): ")) ;;
  match inp with
  | [] => raise EOFError
  | Interrupt :: _ =>
      print (nl +:+ nl +:+ "Installation cancelled.") ;;
      sys_exit 0
  | Line text :: rest =>
      let choice := str_strip text in
      match int_of_str choice with
      | None =>
          print_error "Please enter a valid number" ;;
          get_user_choice prompt options rest
      | Some choice_num =>
          if (1 <=? choice_num)%Z && (choice_num <=? Z.of_nat (length options))%Z
          then mret (choice_num, rest)
          else
            print_error ("Please enter a number between 1 and "
                           +:+ PyStr.of_Z (Z.of_nat (length options))) ;;
            get_user_choice prompt options rest
      end
  end.

(** [p.exists()] on a path that can be anything: [True] when [stat]
    finds [p]; when it does not, [False] if the error says that [p] is
    not there, and the error itself otherwise. *)
Definition path_exists (e : Env) (p : Path) : outcome bool :=
  if Path_exists e p then Returns true
  else match Path_stat_error e p with
       | Some msg => Raises (OSError msg)
       | None => Returns false
       end.

(** The [missing_files] list after the [for file in expected_files]
    loop, starting from [acc]. *)
Fixpoint missing_files_from (e : Env) (folder : Path) (expected_files : list string)
    (acc : list string) : outcome (list string) :=
  match expected_files with
  | [] => Returns acc
  | file :: rest =>
      match path_exists e (Path_div folder file) with
      | Returns found =>
          if negb found
          then missing_files_from e folder rest (acc ++ [file])
          else missing_files_from e folder rest acc
      | Raises err => Raises err
      end
  end.

(** The validator only looks at the machine; it has no handler, so a
    probe that raises ends it.  [folder.is_dir()] is only reached when
    [folder.exists()] has just found the folder. *)
Definition validate_user_supplied_files (e : Env) (folder_path : string)
    (expected_files : list string) : outcome (bool * string) :=
  let folder := Path_of folder_path in
  match path_exists e folder with
  | Returns found =>
      if negb found || negb (Path_is_dir e folder) then
        Returns (false, "Folder does not exist or is not a directory")
      else
        match missing_files_from e folder expected_files [] with
        | Returns ((_ :: _) as missing_files) =>
            Returns (false, "Missing files: " +:+ PyStr.join ", " missing_files)
        | Returns [] => Returns (true, "All files present")
        | Raises err => Raises err
        end
  | Raises err => Raises err
  end.

Definition python_tag (pr : process) : string :=
  "cp" +:+ PyStr.of_Z (version_major pr) +:+ PyStr.of_Z (version_minor pr).

(** *** Main installation flow *)

(** [input(prompt)] outside of any handler. *)
Definition input (prompt : string) (inp : list input_event)
    : M (string * list input_event) :=
  emit (EvPrompt prompt) ;;
  match inp with
  | [] => raise EOFError
  | Interrupt :: _ => raise KeyboardInterrupt
  | Line text :: rest => mret (text, rest)
  end.

Definition dquote : ascii := ascii_of_nat 34.

Definition startswith_char (c : ascii) (s : string) : bool :=
  match s with
  | EmptyString => false
  | String c0 _ => Ascii.eqb c0 c
  end.

Fixpoint endswith_char (c : ascii) (s : string) : bool :=
  match s with
  | EmptyString => false
  | String c0 EmptyString => Ascii.eqb c0 c
  | String _ rest => endswith_char c rest
  end.

(** [if p.startswith('"') and p.endswith('"'): p = p[1:-1]]. *)
Definition strip_quotes (folder_path : string) : string :=
  if startswith_char dquote folder_path && endswith_char dquote folder_path
  then String.substring 1 (String.length folder_path - 2) folder_path
  else folder_path.

(** The [while True] loop of step 1 that asks for the model folder,
    along the pending input (one or two lines per round). *)
Fixpoint ask_model_folder (expected_files : list string) (inp : list input_event)
    : M (Path * list input_event) :=
  emit (EvPrompt (nl +:+ "Enter the full path to your model folder: ")) ;;
  match inp with
  | [] => raise EOFError
  | Interrupt :: _ => raise KeyboardInterrupt
  | Line text :: rest =>
      let folder_path := strip_quotes (str_strip text) in
      e ← get_env;
      match validate_user_supplied_files e folder_path expected_files with
      | Raises err => raise err
      | Returns (valid, message) =>
          if valid then
            print_success message ;;
            mret (Path_of folder_path, rest)
          else
            print_error message ;;
            emit (EvPrompt "Try again? (y/n): ") ;;
            match rest with
            | [] => raise EOFError
            | Interrupt :: _ => raise KeyboardInterrupt
            | Line answer :: rest' =>
                let retry := str_lower (str_strip answer) in
                if negb (String.eqb retry "y") then
                  print "Installation cancelled." ;;
                  sys_exit 0
                else ask_model_folder expected_files rest'
            end
      end
  end.

(** The choices of step 1. *)
Record selection : Type := mkSelection {
  is_turbo : bool;
  is_user_supplied : bool;
  user_model_path : option Path
}.

Definition expected_files_of (turbo : bool) : list string :=
  if turbo then TURBO_EXPECTED else ORIGINAL_EXPECTED.

Definition model_type_of (turbo : bool) : string :=
  if turbo then "Turbo" else "Original".

Definition main_step1 (inp : list input_event) : M (selection * list input_event) :=
  print_header "Step 1: Model Selection" ;;
  print ("Welcome! Ready to Install Chatterbox? Start by entering an option below:" +:+ nl) ;;
  print ("Available Models:" +:+ nl) ;;
  '(model_choice, inp) ← get_user_choice EmptyString
    [ "Chatterbox (Original): Zero-shot cloning, Multiple Languages, Slower";
      "Chatterbox (Turbo): Paralinguistic Tags ([laugh]), Lower Compute and VRAM, Faster, May reduce quality";
      "Chatterbox (Original, User Supplied): Same as Option 1, but you will supply the model files";
      "Chatterbox (Turbo, User Supplied): Same as Option 2, but you will supply files" ]
    inp;
  let turbo := (model_choice =? 2)%Z || (model_choice =? 4)%Z in
  let user_supplied := (model_choice =? 3)%Z || (model_choice =? 4)%Z in
  let model_type := model_type_of turbo in
  if user_supplied then
    print (nl +:+ "You selected User Supplied " +:+ model_type +:+ " model.") ;;
    let expected_files := expected_files_of turbo in
    print (nl +:+ "Required files:") ;;
    for_each expected_files (fun f => print ("  - " +:+ f)) ;;
    '(folder, inp) ← ask_model_folder expected_files inp;
    mret ({| is_turbo := turbo; is_user_supplied := true;
             user_model_path := Some folder |}, inp)
  else
    print (nl +:+ "You selected " +:+ model_type +:+ " model (download from repository).") ;;
    print_warning "These files are large and may incur data charges if you don't have an unlimited plan." ;;
    '(answer, inp) ← input "Continue? (y/n): " inp;
    let confirm := str_lower (str_strip answer) in
    if negb (String.eqb confirm "y") then
      print "Installation cancelled." ;;
      sys_exit 0
    else
      mret ({| is_turbo := turbo; is_user_supplied := false;
               user_model_path := None |}, inp).

Definition backend_options : list string :=
  [ "CPU: Choose this if you do not have a GPU or want to only use your CPU, CPU generation may be very slow on older/low power CPUs";
    "AMD (ROCm): Linux Only, AMD RX 6000 Series and newer";
    "Nvidia (CUDA): RTX 30 and newer only" ].

(** [["CPU", "AMD (ROCm)", "Nvidia (CUDA)"][backend_choice - 1]], for a
    choice that [get_user_choice] returned for three options. *)
Definition backend_name_of (backend_choice : Z) : string :=
  nth (Z.to_nat (backend_choice - 1)) ["CPU"; "AMD (ROCm)"; "Nvidia (CUDA)"] EmptyString.

(** The check under "Validate backend choice". *)
Definition validate_backend_choice (OS : string) (backend_choice : Z) : M unit :=
  if (backend_choice =? 2)%Z && negb (String.eqb OS "linux") then
    print_error "AMD ROCm is only supported on Linux!" ;;
    print "Please restart and choose a different backend." ;;
    sys_exit 1
  else mret tt.

Definition main_step2 (OS : string) (inp : list input_event)
    : M (Z * list input_event) :=
  print_header "Step 2: Backend Selection" ;;
  print ("Great! Now, you'll need to choose your backend:" +:+ nl) ;;
  '(backend_choice, inp) ← get_user_choice EmptyString backend_options inp;
  validate_backend_choice OS backend_choice ;;
  print (nl +:+ "You selected: " +:+ backend_name_of backend_choice) ;;
  mret (backend_choice, inp).

(** The paths of step 3, from the resolved environment root. *)
Definition venv_paths (OS : string) (venv_dir : Path) : venv :=
  if String.eqb OS "windows" then
    {| VENV_DIR := venv_dir;
       PYTHON_EXE := Path_div (Path_div venv_dir "Scripts") "python.exe";
       PIP_EXE := Path_div (Path_div venv_dir "Scripts") "pip.exe";
       ACTIVATE := Path_div (Path_div venv_dir "Scripts") "activate.ps1" |}
  else
    {| VENV_DIR := venv_dir;
       PYTHON_EXE := Path_div (Path_div venv_dir "bin") "python";
       PIP_EXE := Path_div (Path_div venv_dir "bin") "pip";
       ACTIVATE := Path_div (Path_div venv_dir "bin") "activate" |}.

(** [os.execv(prog, argv)]: on success nothing of this process is left. *)
Definition execv {A : Type} (prog : string) (argv : list string) : M A := fun s =>
  let s' := {| st_env := st_env s; st_out := st_out s ++ [EvExecv prog argv] |} in
  match os_execv prog argv (st_env s) with
  | None => (Replaced prog argv, s')
  | Some msg => (Raise (OSError msg), s')
  end.

(** "Create venv if missing". *)
Definition create_venv_if_missing (pr : process) (v : venv) : M unit :=
  e ← get_env;
  if negb (Path_exists e (VENV_DIR v)) then
    print "Creating virtual environment..." ;;
    run [sys_executable pr; "-m"; "venv"; Path_str (VENV_DIR v)] true ;;
    print_success "Virtual environment created"
  else
    print_success "Virtual environment already exists".

(** "Re-exec inside venv if needed". *)
Definition reexec_inside_venv (pr : process) (v : venv) : M unit :=
  e ← get_env;
  if negb (bool_decide (Path_resolve e (Path_of (sys_executable pr))
                        = Path_resolve e (PYTHON_EXE v))) then
    print "Activating virtual environment..." ;;
    execv (Path_str (PYTHON_EXE v)) [Path_str (PYTHON_EXE v); script_file pr]
  else mret tt.

(** The two together: the environment-ensure step of [main]. *)
Definition ensure_venv (pr : process) (v : venv) : M unit :=
  create_venv_if_missing pr v ;;
  reexec_inside_venv pr v.

Definition main_step3 (pr : process) (OS : string) : M venv :=
  print_header "Step 3: Environment Setup" ;;
  e ← get_env;
  let v := venv_paths OS (Path_resolve e (Path_of VENV_NAME)) in
  ensure_venv pr v ;;
  e ← get_env;
  (if negb (Path_exists e (PIP_EXE v)) then
     print "Ensuring pip is available..." ;;
     run [Path_str (PYTHON_EXE v); "-m"; "ensurepip"; "--upgrade"] true
   else mret tt) ;;
  mret v.

Definition torch_args (index_url : string) : list string :=
  [ "torch==2.6.0"; "torchvision==0.21.0"; "torchaudio==2.6.0";
    "--index-url"; index_url ].

Definition flash_url (OS tag : string) : string :=
  if String.eqb OS "linux" then
    "https://github.com/mjun0812/flash-attention-prebuild-wheels/"
    +:+ "releases/download/v0.3.18/flash_attn-2.7.4+cu124torch2.6-"
    +:+ tag +:+ "-" +:+ tag +:+ "-linux_x86_64.whl"
  else
    "https://github.com/mjun0812/flash-attention-prebuild-wheels/"
    +:+ "releases/download/v0.3.9/flash_attn-2.7.4+cu124torch2.6-"
    +:+ tag +:+ "-" +:+ tag +:+ "-win_amd64.whl".

Definition main_step4 (pr : process) (OS : string) (v : venv) (backend_choice : Z)
    : M unit :=
  print_header "Step 4: Installing PyTorch" ;;
  let tag := python_tag pr in
  if (backend_choice =? 1)%Z then
    print "Installing CPU-only PyTorch..." ;;
    pip_install v (torch_args "https://download.pytorch.org/whl/cpu")
  else if (backend_choice =? 2)%Z then
    print "Installing ROCm PyTorch..." ;;
    pip_install v (torch_args "https://download.pytorch.org/whl/rocm6.2.4")
  else if (backend_choice =? 3)%Z then
    print "Installing CUDA PyTorch..." ;;
    pip_install v (torch_args "https://download.pytorch.org/whl/cu124") ;;
    print (nl +:+ "Installing flash-attention for RTX 30+ series...") ;;
    try_except
      (pip_install v [flash_url OS tag] ;;
       print_success "flash-attention installed")
      is_Exception
      (fun e =>
         print_warning ("flash-attention installation failed: " +:+ exn_str e) ;;
         print_warning "Continuing without flash-attention (may affect performance)")
  else mret tt.

Definition dependencies : list string :=
  [ "numpy>=1.24.0,<1.26.0";
    "librosa==0.11.0";
    "safetensors==0.5.3";
    "huggingface_hub>=0.23.2,<1.0";
    "transformers==4.46.3";
    "diffusers==0.29.0";
    "einops";
    "s3tokenizer";
    "conformer==0.3.2";
    "resemble-perth==1.0.1";
    "pykakasi==2.3.0";
    "gradio==5.44.1";
    "soundfile>=0.12.1";
    "audioread>=2.1.9";
    "omegaconf>=2.3.0";
    "pyloudnorm";
    "spacy-pkuseg" ].

(** The body of [for dep in dependencies]. *)
Definition install_dependency (v : venv) (dep : string) : M unit :=
  try_except
    (print ("Installing " +:+ dep +:+ "...") ;;
     pip_install v [dep])
    is_Exception
    (fun e =>
       print_warning ("Failed to install " +:+ dep +:+ ": " +:+ exn_str e) ;;
       print_warning "Continuing with remaining dependencies...").

Definition install_dependencies (v : venv) (deps : list string) : M unit :=
  for_each deps (install_dependency v).

Definition main_step5 (v : venv) : M unit :=
  print_header "Step 5: Installing Chatterbox-TTS Dependencies" ;;
  print "Installing chatterbox-tts (without dependencies)..." ;;
  pip_install v ["--no-deps"; "chatterbox-tts"] ;;
  print (nl +:+ "Installing core dependencies...") ;;
  install_dependencies v dependencies.

(** The body of [for file in expected_files] in user-supplied mode. *)
Definition copy_model_file (user_path model_path : Path) (file : string) : M unit :=
  let src := Path_div user_path file in
  let dst := Path_div model_path file in
  e ← get_env;
  if Path_exists e src then
    call (EvCopy src dst) (copy2 src dst) ;;
    print_success ("Copied " +:+ file)
  else mret tt.

Definition copy_model_files (user_path model_path : Path)
    (expected_files : list string) : M unit :=
  for_each expected_files (copy_model_file user_path model_path).

(** The body of [for url in files_to_download] in download mode. *)
Definition download_model_file (model_path : Path) (url : string) : M unit :=
  let filename := url_filename url in
  let dest := Path_div model_path filename in
  e ← get_env;
  if negb (Path_exists e dest) then download_file url dest
  else print_success (filename +:+ " already exists, skipping").

Definition download_model_files (model_path : Path) (urls : list string) : M unit :=
  for_each urls (download_model_file model_path).

Definition files_to_download_of (turbo : bool) : list string :=
  if turbo then TURBO_FILES else ORIGINAL_FILES.

(** [f"{p}"] for [p = None] prints [None]. *)
Definition str_opt_path (p : option Path) : string :=
  match p with
  | Some q => Path_str q
  | None => "None"
  end.

Definition main_step6 (sel : selection) : M Path :=
  print_header "Step 6: Setting Up Model Files" ;;
  let model_path := Path_of MODEL_DIR in
  call (EvMkdir model_path) (Path_mkdir_exist_ok model_path) ;;
  (if is_user_supplied sel then
     print ("Copying model files from " +:+ str_opt_path (user_model_path sel) +:+ "...") ;;
     match user_model_path sel with
     | Some user_path =>
         copy_model_files user_path model_path (expected_files_of (is_turbo sel)) ;;
         print_success "All model files copied"
     | None =>
         (* [None / file] in the first round of the loop: a TypeError *)
         raise (OSError "unsupported operand type(s) for /: 'NoneType' and 'str'")
     end
   else
     print "Downloading model files..." ;;
     download_model_files model_path (files_to_download_of (is_turbo sel))) ;;
  mret model_path.

Definition critical_packages : list string :=
  [ "torch"; "torchaudio"; "librosa"; "safetensors"; "transformers";
    "diffusers"; "conformer"; "s3tokenizer"; "resemble_perth"; "einops";
    "huggingface_hub"; "soundfile"; "audioread" ].

(** [subprocess.run(cmd, capture_output=True, text=True).returncode]. *)
Definition run_returncode (cmd : list string) : M Z := fun s =>
  let '(o, e') := subprocess_run cmd (st_env s) in
  let s' := {| st_env := e'; st_out := st_out s ++ [EvRun cmd] |} in
  match o with
  | Exited rc => (Ok rc, s')
  | SpawnFailed msg => (Raise (OSError msg), s')
  end.

(** The body of [for pkg in critical_packages]; returns the new
    [failed_packages]. *)
Definition verify_package (v : venv) (failed_packages : list string) (pkg : string)
    : M (list string) :=
  try_except
    (rc ← run_returncode [Path_str (PYTHON_EXE v); "-c"; "import " +:+ pkg];
     if (rc =? 0)%Z then
       print_success pkg ;; mret failed_packages
     else
       print_error pkg ;; mret (failed_packages ++ [pkg]))
    is_Exception
    (fun e =>
       print_error (pkg +:+ " (check failed: " +:+ exn_str e +:+ ")") ;;
       mret (failed_packages ++ [pkg])).

Fixpoint verify_packages (v : venv) (failed_packages : list string)
    (pkgs : list string) : M (list string) :=
  match pkgs with
  | [] => mret failed_packages
  | pkg :: rest =>
      failed_packages ← verify_package v failed_packages pkg;
      verify_packages v failed_packages rest
  end.

Definition main_step7 (v : venv) : M (list string) :=
  print_header "Step 7: Installation Verification" ;;
  print "Verifying Python packages..." ;;
  failed_packages ← verify_packages v [] critical_packages;
  (match failed_packages with
   | _ :: _ =>
       print_warning (nl +:+ "Some packages failed to install: "
                        +:+ PyStr.join ", " failed_packages) ;;
       print_warning "You may need to install these manually later."
   | [] => mret tt
   end) ;;
  mret failed_packages.

Definition final_summary (OS : string) (v : venv) (sel : selection)
    (backend_choice : Z) (model_path : Path) (failed_packages : list string)
    : M unit :=
  print_header "Installation Complete!" ;;
  (match failed_packages with
   | _ :: _ =>
       print "⚠️  Installation completed with warnings" ;;
       print ("Failed packages: " +:+ PyStr.join ", " failed_packages +:+ nl)
   | [] => print_success ("All components installed successfully!" +:+ nl)
   end) ;;
  print "Configuration:" ;;
  print ("  • Model: Chatterbox " +:+ model_type_of (is_turbo sel)) ;;
  print ("  • Backend: " +:+ backend_name_of backend_choice) ;;
  e ← get_env;
  print ("  • Model files: " +:+ Path_str (Path_resolve e model_path) +:+ nl) ;;
  print "To use Chatterbox-TTS:" ;;
  (if String.eqb OS "linux" then print ("  source " +:+ Path_str (ACTIVATE v))
   else print ("  " +:+ Path_str (ACTIVATE v))) ;;
  print ("  python your_script.py" +:+ nl) ;;
  (if (backend_choice =? 1)%Z
   then print ("Note: Using CPU backend. Use device='cpu' in your scripts." +:+ nl)
   else mret tt) ;;
  print "For audio issues, install ffmpeg:" ;;
  (if String.eqb OS "linux" then print "  sudo apt-get install ffmpeg"
   else print "  Download from: https://ffmpeg.org/download.html") ;;
  print (nl +:+ str_repeat "=" 70) ;;
  print "  Thank you for installing Chatterbox-TTS!" ;;
  print (str_repeat "=" 70 +:+ nl).

Definition main (pr : process) (inp : list input_event) : M unit :=
  let OS := str_lower (platform_system pr) in
  (if negb (existsb (String.eqb OS) ["windows"; "linux"]) then
     print_error ("Unsupported operating system: " +:+ OS) ;;
     print "This installer only supports Windows and Linux" ;;
     sys_exit 1
   else mret tt) ;;
  clear_screen pr ;;
  print_header "Chatterbox-TTS Installer" ;;
  print ("Detected OS: " +:+ str_capitalize OS +:+ nl) ;;
  '(sel, inp) ← main_step1 inp;
  '(backend_choice, inp) ← main_step2 OS inp;
  v ← main_step3 pr OS;
  main_step4 pr OS v backend_choice ;;
  main_step5 v ;;
  model_path ← main_step6 sel;
  failed_packages ← main_step7 v;
  final_summary OS v sel backend_choice model_path failed_packages.

(** The [if __name__ == "__main__"] block. *)
Definition entry_point (pr : process) (inp : list input_event) : M unit :=
  try_except (main pr inp)
    (fun e => is_KeyboardInterrupt e || is_Exception e)
    (fun e =>
       if is_KeyboardInterrupt e then
         print (nl +:+ nl +:+ "Installation cancelled by user.") ;;
         sys_exit 0
       else
         print_error ("Installation failed: " +:+ exn_str e) ;;
         emit (EvTraceback e) ;;
         sys_exit 1).

(** How the process ended: its exit status, or the program that took
    its place. *)
Inductive ending : Type :=
  | ExitStatus (code : Z)
  | ReplacedBy (prog : string) (argv : list string).

Definition ending_of (r : result unit) : ending :=
  match r with
  | Ok _ => ExitStatus 0
  | Raise (SystemExit code) => ExitStatus code
  | Raise _ => ExitStatus 1
  | Replaced prog argv => ReplacedBy prog argv
  end.

(** The process that [os.execv(prog, ...)] starts: the same machine,
    the interpreter [prog], the same script. *)
Definition process_after_execv (pr : process) (prog : string) : process :=
  {| sys_executable := prog;
     script_file := script_file pr;
     version_major := version_major pr;
     version_minor := version_minor pr;
     platform_system := platform_system pr |}.

End Installer.

Arguments event : clear implicits.
Arguments state : clear implicits.
Arguments M : clear implicits.
Arguments venv : clear implicits.
Arguments selection : clear implicits.

(** ** An in-memory machine

    A small instance of [Runtime] on which the installer can be run:
    paths are strings, the file system is a finite map from absolute
    paths to nodes, child processes end as a script says, and a
    successful [python -m venv] creates the environment's files.

    The instance is a simplification, used for examples only: paths are
    taken as they are written (no trailing slash is dropped, links are
    followed at the last component only), and the string builtins know
    ASCII.  The general theorems hold for every [Runtime]. *)

Module Mem.

Inductive node : Type :=
  | File (content : string)
  | Dir
  | Link (target : string).

Record machine : Type := mkMachine {
  files : gmap string node;
  cwd : string;
  (* how the next child processes end, in order; exit status 0 after that *)
  run_script : list run_outcome;
  (* the locators that cannot be fetched *)
  unreachable : list string;
  (* whether [python -m venv] links the interpreter or copies it *)
  venv_symlinks : bool;
  (* whether the environment has the Windows layout *)
  windows_layout : bool
}.

Definition with_files (m : machine) (fs : gmap string node) : machine :=
  {| files := fs; cwd := cwd m; run_script := run_script m;
     unreachable := unreachable m; venv_symlinks := venv_symlinks m;
     windows_layout := windows_layout m |}.

Definition with_script (m : machine) (sc : list run_outcome) : machine :=
  {| files := files m; cwd := cwd m; run_script := sc;
     unreachable := unreachable m; venv_symlinks := venv_symlinks m;
     windows_layout := windows_layout m |}.

Definition path_of (s : string) : string :=
  if String.eqb s EmptyString then "." else s.

Definition path_div (p s : string) : string := p +:+ "/" +:+ s.

Definition absolute (m : machine) (p : string) : string :=
  if String.eqb p "." then cwd m
  else if String.prefix "/" p then p
  else cwd m +:+ "/" +:+ p.

Fixpoint follow (fuel : nat) (fs : gmap string node) (p : string) : string :=
  match fuel with
  | O => p
  | S k => match fs !! p with
           | Some (Link target) => follow k fs target
           | _ => p
           end
  end.

Definition resolve (m : machine) (p : string) : string :=
  follow 8 (files m) (absolute m p).

Definition lookup_path (m : machine) (p : string) : option node :=
  files m !! resolve m p.

Definition exists_ (m : machine) (p : string) : bool :=
  match lookup_path m p with Some _ => true | None => false end.

Definition is_dir (m : machine) (p : string) : bool :=
  match lookup_path m p with Some Dir => true | _ => false end.

Definition is_file (m : machine) (p : string) : bool :=
  match lookup_path m p with Some (File _) => true | _ => false end.

Definition mkdir_exist_ok (p : string) (m : machine) : option string * machine :=
  match lookup_path m p with
  | Some Dir => (None, m)
  | Some _ => (Some ("[Errno 17] File exists: '" +:+ p +:+ "'"), m)
  | None => (None, with_files m (<[absolute m p := Dir]> (files m)))
  end.

Definition execv_error (prog : string) (argv : list string) (m : machine)
    : option string :=
  if is_file m prog then None else Some "[Errno 2] No such file or directory".

(** The files a successful [exe -m venv dir] leaves behind. *)
Definition create_venv (exe dir : string) (m : machine) : machine :=
  let root := absolute m dir in
  let sub := if windows_layout m then "Scripts" else "bin" in
  let py := if windows_layout m then "python.exe" else "python" in
  let pip := if windows_layout m then "pip.exe" else "pip" in
  let interpreter :=
    if venv_symlinks m then Link (resolve m exe) else File "python" in
  with_files m
    (<[path_div (path_div root sub) pip := File "pip"]>
       (<[path_div (path_div root sub) py := interpreter]>
          (<[path_div root sub := Dir]>
             (<[root := Dir]> (files m))))).

Definition run_child (cmd : list string) (m : machine) : run_outcome * machine :=
  let '(o, m1) :=
    match run_script m with
    | [] => (Exited 0, m)
    | o :: rest => (o, with_script m rest)
    end in
  match o, cmd with
  | Exited 0%Z, [exe; "-m"; "venv"; dir] => (o, create_venv exe dir m1)
  | _, _ => (o, m1)
  end.

Definition fetch (url : string) (dest : string) (m : machine)
    : option string * machine :=
  if existsb (String.eqb url) (unreachable m)
  then (Some "HTTP Error 404: Not Found", m)
  else (None, with_files m (<[absolute m dest := File url]> (files m))).

Definition basename (p : string) : string := PyStr.item_last (PyStr.split "/" p).

Definition copy (src dst : string) (m : machine) : option string * machine :=
  match lookup_path m src with
  | Some (File content) =>
      match lookup_path m dst with
      | Some Dir =>
          (None, with_files m
             (<[path_div (resolve m dst) (basename src) := File content]> (files m)))
      | _ =>
          if String.eqb (resolve m src) (resolve m dst)
          then (Some ("PosixPath('" +:+ src +:+ "') and PosixPath('" +:+ dst
                        +:+ "') are the same file"), m)
          else (None, with_files m (<[resolve m dst := File content]> (files m)))
      end
  | Some _ => (Some ("[Errno 21] Is a directory: '" +:+ src +:+ "'"), m)
  | None => (Some ("[Errno 2] No such file or directory: '" +:+ src +:+ "'"), m)
  end.

(** ASCII versions of the string builtins. *)

Definition is_space (c : ascii) : bool :=
  let n := nat_of_ascii c in
  (n =? 32)%nat || ((9 <=? n)%nat && (n <=? 13)%nat) || ((28 <=? n)%nat && (n <=? 31)%nat).

Fixpoint lstrip (s : string) : string :=
  match s with
  | String c rest => if is_space c then lstrip rest else s
  | EmptyString => EmptyString
  end.

Fixpoint rstrip (s : string) : string :=
  match s with
  | EmptyString => EmptyString
  | String c rest =>
      match rstrip rest with
      | EmptyString => if is_space c then EmptyString else String c EmptyString
      | r => String c r
      end
  end.

Definition strip (s : string) : string := rstrip (lstrip s).

Definition lower_char (c : ascii) : ascii :=
  let n := nat_of_ascii c in
  if (65 <=? n)%nat && (n <=? 90)%nat then ascii_of_nat (n + 32) else c.

Definition upper_char (c : ascii) : ascii :=
  let n := nat_of_ascii c in
  if (97 <=? n)%nat && (n <=? 122)%nat then ascii_of_nat (n - 32) else c.

Fixpoint lower (s : string) : string :=
  match s with
  | EmptyString => EmptyString
  | String c rest => String (lower_char c) (lower rest)
  end.

Definition capitalize (s : string) : string :=
  match s with
  | EmptyString => EmptyString
  | String c rest => String (upper_char c) (lower rest)
  end.

Definition digit_of (c : ascii) : option Z :=
  let n := nat_of_ascii c in
  if (48 <=? n)%nat && (n <=? 57)%nat then Some (Z.of_nat (n - 48)) else None.

(** Digits with single underscores between them, most significant
    first; [after_digit] tells whether the previous character was a
    digit (only then may an underscore or the end follow). *)
Fixpoint digits (acc : Z) (after_digit : bool) (s : string) : option Z :=
  match s with
  | EmptyString => if after_digit then Some acc else None
  | String c rest =>
      match digit_of c with
      | Some d => digits (10 * acc + d) true rest
      | None =>
          if Ascii.eqb c "_" && after_digit then digits acc false rest else None
      end
  end.

(** [int(s)]: surrounding white space, an optional sign, decimal
    digits. *)
Definition int_of (s : string) : option Z :=
  match strip s with
  | String "-" rest => Z.opp <$> digits 0 false rest
  | String "+" rest => digits 0 false rest
  | t => digits 0 false t
  end.

Definition repr (cmd : list string) : string :=
  "[" +:+ PyStr.join ", " (map (fun a => "'" +:+ a +:+ "'") cmd) +:+ "]".

(** A path with a component of more than 255 characters cannot be
    looked up at all. *)
Definition stat_error (m : machine) (p : string) : option string :=
  if existsb (fun name => (255 <? String.length name)%nat) (PyStr.split "/" p)
  then Some ("[Errno 36] File name too long: '" +:+ p +:+ "'")
  else None.

(** The signals of Linux. *)
Definition signal_names : list (Z * string) :=
  [ (1, "SIGHUP"); (2, "SIGINT"); (3, "SIGQUIT"); (4, "SIGILL"); (5, "SIGTRAP");
    (6, "SIGABRT"); (7, "SIGBUS"); (8, "SIGFPE"); (9, "SIGKILL"); (10, "SIGUSR1");
    (11, "SIGSEGV"); (12, "SIGUSR2"); (13, "SIGPIPE"); (14, "SIGALRM");
    (15, "SIGTERM"); (16, "SIGSTKFLT"); (17, "SIGCHLD"); (18, "SIGCONT");
    (19, "SIGSTOP"); (20, "SIGTSTP"); (21, "SIGTTIN"); (22, "SIGTTOU");
    (23, "SIGURG"); (24, "SIGXCPU"); (25, "SIGXFSZ"); (26, "SIGVTALRM");
    (27, "SIGPROF"); (28, "SIGWINCH"); (29, "SIGIO"); (30, "SIGPWR");
    (31, "SIGSYS"); (34, "SIGRTMIN"); (64, "SIGRTMAX") ]%Z.

Definition signal (n : Z) : option string :=
  snd <$> List.find (fun entry => (fst entry =? n)%Z) signal_names.

#[global] Instance runtime : Runtime string machine := {|
  Path_of := path_of;
  Path_div := path_div;
  Path_str := fun p => p;
  Path_exists := exists_;
  Path_stat_error := stat_error;
  Path_is_dir := is_dir;
  Path_is_file := is_file;
  Path_resolve := resolve;
  Path_mkdir_exist_ok := mkdir_exist_ok;
  os_system := fun _ m => m;
  os_execv := execv_error;
  subprocess_run := run_child;
  urlretrieve := fetch;
  copy2 := copy;
  str_strip := strip;
  str_lower := lower;
  str_capitalize := capitalize;
  int_of_str := int_of;
  repr_cmd := repr;
  signal_name := signal
|}.

End Mem.

(** ** Machines and runs used as examples *)

Module Scenario.

Definition machine_of (fs : list (string * Mem.node)) (script : list run_outcome)
    : Mem.machine :=
  {| Mem.files := list_to_map fs; Mem.cwd := "/home/u"; Mem.run_script := script;
     Mem.unreachable := []; Mem.venv_symlinks := false;
     Mem.windows_layout := false |}.

Definition start (m : Mem.machine) : state string Mem.machine :=
  {| st_env := m; st_out := [] |}.

(** A directory [dir] that holds the regular files [names]. *)
Definition folder_with (dir : string) (names : list string)
    : list (string * Mem.node) :=
  (dir, Mem.Dir) :: map (fun f => (Mem.path_div dir f, Mem.File ("old " +:+ f))) names.

(** A Linux host with a system interpreter and no environment yet. *)
Definition host_files : list (string * Mem.node) :=
  [ ("/usr/bin/python3", Mem.File "python"); ("/home/u", Mem.Dir) ].

Definition venv_files : list (string * Mem.node) :=
  [ ("/home/u/Chatterbox_TTS", Mem.Dir);
    ("/home/u/Chatterbox_TTS/bin", Mem.Dir);
    ("/home/u/Chatterbox_TTS/bin/python", Mem.File "python");
    ("/home/u/Chatterbox_TTS/bin/pip", Mem.File "pip") ].

Definition host : Mem.machine := machine_of host_files [].

Definition pr_host : process :=
  {| sys_executable := "/usr/bin/python3";
     script_file := "ChatterboxInstaller.py";
     version_major := 3; version_minor := 11;
     platform_system := "Linux" |}.

Definition pr_windows : process :=
  {| sys_executable := "C:/Python311/python.exe";
     script_file := "ChatterboxInstaller.py";
     version_major := 3; version_minor := 11;
     platform_system := "Windows" |}.

Definition venv_python : string := "/home/u/Chatterbox_TTS/bin/python".

(** The process that runs the installer inside the environment. *)
Definition pr_venv : process := process_after_execv pr_host venv_python.

Definition v_linux : venv string := venv_paths "linux" "/home/u/Chatterbox_TTS".

(** The same host, where [python -m venv] links the environment's
    interpreter to the system one (the default on Linux). *)
Definition host_linking : Mem.machine :=
  {| Mem.files := list_to_map host_files; Mem.cwd := "/home/u";
     Mem.run_script := []; Mem.unreachable := []; Mem.venv_symlinks := true;
     Mem.windows_layout := false |}.

(** The host after a first run has created the environment. *)
Definition host_with_venv : Mem.machine := machine_of (host_files ++ venv_files) [].

(** The same, with a package index that is down: the next two child
    processes exit with status 1. *)
Definition pip_failing_twice : Mem.machine :=
  machine_of (host_files ++ venv_files) [Exited 1; Exited 1].

(** The same, with one failure only. *)
Definition pip_failing_once : Mem.machine :=
  machine_of (host_files ++ venv_files) [Exited 1].

(** Standard model, download mode, CPU backend. *)
Definition cpu_download : list input_event := [Line "1"; Line "y"; Line "1"].

(** Standard model, download mode, CUDA backend. *)
Definition cuda_download : list input_event := [Line "1"; Line "y"; Line "3"].

(** Standard model, download mode, ROCm backend. *)
Definition rocm_download : list input_event := [Line "1"; Line "y"; Line "2"].


(** A folder in which every expected Standard name is a subdirectory. *)
Definition original_as_directories : Mem.machine :=
  machine_of
    (host_files ++ ("/models/dirs", Mem.Dir)
       :: map (fun f => (Mem.path_div "/models/dirs" f, Mem.Dir)) ORIGINAL_EXPECTED)
    [].

(** A model directory that already holds every Standard file. *)
Definition model_dir_complete : Mem.machine :=
  machine_of (host_files ++ venv_files ++ folder_with "/home/u/Model" ORIGINAL_EXPECTED)
    [].

(** A supplied Standard folder, and a model directory that already
    holds an older [t3_cfg.safetensors]. *)
Definition supplied_and_stale : Mem.machine :=
  machine_of
    (host_files
       ++ ("/models/orig", Mem.Dir)
       :: map (fun f => (Mem.path_div "/models/orig" f, Mem.File ("new " +:+ f)))
            ORIGINAL_EXPECTED
       ++ folder_with "/home/u/Model" ["t3_cfg.safetensors"])
    [].


(** A host that is neither Windows nor Linux. *)
Definition pr_mac : process :=
  {| sys_executable := "/usr/bin/python3";
     script_file := "ChatterboxInstaller.py";
     version_major := 3; version_minor := 11;
     platform_system := "Darwin" |}.

(** The first Standard locator, and a host from which it cannot be
    fetched. *)
Definition first_locator : string :=
  "https://huggingface.co/ResembleAI/chatterbox/resolve/main/t3_cfg.safetensors?download=true".

Definition repository_down : Mem.machine :=
  {| Mem.files := list_to_map (host_files ++ venv_files); Mem.cwd := "/home/u";
     Mem.run_script := []; Mem.unreachable := [first_locator];
     Mem.venv_symlinks := false; Mem.windows_layout := false |}.

(** An environment whose [pip] script is gone; [ensurepip] exits with
    the given status. *)
Definition venv_without_pip (status : Z) : Mem.machine :=
  machine_of
    (host_files ++ [ ("/home/u/Chatterbox_TTS", Mem.Dir);
                     ("/home/u/Chatterbox_TTS/bin", Mem.Dir);
                     ("/home/u/Chatterbox_TTS/bin/python", Mem.File "python") ])
    [Exited status].

(** A folder typed between double quotes, with blanks around it. *)
Definition quoted_folder : string :=
  " " +:+ String dquote ("/models/orig" +:+ String dquote " ").

(** Standard model, user-supplied: a folder that does not exist, the
    answer to "Try again?", then the quoted folder. *)
Definition supplied_after_retry : list input_event :=
  [Line "/nowhere"; Line " Y "; Line quoted_folder; Line "1"].

(** The selection of a user who supplied the folder [dir]. *)
Definition supplied_from (dir : string) : selection string :=
  {| is_turbo := false; is_user_supplied := true; user_model_path := Some dir |}.

(** The second probe of the verification fails, the others pass. *)
Definition one_import_fails : Mem.machine :=
  machine_of (host_files ++ venv_files) [Exited 0; Exited 1].



End Scenario.

(** ** Notions used to state the properties *)

Section Notions.

Context {Path Env : Type} {RT : Runtime Path Env}.


(** The state after some more events. *)
Definition log (s : state Path Env) (evs : list (event Path)) : state Path Env :=
  {| st_env := st_env s; st_out := st_out s ++ evs |}.

(** What [print_options i options] prints. *)
Fixpoint option_lines (i : Z) (options : list string) : list (event Path) :=
  match options with
  | [] => []
  | option :: rest =>
      EvPrint (PyStr.of_Z i +:+ ". " +:+ option) :: option_lines (i + 1) rest
  end.

(** What one round of [get_user_choice] shows before it reads. *)
Definition menu_events (prompt : string) (options : list string)
    : list (event Path) :=
  [EvPrint prompt] ++ option_lines 1 options
    ++ [EvPrompt (nl +:+ "Enter your choice (number): ")].

(** What [pip_install] adds to the output between the first failure
    with status [rc] and the end of the second attempt. *)
Definition retry_notice (cmd : list string) (rc : Z) : list (event Path) :=
  [ EvPrint ("⚠️  Install failed: " +:+ exn_str (CalledProcessError cmd rc));
    EvPrint "⚠️  Retrying once...";
    EvRun cmd ].

(** What the dependency loop prints when it gives up on [dep]. *)
Definition failure_notice (dep : string) (e : exn) : list (event Path) :=
  [ EvPrint ("⚠️  Failed to install " +:+ dep +:+ ": " +:+ exn_str e);
    EvPrint "⚠️  Continuing with remaining dependencies..." ].

(** What [print_header text] prints. *)
Definition header_events (text : string) : list (event Path) :=
  [ EvPrint (nl +:+ str_repeat "=" 70);
    EvPrint ("  " +:+ text);
    EvPrint (str_repeat "=" 70 +:+ nl) ].

(** The state in which step 1 of [main] starts on a supported host:
    screen cleared, banner printed. *)
Definition banner (pr : process) (s : state Path Env) : state Path Env :=
  let OS := str_lower (platform_system pr) in
  let cmd := if String.eqb OS "windows" then "cls" else "clear" in
  {| st_env := os_system cmd (st_env s);
     st_out := st_out s
       ++ EvSystem cmd :: header_events "Chatterbox-TTS Installer"
       ++ [EvPrint ("Detected OS: " +:+ str_capitalize OS +:+ nl)] |}.

(** A line that [get_user_choice] refuses: not a number, or a number
    out of range. *)
Definition refused (options : list string) (ev : input_event) : Prop :=
  match ev with
  | Line text =>
      match int_of_str (str_strip text) with
      | None => True
      | Some n => ~ (1 <= n <= Z.of_nat (length options))%Z
      end
  | Interrupt => False
  end.

(** The package index of step 4 for a backend choice. *)
Definition torch_index (backend_choice : Z) : string :=
  if (backend_choice =? 1)%Z then "https://download.pytorch.org/whl/cpu"
  else if (backend_choice =? 2)%Z then "https://download.pytorch.org/whl/rocm6.2.4"
  else "https://download.pytorch.org/whl/cu124".

(** The skip notice of the download loop. *)
Definition skip_notice (url : string) : event Path :=
  EvPrint ("✓ " +:+ url_filename url +:+ " already exists, skipping").

(** The child processes started, the downloads and the copies among
    some events. *)
Definition commands_run (evs : list (event Path)) : list (list string) :=
  flat_map (fun ev => match ev with EvRun cmd => [cmd] | _ => [] end) evs.

Definition fetches (evs : list (event Path)) : list (string * Path) :=
  flat_map (fun ev => match ev with EvFetch url dest => [(url, dest)] | _ => [] end) evs.

Definition copies (evs : list (event Path)) : list (Path * Path) :=
  flat_map (fun ev => match ev with EvCopy src dst => [(src, dst)] | _ => [] end) evs.

(** An event that is only text on the terminal. *)
Definition talk (ev : event Path) : Prop :=
  match ev with
  | EvPrint _ | EvPrompt _ => True
  | _ => False
  end.

(** A computation that does nothing but print and prompt: it leaves
    the machine alone and adds only terminal text to the events. *)
Definition only_talks {A : Type} (m : M Path Env A) : Prop :=
  forall s, exists evs, snd (m s) = log s evs /\ Forall talk evs.

(** The menu of step 1. *)
Definition model_options : list string :=
  [ "Chatterbox (Original): Zero-shot cloning, Multiple Languages, Slower";
    "Chatterbox (Turbo): Paralinguistic Tags ([laugh]), Lower Compute and VRAM, Faster, May reduce quality";
    "Chatterbox (Original, User Supplied): Same as Option 1, but you will supply the model files";
    "Chatterbox (Turbo, User Supplied): Same as Option 2, but you will supply files" ].

(** The folder a line of input names: stripped of white space, then of
    a surrounding pair of double quotes. *)
Definition typed_folder (text : string) : string := strip_quotes (str_strip text).

(** The input of failed attempts at the folder prompt: each a line with
    a folder, then the answer to "Try again?". *)
Definition attempts (tries : list (string * string)) : list input_event :=
  flat_map (fun '(text, answer) => [Line text; Line answer]) tries.

(** What step 4 announces for a backend choice. *)
Definition step4_label (backend_choice : Z) : string :=
  if (backend_choice =? 1)%Z then "Installing CPU-only PyTorch..."
  else if (backend_choice =? 2)%Z then "Installing ROCm PyTorch..."
  else "Installing CUDA PyTorch...".

(** The import probe of step 7 for a package. *)
Definition probe_cmd (v : venv Path) (pkg : string) : list string :=
  [Path_str (PYTHON_EXE v); "-c"; "import " +:+ pkg].

(** A computation whose new events all satisfy [P] (it may change the
    machine). *)
Definition emits_only {A : Type} (P : event Path -> Prop) (m : M Path Env A) : Prop :=
  forall s, exists evs, st_out (snd (m s)) = st_out s ++ evs /\ Forall P evs.

Definition not_fetch (ev : event Path) : Prop :=
  match ev with EvFetch _ _ => False | _ => True end.

Definition not_copy (ev : event Path) : Prop :=
  match ev with EvCopy _ _ => False | _ => True end.

(** A computation that succeeds by printing: it returns a value,
    leaves the machine alone and adds only terminal text. *)
Definition says {A : Type} (m : M Path Env A) : Prop :=
  forall s, exists a evs, m s = (Ok a, log s evs) /\ Forall talk evs.

(** What the final summary says about the verification. *)
Definition verdict (failed_packages : list string) : list (event Path) :=
  match failed_packages with
  | _ :: _ =>
      [ EvPrint "⚠️  Installation completed with warnings";
        EvPrint ("Failed packages: " +:+ PyStr.join ", " failed_packages +:+ nl) ]
  | [] => [ EvPrint ("✓ " +:+ "All components installed successfully!" +:+ nl) ]
  end.

(** The ways a part of the installer may end: with a value, with
    [sys.exit(0)] or [sys.exit(1)], with another exception, or with the
    process replaced by a program that is given [script] as its only
    argument. *)
Definition ends_well {A : Type} (script : string) (r : result A) : Prop :=
  match r with
  | Ok _ => True
  | Raise (SystemExit code) => code = 0%Z \/ code = 1%Z
  | Raise _ => True
  | Replaced prog argv => argv = [prog; script]
  end.

Definition always_ends_well {A : Type} (script : string) (m : M Path Env A) : Prop :=
  forall s, ends_well script (fst (m s)).

(** A probe passes when the child exits with status 0. *)
Definition probe_passed (outcome : run_outcome) : bool :=
  match outcome with
  | Exited rc => (rc =? 0)%Z
  | SpawnFailed _ => false
  end.


(** The validator's verdict on a folder, when it reaches one. *)
Definition validity (e : Env) (folder_path : string) (expected_files : list string)
    : option bool :=
  match validate_user_supplied_files e folder_path expected_files with
  | Returns (valid, _) => Some valid
  | Raises _ => None
  end.

End Notions.

(** * Properties *)

(** ** The asset manifest *)

(** The pieces of [split] put back together with the separator give the
    string again. *)
Lemma split_nonempty (sep : ascii) (s : string) : PyStr.split sep s <> [].
Proof.
  destruct s as [|c rest]; simpl; [discriminate|].
  destruct (Ascii.eqb c sep); [discriminate|].
  destruct (PyStr.split sep rest); discriminate.
Qed.

(** A string without the separator is its own single piece. *)
Lemma split_without_sep (sep : ascii) (s : string) :
  (forall c, In c (list_ascii_of_string s) -> c <> sep) ->
  PyStr.split sep s = [s].
Proof.
  induction s as [|c rest IH]; simpl; intros Hno; [reflexivity|].
  destruct (Ascii.eqb_spec c sep) as [->|_].
  - exfalso. apply (Hno sep); [left; reflexivity | reflexivity].
  - rewrite IH; [reflexivity|]. intros d Hd. apply Hno. right. exact Hd.
Qed.

(** Splitting [a ++ sep ++ b] when [a] has no separator: [a], then the
    pieces of [b]. *)
Lemma split_app_sep (sep : ascii) (a b : string) :
  (forall c, In c (list_ascii_of_string a) -> c <> sep) ->
  PyStr.split sep (a +:+ String sep b) = a :: PyStr.split sep b.
Proof.
  induction a as [|c rest IH]; simpl; intros Hno.
  - rewrite Ascii.eqb_refl. reflexivity.
  - destruct (Ascii.eqb_spec c sep) as [->|_].
    + exfalso. apply (Hno sep); [left; reflexivity | reflexivity].
    + rewrite IH; [reflexivity|]. intros d Hd. apply Hno. right. exact Hd.
Qed.

(** Splitting [base ++ sep ++ b] for any [base]: at least one piece
    for [base], then the pieces of [b]. *)
Lemma split_app_any (sep : ascii) (base b : string) :
  exists w ws,
    PyStr.split sep (base +:+ String sep b) = (w :: ws) ++ PyStr.split sep b.
Proof.
  induction base as [|c rest (w & ws & IH)]; simpl.
  - rewrite Ascii.eqb_refl. exists EmptyString, []. reflexivity.
  - rewrite IH. destruct (Ascii.eqb c sep).
    + exists EmptyString, (w :: ws). reflexivity.
    + exists (String c w), ws. reflexivity.
Qed.

Lemma last_app_cons {A : Type} (l1 l2 : list A) (x d : A) :
  List.last (l1 ++ x :: l2) d = List.last (x :: l2) d.
Proof.
  induction l1 as [|y l1 IH]; [reflexivity|].
  change ((y :: l1) ++ x :: l2) with (y :: (l1 ++ x :: l2)).
  destruct (l1 ++ x :: l2) eqn:E.
  - destruct l1; discriminate E.
  - rewrite <- IH. reflexivity.
Qed.

(** The last piece of [base ++ sep ++ b] is the last piece of [b]. *)
Lemma split_last_app (sep : ascii) (base b : string) :
  PyStr.item_last (PyStr.split sep (base +:+ String sep b))
  = PyStr.item_last (PyStr.split sep b).
Proof.
  unfold PyStr.item_last.
  destruct (split_app_any sep base b) as (w & ws & ->).
  destruct (PyStr.split sep b) as [|u us] eqn:E.
  - exfalso. exact (split_nonempty _ _ E).
  - apply last_app_cons.
Qed.

(** X4: [url_filename] takes the final path segment and drops the query
    string: for a locator [base/name?query] it is [name]. *)
Lemma url_filename_segment (base name query : string) :
  (forall c, In c (list_ascii_of_string name) -> c <> "/"%char /\ c <> "?"%char) ->
  (forall c, In c (list_ascii_of_string query) -> c <> "/"%char) ->
  url_filename (base +:+ "/" +:+ name +:+ "?" +:+ query) = name.
Proof.
  intros Hname Hquery. unfold url_filename.
  change (base +:+ "/" +:+ name +:+ "?" +:+ query)
    with (base +:+ String "/" (name +:+ String "?" query)).
  rewrite split_last_app.
  rewrite (split_without_sep "/").
  - unfold PyStr.item_last, List.last.
    rewrite split_app_sep; [reflexivity|].
    intros c Hc. apply Hname. exact Hc.
  - intros c Hc.
    assert (Hin : In c (list_ascii_of_string name) \/ c = "?"%char
                  \/ In c (list_ascii_of_string query)).
    { clear -Hc. induction name as [|d rest IH]; simpl in *.
      - destruct Hc as [<-|Hc]; auto.
      - destruct Hc as [<-|Hc]; [left; left; reflexivity|].
        destruct (IH Hc) as [H|[H|H]]; auto. }
    destruct Hin as [H|[->|H]].
    + apply Hname. exact H.
    + discriminate.
    + apply Hquery. exact H.
Qed.

(** The local names of the Standard locators, in manifest order. *)
Lemma original_filenames : map url_filename ORIGINAL_FILES = ORIGINAL_EXPECTED.
Proof. reflexivity. Qed.

(** The local names of the Turbo locators, in manifest order. *)
Lemma turbo_filenames :
  map url_filename TURBO_FILES =
  [ "s3gen.safetensors"; "conds.pt"; "added_tokens.json";
    "s3gen_meanflow.safetensors"; "special_tokens_map.json";
    "t3_turbo_v1.safetensors"; "t3_turbo_v1.yaml"; "tokenizer_config.json";
    "ve.safetensors"; "vocab.json"; "merges.txt" ].
Proof. reflexivity. Qed.

Lemma turbo_filenames_perm : map url_filename TURBO_FILES ≡ₚ TURBO_EXPECTED.
Proof. apply (bool_decide_unpack _). vm_compute. exact I. Qed.

(** C6: every locator names exactly one expected file.  The names
    derived from [ORIGINAL_FILES] are [ORIGINAL_EXPECTED] (in the same
    order), those derived from [TURBO_FILES] are [TURBO_EXPECTED] up to
    order, and within a manifest no two locators derive the same name. *)
Theorem manifest_locators_match_expected :
  map url_filename ORIGINAL_FILES = ORIGINAL_EXPECTED
  /\ map url_filename TURBO_FILES ≡ₚ TURBO_EXPECTED
  /\ NoDup (map url_filename ORIGINAL_FILES)
  /\ NoDup (map url_filename TURBO_FILES).
Proof.
  split; [exact original_filenames|].
  split; [exact turbo_filenames_perm|].
  split; apply (bool_decide_unpack _); vm_compute; exact I.
Qed.

(** C3, as stated, fails: a name expected for Standard is also expected
    for Turbo. *)
Lemma expected_sets_not_disjoint :
  ~ (forall f, In f ORIGINAL_EXPECTED -> ~ In f TURBO_EXPECTED).
Proof.
  intros H. apply (H "s3gen.safetensors"); simpl; tauto.
Qed.

(** C3, amended: the two expected-name lists share exactly
    [s3gen.safetensors] and [ve.safetensors]. *)
Theorem expected_sets_overlap (f : string) :
  In f ORIGINAL_EXPECTED /\ In f TURBO_EXPECTED
  <-> f = "s3gen.safetensors" \/ f = "ve.safetensors".
Proof.
  split.
  - intros [Ho Ht]. simpl in Ho.
    destruct Ho as [<-|[<-|[<-|[<-|[]]]]]; auto;
      exfalso; simpl in Ht;
      repeat (destruct Ht as [Ht|Ht]; [discriminate Ht|]); exact Ht.
  - intros [->| ->]; simpl; tauto.
Qed.

Section Properties.

Context {Path Env : Type} {RT : Runtime Path Env}.

#[local] Abbreviation state := (state Path Env).
#[local] Abbreviation venv := (venv Path).

(** ** The supplied-asset validator *)










(** ** Backend selection *)

(** The check that follows the backend menu, on its own: it raises
    [SystemExit(1)] exactly for the ROCm choice (2) on a host that is
    not Linux; for every other pair it returns without any effect. *)
Lemma validate_backend_choice_spec (OS : string) (backend_choice : Z) (s : state) :
  (backend_choice = 2%Z /\ OS <> "linux" ->
     fst (validate_backend_choice OS backend_choice s) = Raise (SystemExit 1)
     /\ ending_of (fst (validate_backend_choice OS backend_choice s)) = ExitStatus 1
     /\ st_env (snd (validate_backend_choice OS backend_choice s)) = st_env s)
  /\ (~ (backend_choice = 2%Z /\ OS <> "linux") ->
     validate_backend_choice OS backend_choice s = (Ok tt, s)).
Proof.
  unfold validate_backend_choice. split.
  - intros [-> Hos]. apply String.eqb_neq in Hos. rewrite Hos. simpl. auto.
  - intros Hnot.
    destruct (Z.eqb_spec backend_choice 2) as [->|Hb]; simpl.
    + destruct (String.eqb_spec OS "linux") as [->|Hos]; simpl; [reflexivity|].
      exfalso. apply Hnot. split; [reflexivity | exact Hos].
    + reflexivity.
Qed.

(** ** The installer monad *)

Lemma log_nil (s : state) : log s [] = s.
Proof. destruct s. unfold log. simpl. rewrite app_nil_r. reflexivity. Qed.

Lemma log_log (s : state) (evs1 evs2 : list (event Path)) :
  log (log s evs1) evs2 = log s (evs1 ++ evs2).
Proof. unfold log. simpl. rewrite app_assoc. reflexivity. Qed.

Lemma bind_ok {A B : Type} (m : M Path Env A) (f : A -> M Path Env B)
    (s s' : state) (a : A) :
  m s = (Ok a, s') -> (m ≫= f) s = f a s'.
Proof. intros H. unfold mbind, M_bind. rewrite H. reflexivity. Qed.

Lemma bind_raise {A B : Type} (m : M Path Env A) (f : A -> M Path Env B)
    (s s' : state) (e : exn) :
  m s = (Raise e, s') -> (m ≫= f) s = (Raise e, s').
Proof. intros H. unfold mbind, M_bind. rewrite H. reflexivity. Qed.

Lemma bind_replaced {A B : Type} (m : M Path Env A) (f : A -> M Path Env B)
    (s s' : state) (prog : string) (argv : list string) :
  m s = (Replaced prog argv, s') -> (m ≫= f) s = (Replaced prog argv, s').
Proof. intros H. unfold mbind, M_bind. rewrite H. reflexivity. Qed.

Lemma emit_eq (ev : event Path) (s : state) : emit ev s = (Ok tt, log s [ev]).
Proof. reflexivity. Qed.

Lemma print_eq (text : string) (s : state) :
  print text s = (Ok tt, log s [EvPrint text]).
Proof. reflexivity. Qed.

Lemma print_options_eq (i : Z) (options : list string) (s : state) :
  print_options i options s = (Ok tt, log s (option_lines i options)).
Proof.
  revert i s. induction options as [|option rest IH]; intros i s; simpl.
  - rewrite log_nil. reflexivity.
  - erewrite bind_ok by apply print_eq. rewrite IH, log_log. reflexivity.
Qed.

(** ** The menu primitive *)

Lemma get_user_choice_unfold (prompt : string) (options : list string)
    (inp : list input_event) (s : state) :
  get_user_choice prompt options inp s =
  let s1 := log s (menu_events prompt options) in
  match inp with
  | [] => (Raise EOFError, s1)
  | Interrupt :: _ =>
      (Raise (SystemExit 0),
       log s1 [EvPrint (nl +:+ nl +:+ "Installation cancelled.")])
  | Line text :: rest =>
      match int_of_str (str_strip text) with
      | None =>
          get_user_choice prompt options rest
            (log s1 [EvPrint "✗ Please enter a valid number"])
      | Some choice_num =>
          if (1 <=? choice_num)%Z && (choice_num <=? Z.of_nat (length options))%Z
          then (Ok (choice_num, rest), s1)
          else
            get_user_choice prompt options rest
              (log s1 [EvPrint ("✗ Please enter a number between 1 and "
                                  +:+ PyStr.of_Z (Z.of_nat (length options)))])
      end
  end.
Proof.
  assert (Hmenu : forall B (k : M Path Env B),
            (print prompt ;; print_options 1 options ;;
             emit (EvPrompt (nl +:+ "Enter your choice (number): ")) ;; k) s
            = k (log s (menu_events prompt options))).
  { intros B k.
    erewrite bind_ok by apply print_eq.
    erewrite bind_ok by apply print_options_eq.
    erewrite bind_ok by apply emit_eq.
    rewrite !log_log. reflexivity. }
  destruct inp as [|[text|] rest]; simpl.
  - rewrite Hmenu. reflexivity.
  - rewrite Hmenu.
    destruct (int_of_str (str_strip text)) as [n|].
    + destruct ((1 <=? n)%Z && (n <=? Z.of_nat (length options))%Z); reflexivity.
    + reflexivity.
  - rewrite Hmenu. reflexivity.
Qed.

(** How [get_user_choice] can end: with an index in range, with
    [sys.exit(0)], or with the [EOFError] of [input()] at the end of
    the input. *)
Lemma get_user_choice_ends (prompt : string) (options : list string)
    (inp : list input_event) (s : state) :
  match fst (get_user_choice prompt options inp s) with
  | Ok (n, _) => (1 <= n <= Z.of_nat (length options))%Z
  | Raise (SystemExit code) => code = 0%Z
  | Raise EOFError => True
  | _ => False
  end.
Proof.
  revert s. induction inp as [|[text|] rest IH]; intros s;
    rewrite get_user_choice_unfold; simpl; auto.
  destruct (int_of_str (str_strip text)) as [n|]; [|apply IH].
  destruct (Z.leb_spec 1 n); simpl; [|apply IH].
  destruct (Z.leb_spec n (Z.of_nat (length options))); simpl; [lia | apply IH].
Qed.

(** X22: after any number of refused lines, the first number in range
    is returned, with the input that follows it, and the machine is as
    it was. *)
Lemma get_user_choice_returns (prompt : string) (options : list string)
    (junk : list input_event) (text : string) (n : Z) (rest : list input_event)
    (s : state) :
  Forall (refused options) junk ->
  int_of_str (str_strip text) = Some n ->
  (1 <= n <= Z.of_nat (length options))%Z ->
  exists s', get_user_choice prompt options (junk ++ Line text :: rest) s
             = (Ok (n, rest), s')
             /\ st_env s' = st_env s.
Proof.
  intros Hjunk Hint Hrange. revert s.
  induction Hjunk as [|ev junk Hev _ IH]; intros s;
    rewrite get_user_choice_unfold; simpl.
  - rewrite Hint.
    destruct (Z.leb_spec 1 n); simpl; [|lia].
    destruct (Z.leb_spec n (Z.of_nat (length options))); simpl; [|lia].
    eexists. split; reflexivity.
  - destruct ev as [line|]; [|contradiction]. simpl in Hev.
    destruct (int_of_str (str_strip line)) as [k|].
    + destruct (Z.leb_spec 1 k); simpl;
        [destruct (Z.leb_spec k (Z.of_nat (length options))); simpl; [lia|]|];
        destruct (IH (log (log s (menu_events prompt options))
                        [EvPrint ("✗ Please enter a number between 1 and "
                                    +:+ PyStr.of_Z (Z.of_nat (length options)))]))
          as (s' & -> & Henv); eexists; split; [reflexivity | exact Henv | reflexivity | exact Henv].
    + destruct (IH (log (log s (menu_events prompt options))
                      [EvPrint "✗ Please enter a valid number"]))
        as (s' & -> & Henv).
      eexists. split; [reflexivity | exact Henv].
Qed.

(** C8: [get_user_choice] never returns an index outside
    [1..len(options)]; a line that is not a number, or a number out of
    range, prints an error and asks again with the rest of the input; a
    number in range is returned; Ctrl-C ends the process with status 0. *)
Theorem get_user_choice_spec (prompt : string) (options : list string)
    (inp : list input_event) (s : state) :
  let s1 := log s (menu_events prompt options) in
  let len := Z.of_nat (length options) in
  (forall n rest s',
     get_user_choice prompt options inp s = (Ok (n, rest), s') ->
     (1 <= n <= len)%Z)
  /\ (forall text rest,
        inp = Line text :: rest -> int_of_str (str_strip text) = None ->
        get_user_choice prompt options inp s
        = get_user_choice prompt options rest
            (log s1 [EvPrint "✗ Please enter a valid number"]))
  /\ (forall text rest n,
        inp = Line text :: rest -> int_of_str (str_strip text) = Some n ->
        ~ (1 <= n <= len)%Z ->
        get_user_choice prompt options inp s
        = get_user_choice prompt options rest
            (log s1 [EvPrint ("✗ Please enter a number between 1 and "
                                +:+ PyStr.of_Z len)]))
  /\ (forall text rest n,
        inp = Line text :: rest -> int_of_str (str_strip text) = Some n ->
        (1 <= n <= len)%Z ->
        get_user_choice prompt options inp s = (Ok (n, rest), s1))
  /\ (forall rest,
        inp = Interrupt :: rest ->
        get_user_choice prompt options inp s
        = (Raise (SystemExit 0),
           log s1 [EvPrint (nl +:+ nl +:+ "Installation cancelled.")])
        /\ ending_of (Raise (SystemExit 0)) = ExitStatus 0).
Proof.
  intros s1 len. split; [|split; [|split; [|split]]].
  - intros n rest s' Hret.
    pose proof (get_user_choice_ends prompt options inp s) as Hends.
    rewrite Hret in Hends. exact Hends.
  - intros text rest -> Hint. rewrite get_user_choice_unfold. simpl.
    rewrite Hint. reflexivity.
  - intros text rest n -> Hint Hout. rewrite get_user_choice_unfold. simpl.
    rewrite Hint.
    destruct (Z.leb_spec 1 n); simpl; [|reflexivity].
    destruct (Z.leb_spec n (Z.of_nat (length options))); simpl; [|reflexivity].
    exfalso. apply Hout. unfold len. lia.
  - intros text rest n -> Hint Hin. rewrite get_user_choice_unfold. simpl.
    rewrite Hint.
    destruct (Z.leb_spec 1 n); simpl; [|lia].
    destruct (Z.leb_spec n (Z.of_nat (length options))); simpl; [reflexivity|].
    unfold len in Hin. lia.
  - intros rest ->. rewrite get_user_choice_unfold. split; reflexivity.
Qed.

(** ** From the backend check to the end of the run *)

Lemma print_header_eq (text : string) (s : state) :
  print_header text s = (Ok tt, log s (header_events text)).
Proof.
  unfold print_header, print, emit, mbind, M_bind, log, header_events. simpl.
  rewrite <- !app_assoc. reflexivity.
Qed.

(** Step 2 with the ROCm choice on a host that is not Linux. *)
Lemma main_step2_rocm_off_linux (OS : string) (inp inp' : list input_event)
    (s s2 : state) :
  OS <> "linux" ->
  get_user_choice EmptyString backend_options inp
    (log s (header_events "Step 2: Backend Selection"
              ++ [EvPrint ("Great! Now, you'll need to choose your backend:" +:+ nl)]))
  = (Ok (2%Z, inp'), s2) ->
  main_step2 OS inp s
  = (Raise (SystemExit 1),
     log s2 [EvPrint "✗ AMD ROCm is only supported on Linux!";
             EvPrint "Please restart and choose a different backend."]).
Proof.
  intros Hos Hchoice. unfold main_step2.
  erewrite bind_ok by apply print_header_eq.
  erewrite bind_ok by apply print_eq.
  rewrite log_log.
  erewrite bind_ok by exact Hchoice.
  destruct (validate_backend_choice OS 2 s2) as [r s3] eqn:Hcheck.
  unfold validate_backend_choice in Hcheck. simpl in Hcheck.
  apply String.eqb_neq in Hos. rewrite Hos in Hcheck. simpl in Hcheck.
  unfold print_error, print, emit, sys_exit, raise, mbind, M_bind in Hcheck.
  simpl in Hcheck. injection Hcheck as <- <-.
  unfold mbind, M_bind, validate_backend_choice. simpl. rewrite Hos. simpl.
  unfold log. simpl. rewrite <- !app_assoc. reflexivity.
Qed.

(** An exception of step 2 is the outcome of [main]. *)
Lemma main_raises_at_step2 (pr : process) (inp inp1 : list input_event)
    (s s1 s2 : state) (sel : selection Path) (e : exn) :
  existsb (String.eqb (str_lower (platform_system pr))) ["windows"; "linux"] = true ->
  main_step1 inp (banner pr s) = (Ok (sel, inp1), s1) ->
  main_step2 (str_lower (platform_system pr)) inp1 s1 = (Raise e, s2) ->
  main pr inp s = (Raise e, s2).
Proof.
  intros Hos H1 H2. unfold main. rewrite Hos. cbn [negb].
  erewrite bind_ok by reflexivity.
  erewrite bind_ok by (unfold clear_screen; reflexivity).
  erewrite bind_ok by apply print_header_eq.
  erewrite bind_ok by apply print_eq.
  match goal with |- (main_step1 inp ≫= _) ?s0 = _ =>
    replace s0 with (banner pr s)
      by (unfold banner, log; simpl; rewrite <- !app_assoc; reflexivity)
  end.
  erewrite bind_ok by exact H1. cbn beta iota.
  erewrite bind_raise by exact H2. reflexivity.
Qed.

(** X25: on a Windows host, choosing ROCm ends the whole
    run with status 1, right after the two lines of the error. *)
Lemma rocm_off_linux_ends_run (pr : process) (inp inp1 inp2 : list input_event)
    (s s1 s2 : state) (sel : selection Path) :
  str_lower (platform_system pr) = "windows" ->
  main_step1 inp (banner pr s) = (Ok (sel, inp1), s1) ->
  get_user_choice EmptyString backend_options inp1
    (log s1 (header_events "Step 2: Backend Selection"
               ++ [EvPrint ("Great! Now, you'll need to choose your backend:" +:+ nl)]))
  = (Ok (2%Z, inp2), s2) ->
  entry_point pr inp s
  = (Raise (SystemExit 1),
     log s2 [EvPrint "✗ AMD ROCm is only supported on Linux!";
             EvPrint "Please restart and choose a different backend."])
  /\ ending_of (fst (entry_point pr inp s)) = ExitStatus 1.
Proof.
  intros Hos H1 H2.
  assert (Hmain : main pr inp s
                  = (Raise (SystemExit 1),
                     log s2 [EvPrint "✗ AMD ROCm is only supported on Linux!";
                             EvPrint "Please restart and choose a different backend."])).
  { eapply main_raises_at_step2.
    - rewrite Hos. reflexivity.
    - exact H1.
    - eapply main_step2_rocm_off_linux; [|exact H2]. rewrite Hos. discriminate. }
  unfold entry_point, try_except. rewrite Hmain. simpl. auto.
Qed.

(** [sys.exit] passes through the handlers of the entry point. *)
Lemma entry_point_system_exit (pr : process) (inp : list input_event)
    (s s' : state) (code : Z) :
  main pr inp s = (Raise (SystemExit code), s') ->
  entry_point pr inp s = (Raise (SystemExit code), s')
  /\ ending_of (fst (entry_point pr inp s)) = ExitStatus code.
Proof.
  intros H. unfold entry_point, try_except. rewrite H. simpl. auto.
Qed.

(** C7: ROCm needs Linux.  On a supported host, once step 1 is through
    and the backend menu has returned a choice: the ROCm choice (2) on
    a host that is not Linux makes step 2 print the refusal and raise
    [SystemExit(1)], which no handler of [main] or of the entry point
    takes, so the run ends with status 1; every other pair of host and
    choice leaves step 2 with that choice, after the line that names
    the backend. *)
Theorem backend_check_spec (pr : process) (inp inp1 inp2 : list input_event)
    (s s1 s2 : state) (sel : selection Path) (backend_choice : Z) :
  let OS := str_lower (platform_system pr) in
  let refusal := [EvPrint "✗ AMD ROCm is only supported on Linux!";
                  EvPrint "Please restart and choose a different backend."] in
  existsb (String.eqb OS) ["windows"; "linux"] = true ->
  main_step1 inp (banner pr s) = (Ok (sel, inp1), s1) ->
  get_user_choice EmptyString backend_options inp1
    (log s1 (header_events "Step 2: Backend Selection"
               ++ [EvPrint ("Great! Now, you'll need to choose your backend:" +:+ nl)]))
  = (Ok (backend_choice, inp2), s2) ->
  (backend_choice = 2%Z /\ OS <> "linux" ->
     main_step2 OS inp1 s1 = (Raise (SystemExit 1), log s2 refusal)
     /\ entry_point pr inp s = (Raise (SystemExit 1), log s2 refusal)
     /\ ending_of (fst (entry_point pr inp s)) = ExitStatus 1)
  /\ (~ (backend_choice = 2%Z /\ OS <> "linux") ->
      main_step2 OS inp1 s1
      = (Ok (backend_choice, inp2),
         log s2 [EvPrint (nl +:+ "You selected: " +:+ backend_name_of backend_choice)])).
Proof.
  intros OS refusal Hos H1 Hchoice. subst refusal. split.
  - intros [-> Hnot].
    pose proof (main_step2_rocm_off_linux OS inp1 inp2 s1 s2 Hnot Hchoice) as H2.
    split; [exact H2|].
    apply entry_point_system_exit.
    exact (main_raises_at_step2 pr inp inp1 s s1 _ sel _ Hos H1 H2).
  - intros Hfine. unfold main_step2.
    erewrite bind_ok by apply print_header_eq.
    erewrite bind_ok by apply print_eq.
    rewrite log_log.
    erewrite bind_ok by exact Hchoice. cbn beta iota.
    assert (Hcheck : validate_backend_choice OS backend_choice s2 = (Ok tt, s2)).
    { unfold validate_backend_choice.
      destruct (Z.eqb_spec backend_choice 2) as [->|Hb]; simpl; [|reflexivity].
      destruct (String.eqb_spec OS "linux") as [->|Hnot]; simpl; [reflexivity|].
      exfalso. apply Hfine. split; [reflexivity | exact Hnot]. }
    erewrite bind_ok by exact Hcheck.
    erewrite bind_ok by apply print_eq. reflexivity.
Qed.

(** Ctrl-C that reaches the entry point ends the run with status 0. *)
Lemma entry_point_keyboard_interrupt (pr : process) (inp : list input_event)
    (s s' : state) :
  main pr inp s = (Raise KeyboardInterrupt, s') ->
  entry_point pr inp s
  = (Raise (SystemExit 0),
     log s' [EvPrint (nl +:+ nl +:+ "Installation cancelled by user.")]).
Proof.
  intros H. unfold entry_point, try_except. rewrite H. reflexivity.
Qed.

(** Any other exception that reaches the entry point ends the run with
    status 1. *)
Lemma entry_point_exception (pr : process) (inp : list input_event)
    (s s' : state) (e : exn) :
  main pr inp s = (Raise e, s') -> is_Exception e = true ->
  entry_point pr inp s
  = (Raise (SystemExit 1),
     log s' [EvPrint ("✗ Installation failed: " +:+ exn_str e); EvTraceback e]).
Proof.
  intros H He. unfold entry_point, try_except. rewrite H.
  destruct e; try discriminate He; simpl;
    unfold log, print_error, print, emit, mbind, M_bind, sys_exit, raise; simpl;
    rewrite <- !app_assoc; reflexivity.
Qed.

(** An exception of step 1 is the outcome of [main]. *)
Lemma main_raises_at_step1 (pr : process) (inp : list input_event)
    (s s1 : state) (e : exn) :
  existsb (String.eqb (str_lower (platform_system pr))) ["windows"; "linux"] = true ->
  main_step1 inp (banner pr s) = (Raise e, s1) ->
  main pr inp s = (Raise e, s1).
Proof.
  intros Hos H1. unfold main. rewrite Hos. cbn [negb].
  erewrite bind_ok by reflexivity.
  erewrite bind_ok by (unfold clear_screen; reflexivity).
  erewrite bind_ok by apply print_header_eq.
  erewrite bind_ok by apply print_eq.
  match goal with |- (main_step1 inp ≫= _) ?s0 = _ =>
    replace s0 with (banner pr s)
      by (unfold banner, log; simpl; rewrite <- !app_assoc; reflexivity)
  end.
  erewrite bind_raise by exact H1. reflexivity.
Qed.

(** X26: Ctrl-C at the first menu: the whole run ends with status 0, and
    nothing but the menu and the farewell has happened. *)
Lemma interrupt_at_first_menu_ends_run (pr : process) (rest : list input_event)
    (s : state) :
  existsb (String.eqb (str_lower (platform_system pr))) ["windows"; "linux"] = true ->
  ending_of (fst (entry_point pr (Interrupt :: rest) s)) = ExitStatus 0
  /\ commands_run (st_out (snd (entry_point pr (Interrupt :: rest) s)))
     = commands_run (st_out s).
Proof.
  intros Hos.
  destruct (main_step1 (Interrupt :: rest) (banner pr s)) as [r s1] eqn:H1.
  unfold main_step1 in H1.
  erewrite bind_ok in H1 by apply print_header_eq.
  erewrite bind_ok in H1 by apply print_eq.
  erewrite bind_ok in H1 by apply print_eq.
  erewrite bind_raise in H1 by (rewrite get_user_choice_unfold; reflexivity).
  injection H1 as <- <-.
  match goal with |- context [entry_point pr ?i s] =>
    destruct (entry_point_system_exit pr i s _ 0%Z
                (main_raises_at_step1 pr i s _ _ Hos eq_refl)) as [-> _]
  end.
  split; [reflexivity|].
  unfold banner, log, commands_run. simpl.
  rewrite !flat_map_app. simpl.
  rewrite !app_nil_r. reflexivity.
Qed.

(** ** The isolated environment *)

Lemma run_check_eq (cmd : list string) (s : state) :
  run cmd true s =
  let s' := {| st_env := snd (subprocess_run cmd (st_env s));
               st_out := st_out s ++ [EvRun cmd] |} in
  match fst (subprocess_run cmd (st_env s)) with
  | Exited rc =>
      if (rc =? 0)%Z then (Ok tt, s') else (Raise (CalledProcessError cmd rc), s')
  | SpawnFailed msg => (Raise (OSError msg), s')
  end.
Proof.
  unfold run. destruct (subprocess_run cmd (st_env s)) as [[rc|msg] e']; simpl;
    [destruct (rc =? 0)%Z|]; reflexivity.
Qed.

(** Only [os.execv] replaces the process, and then by the
    environment's interpreter. *)
Lemma ensure_venv_replaced (pr : process) (v : venv) (s s1 : state)
    (prog : string) (argv : list string) :
  ensure_venv pr v s = (Replaced prog argv, s1) ->
  prog = Path_str (PYTHON_EXE v) /\ argv = [Path_str (PYTHON_EXE v); script_file pr].
Proof.
  unfold ensure_venv, create_venv_if_missing, reexec_inside_venv, mbind, M_bind,
    get_env, print_success, print, emit, execv, mret, M_ret.
  simpl.
  destruct (Path_exists (st_env s) (VENV_DIR v)); simpl.
  - destruct (bool_decide _); simpl.
    + discriminate.
    + destruct (os_execv _ _ _); [discriminate|]. intros H. inversion H. auto.
  - rewrite run_check_eq. simpl.
    destruct (fst (subprocess_run _ _)) as [rc|msg]; [|discriminate].
    destruct (rc =? 0)%Z; [|discriminate]. simpl.
    destruct (bool_decide _); simpl.
    + discriminate.
    + destruct (os_execv _ _ _); [discriminate|]. intros H. inversion H. auto.
Qed.

(** C1: the environment-ensure step.  A missing environment root is
    created by [python -m venv], and a creation that fails ends the
    step; an existing root is left alone.  Then, if the running
    interpreter and the environment's interpreter resolve to different
    paths, the step does not return: [os.execv] replaces the process by
    the environment's interpreter on the same script.  Run again by
    that interpreter with the environment in place, the step returns
    having created nothing and replaced nothing. *)
Theorem ensure_venv_spec (pr : process) (v : venv) (s : state) :
  let e := st_env s in
  let venv_cmd := [sys_executable pr; "-m"; "venv"; Path_str (VENV_DIR v)] in
  let python := Path_str (PYTHON_EXE v) in
  let creation := [EvPrint "Creating virtual environment..."; EvRun venv_cmd] in
  let created := creation ++ [EvPrint "✓ Virtual environment created"] in
  let handover := [EvPrint "Activating virtual environment...";
                   EvExecv python [python; script_file pr]] in
  (* the root is absent: it is created, and then the process is replaced *)
  (forall e1,
     Path_exists e (VENV_DIR v) = false ->
     subprocess_run venv_cmd e = (Exited 0, e1) ->
     Path_resolve e1 (Path_of (sys_executable pr)) <> Path_resolve e1 (PYTHON_EXE v) ->
     fst (ensure_venv pr v s) <> Ok tt
     /\ snd (ensure_venv pr v s)
        = {| st_env := e1; st_out := st_out s ++ created ++ handover |}
     /\ (os_execv python [python; script_file pr] e1 = None ->
         fst (ensure_venv pr v s) = Replaced python [python; script_file pr]))
  (* the root is absent and cannot be created: no hand-over *)
  /\ (forall rc e1,
        Path_exists e (VENV_DIR v) = false ->
        subprocess_run venv_cmd e = (Exited rc, e1) -> rc <> 0%Z ->
        ensure_venv pr v s
        = (Raise (CalledProcessError venv_cmd rc),
           {| st_env := e1; st_out := st_out s ++ creation |}))
  (* the root is there, another interpreter runs: nothing is created,
     the process is replaced *)
  /\ (Path_exists e (VENV_DIR v) = true ->
      Path_resolve e (Path_of (sys_executable pr)) <> Path_resolve e (PYTHON_EXE v) ->
      fst (ensure_venv pr v s) <> Ok tt
      /\ snd (ensure_venv pr v s)
         = log s (EvPrint "✓ Virtual environment already exists" :: handover)
      /\ (os_execv python [python; script_file pr] e = None ->
          fst (ensure_venv pr v s) = Replaced python [python; script_file pr]))
  (* inside the environment: nothing happens *)
  /\ (Path_exists e (VENV_DIR v) = true ->
      Path_resolve e (Path_of (sys_executable pr)) = Path_resolve e (PYTHON_EXE v) ->
      ensure_venv pr v s
      = (Ok tt, log s [EvPrint "✓ Virtual environment already exists"]))
  (* the second invocation, by the program that took over *)
  /\ (forall prog argv s1 out,
        ensure_venv pr v s = (Replaced prog argv, s1) ->
        Path_exists (st_env s1) (VENV_DIR v) = true ->
        Path_of (Path_str (PYTHON_EXE v)) = PYTHON_EXE v ->
        ensure_venv (process_after_execv pr prog) v
          {| st_env := st_env s1; st_out := out |}
        = (Ok tt, {| st_env := st_env s1;
                     st_out := out ++ [EvPrint "✓ Virtual environment already exists"] |})).
Proof.
  intros e venv_cmd python creation created handover.
  subst e venv_cmd python creation created handover.
  assert (Hreexec : forall s0 : state,
            Path_resolve (st_env s0) (Path_of (sys_executable pr))
            <> Path_resolve (st_env s0) (PYTHON_EXE v) ->
            reexec_inside_venv pr v s0
            = (match os_execv (Path_str (PYTHON_EXE v))
                       [Path_str (PYTHON_EXE v); script_file pr] (st_env s0) with
               | None => Replaced (Path_str (PYTHON_EXE v))
                           [Path_str (PYTHON_EXE v); script_file pr]
               | Some msg => Raise (OSError msg)
               end,
               log s0 [EvPrint "Activating virtual environment...";
                       EvExecv (Path_str (PYTHON_EXE v))
                         [Path_str (PYTHON_EXE v); script_file pr]])).
  { intros s0 Hdiff.
    unfold reexec_inside_venv, mbind, M_bind, get_env, execv. simpl.
    rewrite (bool_decide_eq_false_2 _ Hdiff). simpl.
    unfold log. simpl. rewrite <- !app_assoc.
    destruct (os_execv _ _ (st_env s0)); reflexivity. }
  assert (Hcreate : forall e1,
            Path_exists (st_env s) (VENV_DIR v) = false ->
            subprocess_run [sys_executable pr; "-m"; "venv"; Path_str (VENV_DIR v)]
              (st_env s) = (Exited 0, e1) ->
            create_venv_if_missing pr v s
            = (Ok tt, {| st_env := e1;
                         st_out := st_out s
                           ++ [EvPrint "Creating virtual environment...";
                               EvRun [sys_executable pr; "-m"; "venv";
                                      Path_str (VENV_DIR v)];
                               EvPrint "✓ Virtual environment created"] |})).
  { intros e1 Habsent Hrun.
    unfold create_venv_if_missing, mbind, M_bind, get_env. simpl.
    rewrite Habsent. simpl.
    rewrite run_check_eq. simpl. rewrite Hrun. simpl.
    unfold print_success, print, emit. simpl. rewrite <- !app_assoc. reflexivity. }
  assert (Hpresent : Path_exists (st_env s) (VENV_DIR v) = true ->
            create_venv_if_missing pr v s
            = (Ok tt, log s [EvPrint "✓ Virtual environment already exists"])).
  { intros Hthere.
    unfold create_venv_if_missing, mbind, M_bind, get_env. simpl.
    rewrite Hthere. reflexivity. }
  split; [|split; [|split; [|split]]].
  - intros e1 Habsent Hrun Hdiff.
    unfold ensure_venv. erewrite bind_ok by (apply Hcreate; eassumption).
    rewrite Hreexec by exact Hdiff. cbn [fst snd st_env].
    split; [destruct (os_execv _ _ e1); intros H; discriminate H|].
    split; [unfold log; simpl; rewrite <- !app_assoc; reflexivity|].
    intros ->. reflexivity.
  - intros rc e1 Habsent Hrun Hrc.
    unfold ensure_venv, create_venv_if_missing, mbind, M_bind, get_env. simpl.
    rewrite Habsent. simpl. rewrite run_check_eq. simpl. rewrite Hrun. simpl.
    destruct (Z.eqb_spec rc 0) as [E|_]; [contradiction|].
    rewrite <- !app_assoc. reflexivity.
  - intros Hthere Hdiff.
    unfold ensure_venv. erewrite bind_ok by (apply Hpresent; exact Hthere).
    rewrite Hreexec by exact Hdiff. cbn [fst snd st_env log].
    split; [destruct (os_execv _ _ (st_env s)); intros H; discriminate H|].
    split; [unfold log; simpl; rewrite <- !app_assoc; reflexivity|].
    intros ->. reflexivity.
  - intros Hthere Hsame.
    unfold ensure_venv. erewrite bind_ok by (apply Hpresent; exact Hthere).
    unfold reexec_inside_venv, mbind, M_bind, get_env. simpl.
    rewrite (bool_decide_eq_true_2 _ Hsame). reflexivity.
  - intros prog argv s1 out Hfirst Hthere Hstr.
    apply ensure_venv_replaced in Hfirst. destruct Hfirst as [-> _].
    unfold ensure_venv, create_venv_if_missing, reexec_inside_venv,
      mbind, M_bind, get_env. simpl.
    rewrite Hthere. simpl.
    rewrite Hstr, bool_decide_eq_true_2 by reflexivity. reflexivity.
Qed.

(** ** Package installation *)

Lemma pip_install_eq (v : venv) (args : list string) (s : state) :
  let cmd := pip_cmd (st_env s) v args in
  let r1 := subprocess_run cmd (st_env s) in
  let r2 := subprocess_run cmd (snd r1) in
  let s1 := {| st_env := snd r1; st_out := st_out s ++ [EvRun cmd] |} in
  pip_install v args s =
  match fst r1 with
  | SpawnFailed msg => (Raise (OSError msg), s1)
  | Exited rc1 =>
      if (rc1 =? 0)%Z then (Ok tt, s1)
      else
        let s2 := {| st_env := snd r2;
                     st_out := st_out s ++ EvRun cmd :: retry_notice cmd rc1 |} in
        match fst r2 with
        | SpawnFailed msg => (Raise (OSError msg), s2)
        | Exited rc2 =>
            if (rc2 =? 0)%Z then (Ok tt, s2)
            else (Raise (CalledProcessError cmd rc2), s2)
        end
  end.
Proof.
  intros cmd r1 r2 s1. subst r1 r2 s1.
  unfold pip_install, mbind, M_bind, get_env, try_except. simpl. fold cmd.
  rewrite run_check_eq. simpl.
  destruct (fst (subprocess_run cmd (st_env s))) as [rc1|msg]; [|reflexivity].
  destruct (rc1 =? 0)%Z; [reflexivity|]. simpl.
  rewrite run_check_eq. simpl.
  unfold retry_notice. rewrite <- !app_assoc. simpl.
  destruct (fst (subprocess_run cmd (snd (subprocess_run cmd (st_env s)))))
    as [rc2|msg]; [|reflexivity].
  destruct (rc2 =? 0)%Z; reflexivity.
Qed.

(** [pip_install] ends with [Ok] or with an exception that
    [except Exception] catches. *)
Lemma pip_install_ends (v : venv) (args : list string) (s : state) :
  match fst (pip_install v args s) with
  | Ok _ => True
  | Raise e => is_Exception e = true
  | Replaced _ _ => False
  end.
Proof.
  rewrite pip_install_eq. simpl.
  destruct (fst (subprocess_run _ (st_env s))) as [rc1|msg]; simpl; [|reflexivity].
  destruct (rc1 =? 0)%Z; simpl; [exact I|].
  destruct (fst (subprocess_run _ _)) as [rc2|msg]; simpl; [|reflexivity].
  destruct (rc2 =? 0)%Z; simpl; [exact I | reflexivity].
Qed.

(** One round of the dependency loop: the outcome of [pip_install],
    with a caught failure turned into two warnings. *)
Lemma install_dependency_eq (v : venv) (dep : string) (s : state) :
  install_dependency v dep s =
  let r := pip_install v [dep] (log s [EvPrint ("Installing " +:+ dep +:+ "...")]) in
  match fst r with
  | Raise e => (Ok tt, log (snd r) (failure_notice dep e))
  | _ => (Ok tt, snd r)
  end.
Proof.
  unfold install_dependency, try_except.
  erewrite bind_ok by apply print_eq.
  pose proof (pip_install_ends v [dep]
                (log s [EvPrint ("Installing " +:+ dep +:+ "...")])) as Hends.
  destruct (pip_install v [dep] _) as [[[]|e|prog argv] s']; simpl in *.
  - reflexivity.
  - rewrite Hends. unfold failure_notice, log, print_warning, print, emit,
      mbind, M_bind. simpl.
    rewrite <- ?app_assoc. reflexivity.
  - contradiction.
Qed.

Lemma install_dependency_ok (v : venv) (dep : string) (s : state) :
  exists s', install_dependency v dep s = (Ok tt, s').
Proof.
  rewrite install_dependency_eq. simpl.
  destruct (fst (pip_install v [dep] _)); eexists; reflexivity.
Qed.

(** The dependency loop always runs to its end. *)
Lemma install_dependencies_ok (v : venv) (deps : list string) (s : state) :
  exists s', install_dependencies v deps s = (Ok tt, s').
Proof.
  revert s. induction deps as [|dep rest IH]; intros s; simpl.
  - eexists. reflexivity.
  - destruct (install_dependency_ok v dep s) as [s1 H1].
    unfold install_dependencies. simpl.
    erewrite bind_ok by exact H1. apply IH.
Qed.

Lemma install_dependencies_cons (v : venv) (dep : string) (rest : list string)
    (s s1 : state) :
  install_dependency v dep s = (Ok tt, s1) ->
  install_dependencies v (dep :: rest) s = install_dependencies v rest s1.
Proof.
  intros H. unfold install_dependencies. simpl.
  erewrite bind_ok by exact H. reflexivity.
Qed.

(** C2, amended: [pip_install] repeats a request that exits with a
    non-zero status exactly once with the same command, and raises when
    the second attempt fails as well.  In the dependency loop that
    failure is caught: two warnings record it and the loop goes on with
    the next dependency, so the loop as a whole never raises. *)
Theorem install_dependencies_retry_and_continue (v : venv) (dep : string)
    (rest : list string) (s : state) :
  let cmd := pip_cmd (st_env s) v [dep] in
  let r1 := subprocess_run cmd (st_env s) in
  let r2 := subprocess_run cmd (snd r1) in
  let started := st_out s ++ [EvPrint ("Installing " +:+ dep +:+ "..."); EvRun cmd] in
  (forall rc1 rc2,
     fst r1 = Exited rc1 -> rc1 <> 0%Z -> fst r2 = Exited rc2 -> rc2 <> 0%Z ->
     pip_install v [dep] s
     = (Raise (CalledProcessError cmd rc2),
        {| st_env := snd r2;
           st_out := st_out s ++ EvRun cmd :: retry_notice cmd rc1 |}))
  /\ (exists s', install_dependencies v (dep :: rest) s = (Ok tt, s'))
  /\ (fst r1 = Exited 0 ->
      install_dependencies v (dep :: rest) s
      = install_dependencies v rest {| st_env := snd r1; st_out := started |})
  /\ (forall rc1, fst r1 = Exited rc1 -> rc1 <> 0%Z -> fst r2 = Exited 0 ->
      install_dependencies v (dep :: rest) s
      = install_dependencies v rest
          {| st_env := snd r2; st_out := started ++ retry_notice cmd rc1 |})
  /\ (forall rc1 rc2,
        fst r1 = Exited rc1 -> rc1 <> 0%Z -> fst r2 = Exited rc2 -> rc2 <> 0%Z ->
        install_dependencies v (dep :: rest) s
        = install_dependencies v rest
            {| st_env := snd r2;
               st_out := started ++ retry_notice cmd rc1
                           ++ failure_notice dep (CalledProcessError cmd rc2) |}).
Proof.
  intros cmd r1 r2 started. subst r1 r2 started.
  split.
  { intros rc1 rc2 H1 Hrc1 H2 Hrc2. rewrite pip_install_eq. simpl. fold cmd.
    apply Z.eqb_neq in Hrc1. apply Z.eqb_neq in Hrc2.
    rewrite H1, Hrc1, H2, Hrc2. reflexivity. }
  split; [apply install_dependencies_ok|].
  pose proof (install_dependency_eq v dep s) as Hdep.
  rewrite pip_install_eq in Hdep. simpl in Hdep. fold cmd in Hdep.
  split; [|split].
  - intros H1. rewrite H1 in Hdep. simpl in Hdep.
    rewrite (install_dependencies_cons _ _ _ _ _ Hdep).
    rewrite <- ?app_assoc. reflexivity.
  - intros rc1 H1 Hrc1 H2. rewrite H1 in Hdep. simpl in Hdep.
    apply Z.eqb_neq in Hrc1. rewrite Hrc1, H2 in Hdep. simpl in Hdep.
    rewrite (install_dependencies_cons _ _ _ _ _ Hdep).
    rewrite <- !app_assoc. reflexivity.
  - intros rc1 rc2 H1 Hrc1 H2 Hrc2. rewrite H1 in Hdep. simpl in Hdep.
    apply Z.eqb_neq in Hrc1. apply Z.eqb_neq in Hrc2.
    rewrite Hrc1, H2 in Hdep. simpl in Hdep. rewrite Hrc2 in Hdep.
    rewrite (install_dependencies_cons _ _ _ _ _ Hdep).
    unfold log. simpl. rewrite <- !app_assoc. reflexivity.
Qed.

(** [pip_install] where both attempts exit with a non-zero status. *)
Lemma pip_install_fails_twice (v : venv) (args : list string) (s : state)
    (rc1 rc2 : Z) :
  let cmd := pip_cmd (st_env s) v args in
  let r1 := subprocess_run cmd (st_env s) in
  let r2 := subprocess_run cmd (snd r1) in
  fst r1 = Exited rc1 -> rc1 <> 0%Z -> fst r2 = Exited rc2 -> rc2 <> 0%Z ->
  pip_install v args s
  = (Raise (CalledProcessError cmd rc2),
     {| st_env := snd r2; st_out := st_out s ++ EvRun cmd :: retry_notice cmd rc1 |}).
Proof.
  intros cmd r1 r2 H1 Hrc1 H2 Hrc2. subst r1 r2.
  rewrite pip_install_eq. simpl. fold cmd.
  apply Z.eqb_neq in Hrc1. apply Z.eqb_neq in Hrc2.
  rewrite H1, Hrc1, H2, Hrc2. reflexivity.
Qed.

(** Step 4 calls [pip_install] for PyTorch outside any handler: when
    both attempts fail, the step raises. *)
Lemma main_step4_torch_failure (pr : process) (OS : string) (v : venv)
    (backend_choice : Z) (s : state) (rc1 rc2 : Z) :
  let cmd := pip_cmd (st_env s) v (torch_args (torch_index backend_choice)) in
  let r1 := subprocess_run cmd (st_env s) in
  let r2 := subprocess_run cmd (snd r1) in
  In backend_choice [1; 2; 3]%Z ->
  fst r1 = Exited rc1 -> rc1 <> 0%Z -> fst r2 = Exited rc2 -> rc2 <> 0%Z ->
  fst (main_step4 pr OS v backend_choice s) = Raise (CalledProcessError cmd rc2).
Proof.
  intros cmd r1 r2 Hb H1 Hrc1 H2 Hrc2. subst r1 r2.
  unfold main_step4.
  erewrite bind_ok by apply print_header_eq.
  simpl in Hb. destruct Hb as [<-|[<-|[<-|[]]]]; simpl;
    erewrite bind_ok by apply print_eq.
  - rewrite (pip_install_fails_twice _ _ _ rc1 rc2); auto.
  - rewrite (pip_install_fails_twice _ _ _ rc1 rc2); auto.
  - erewrite bind_raise; [reflexivity|].
    rewrite (pip_install_fails_twice _ _ _ rc1 rc2); auto.
Qed.

(** Step 5 calls [pip_install] for chatterbox-tts outside any handler
    as well. *)
Lemma main_step5_chatterbox_failure (v : venv) (s : state) (rc1 rc2 : Z) :
  let cmd := pip_cmd (st_env s) v ["--no-deps"; "chatterbox-tts"] in
  let r1 := subprocess_run cmd (st_env s) in
  let r2 := subprocess_run cmd (snd r1) in
  fst r1 = Exited rc1 -> rc1 <> 0%Z -> fst r2 = Exited rc2 -> rc2 <> 0%Z ->
  fst (main_step5 v s) = Raise (CalledProcessError cmd rc2).
Proof.
  intros cmd r1 r2 H1 Hrc1 H2 Hrc2. subst r1 r2.
  unfold main_step5.
  erewrite bind_ok by apply print_header_eq.
  erewrite bind_ok by apply print_eq.
  erewrite bind_raise; [reflexivity|].
  rewrite (pip_install_fails_twice _ _ _ rc1 rc2); auto.
Qed.

(** ** Model files *)

Lemma fetches_app (evs1 evs2 : list (event Path)) :
  fetches (evs1 ++ evs2) = fetches evs1 ++ fetches evs2.
Proof. unfold fetches. apply flat_map_app. Qed.

Lemma fetches_skip_notices (urls : list string) :
  fetches (map (@skip_notice Path) urls) = [].
Proof. induction urls as [|url rest IH]; [reflexivity | exact IH]. Qed.

Lemma download_model_file_present (model_path : Path) (url : string) (s : state) :
  Path_exists (st_env s) (Path_div model_path (url_filename url)) = true ->
  download_model_file model_path url s = (Ok tt, log s [skip_notice url]).
Proof.
  intros Hex. unfold download_model_file, mbind, M_bind, get_env. simpl.
  rewrite Hex. reflexivity.
Qed.

Lemma download_model_files_present (model_path : Path) (urls : list string)
    (s : state) :
  (forall url, In url urls ->
     Path_exists (st_env s) (Path_div model_path (url_filename url)) = true) ->
  download_model_files model_path urls s = (Ok tt, log s (map skip_notice urls)).
Proof.
  revert s. induction urls as [|url rest IH]; intros s Hall.
  - simpl. rewrite log_nil. reflexivity.
  - unfold download_model_files. simpl.
    erewrite bind_ok
      by (apply download_model_file_present; apply Hall; left; reflexivity).
    fold (download_model_files model_path rest).
    rewrite IH, log_log; [reflexivity|].
    intros u Hu. simpl. apply Hall. right. exact Hu.
Qed.

(** The names derived from a variant's locators are among its expected
    names. *)
Lemma url_filename_expected (turbo : bool) (url : string) :
  In url (files_to_download_of turbo) ->
  In (url_filename url) (expected_files_of turbo).
Proof.
  intros Hin. apply (in_map url_filename) in Hin.
  destruct turbo; unfold files_to_download_of, expected_files_of in *.
  - eapply Permutation_in; [apply turbo_filenames_perm | exact Hin].
  - rewrite original_filenames in Hin. exact Hin.
Qed.

(** C5: download mode skips what is there.  An entry whose destination
    exists prints the skip notice, fetches nothing and succeeds; when
    the destination of every entry exists (in particular when every
    expected file of the variant is in the model directory) the whole
    stage prints the skip notices, performs no fetch, leaves the machine
    as it was and succeeds. *)
Theorem download_skips_present_files (model_path : Path) (s : state) :
  (forall url,
     Path_exists (st_env s) (Path_div model_path (url_filename url)) = true ->
     download_model_file model_path url s = (Ok tt, log s [skip_notice url]))
  /\ (forall urls,
        (forall url, In url urls ->
           Path_exists (st_env s) (Path_div model_path (url_filename url)) = true) ->
        download_model_files model_path urls s
        = (Ok tt, log s (map skip_notice urls))
        /\ fetches (st_out (snd (download_model_files model_path urls s)))
           = fetches (st_out s))
  /\ (forall turbo,
        (forall file, In file (expected_files_of turbo) ->
           Path_exists (st_env s) (Path_div model_path file) = true) ->
        download_model_files model_path (files_to_download_of turbo) s
        = (Ok tt, log s (map skip_notice (files_to_download_of turbo)))
        /\ fetches (st_out (snd (download_model_files model_path
                                   (files_to_download_of turbo) s)))
           = fetches (st_out s)).
Proof.
  assert (Hstage : forall urls,
            (forall url, In url urls ->
               Path_exists (st_env s) (Path_div model_path (url_filename url)) = true) ->
            download_model_files model_path urls s
            = (Ok tt, log s (map skip_notice urls))
            /\ fetches (st_out (snd (download_model_files model_path urls s)))
               = fetches (st_out s)).
  { intros urls Hall. rewrite download_model_files_present by exact Hall.
    split; [reflexivity|]. simpl.
    rewrite fetches_app, fetches_skip_notices, app_nil_r. reflexivity. }
  split; [|split].
  - intros url Hex. apply download_model_file_present. exact Hex.
  - exact Hstage.
  - intros turbo Hall. apply Hstage.
    intros url Hin. apply Hall. apply url_filename_expected. exact Hin.
Qed.

Lemma copies_app (evs1 evs2 : list (event Path)) :
  copies (evs1 ++ evs2) = copies evs1 ++ copies evs2.
Proof. unfold copies. apply flat_map_app. Qed.

(** The round of the copy loop for a file that exists at the source. *)
Lemma copy_model_file_present (user_path model_path : Path) (file : string)
    (s : state) :
  let src := Path_div user_path file in
  let dst := Path_div model_path file in
  let r := copy2 src dst (st_env s) in
  Path_exists (st_env s) src = true ->
  copy_model_file user_path model_path file s =
  match fst r with
  | None =>
      (Ok tt, {| st_env := snd r;
                 st_out := st_out s ++ [EvCopy src dst;
                                        EvPrint ("✓ Copied " +:+ file)] |})
  | Some msg =>
      (Raise (OSError msg),
       {| st_env := snd r; st_out := st_out s ++ [EvCopy src dst] |})
  end.
Proof.
  intros src dst r Hsrc. subst src dst r.
  unfold copy_model_file, mbind, M_bind, get_env, call. simpl.
  rewrite Hsrc.
  destruct (copy2 _ _ (st_env s)) as [[msg|] e']; simpl; [reflexivity|].
  unfold print_success, print, emit. simpl. rewrite <- app_assoc. reflexivity.
Qed.

(** One round of the copy loop.  The
    round for [file] looks at the source only: when it exists,
    [shutil.copy2(src, dst)] is called and a failure of the copy
    propagates, also when [dst] is already there; when the source does
    not exist, nothing happens. *)
Lemma copy_model_file_spec (user_path model_path : Path) (file : string)
    (s : state) :
  let src := Path_div user_path file in
  let dst := Path_div model_path file in
  let r := copy2 src dst (st_env s) in
  (Path_exists (st_env s) src = true ->
     copy_model_file user_path model_path file s =
     match fst r with
     | None =>
         (Ok tt, {| st_env := snd r;
                    st_out := st_out s ++ [EvCopy src dst;
                                           EvPrint ("✓ Copied " +:+ file)] |})
     | Some msg =>
         (Raise (OSError msg),
          {| st_env := snd r; st_out := st_out s ++ [EvCopy src dst] |})
     end)
  /\ (Path_exists (st_env s) src = true -> Path_exists (st_env s) dst = true ->
      copies (st_out (snd (copy_model_file user_path model_path file s)))
      = copies (st_out s) ++ [(src, dst)])
  /\ (Path_exists (st_env s) src = false ->
      copy_model_file user_path model_path file s = (Ok tt, s)).
Proof.
  intros src dst r. subst src dst r.
  split; [apply copy_model_file_present|]. split.
  - intros Hsrc _. rewrite (copy_model_file_present _ _ _ _ Hsrc).
    destruct (fst (copy2 _ _ (st_env s))); simpl;
      rewrite copies_app; reflexivity.
  - intros Hsrc.
    unfold copy_model_file, mbind, M_bind, get_env. simpl.
    rewrite Hsrc. reflexivity.
Qed.

End Properties.

(** ** Running the download stage again *)

Section DownloadAgain.

Context {Path Env : Type} {RT : Runtime Path Env}.

(** What [urlretrieve] is expected to do when it succeeds: the
    destination exists afterwards, and nothing that existed is gone. *)
Hypothesis fetched_exists : forall url dest e e',
  urlretrieve url dest e = (None, e') -> Path_exists e' dest = true.
Hypothesis fetch_keeps : forall url dest e e' p,
  urlretrieve url dest e = (None, e') ->
  Path_exists e p = true -> Path_exists e' p = true.

Lemma download_model_file_done (model_path : Path) (url : string)
    (s s' : state Path Env) :
  download_model_file model_path url s = (Ok tt, s') ->
  Path_exists (st_env s') (Path_div model_path (url_filename url)) = true
  /\ (forall p, Path_exists (st_env s) p = true -> Path_exists (st_env s') p = true).
Proof.
  unfold download_model_file, download_file, mbind, M_bind, get_env, try_except,
    call, print, print_success, print_error, emit, raise. simpl.
  destruct (Path_exists (st_env s) (Path_div model_path (url_filename url))) eqn:Hex;
    simpl.
  - intros H. injection H as <-. simpl. split; [exact Hex | auto].
  - destruct (urlretrieve url (Path_div model_path (url_filename url)) (st_env s))
      as [[msg|] e'] eqn:Hfetch; simpl.
    + discriminate.
    + intros H. injection H as <-. simpl. split.
      * eapply fetched_exists. exact Hfetch.
      * intros p Hp. eapply fetch_keeps; [exact Hfetch | exact Hp].
Qed.

Lemma download_model_files_done (model_path : Path) (urls : list string)
    (s s' : state Path Env) :
  download_model_files model_path urls s = (Ok tt, s') ->
  (forall url, In url urls ->
     Path_exists (st_env s') (Path_div model_path (url_filename url)) = true)
  /\ (forall p, Path_exists (st_env s) p = true -> Path_exists (st_env s') p = true).
Proof.
  revert s. induction urls as [|url rest IH]; intros s Hrun.
  - injection Hrun as <-. split; [intros url [] | auto].
  - unfold download_model_files in Hrun. simpl in Hrun.
    unfold mbind, M_bind in Hrun.
    destruct (download_model_file model_path url s) as [[[]|e|prog argv] s1] eqn:H1;
      try discriminate Hrun.
    apply download_model_file_done in H1. destruct H1 as [Hurl Hkeep1].
    apply IH in Hrun. destruct Hrun as [Hrest Hkeep2].
    split.
    + intros u [<-|Hu]; [apply Hkeep2; exact Hurl | apply Hrest; exact Hu].
    + intros p Hp. apply Hkeep2, Hkeep1, Hp.
Qed.

(** X23: after a download stage that succeeded, the same stage fetches
    nothing: it prints one skip notice per locator and leaves the
    machine as it is. *)
Lemma download_again_fetches_nothing (model_path : Path) (urls : list string)
    (s s1 : state Path Env) (out : list (event Path)) :
  download_model_files model_path urls s = (Ok tt, s1) ->
  download_model_files model_path urls {| st_env := st_env s1; st_out := out |}
  = (Ok tt, {| st_env := st_env s1; st_out := out ++ map skip_notice urls |}).
Proof.
  intros Hrun. apply download_model_files_done in Hrun. destruct Hrun as [Hall _].
  rewrite download_model_files_present by exact Hall. reflexivity.
Qed.

End DownloadAgain.

(** ** The whole copy stage *)

Section CopyAll.

Context {Path Env : Type} {RT : Runtime Path Env}.

(** What [shutil.copy2] is expected to do when it succeeds: nothing
    that existed is gone. *)
Hypothesis copy_keeps : forall src dst e e' p,
  copy2 src dst e = (None, e') ->
  Path_exists e p = true -> Path_exists e' p = true.

(** X24: when every expected file exists at the source (as validation has
    checked) and the stage succeeds, it has made one copy per expected
    file, in order, whatever the model directory held before. *)
Lemma copy_model_files_copies_all (user_path model_path : Path)
    (expected_files : list string) (s s' : state Path Env) :
  (forall file, In file expected_files ->
     Path_exists (st_env s) (Path_div user_path file) = true) ->
  copy_model_files user_path model_path expected_files s = (Ok tt, s') ->
  copies (st_out s')
  = copies (st_out s)
      ++ map (fun file => (Path_div user_path file, Path_div model_path file))
           expected_files.
Proof.
  revert s. induction expected_files as [|file rest IH]; intros s Hall Hrun.
  - injection Hrun as <-. simpl. rewrite app_nil_r. reflexivity.
  - unfold copy_model_files in Hrun. simpl in Hrun.
    unfold mbind, M_bind in Hrun.
    rewrite (copy_model_file_present user_path model_path file s)
      in Hrun by (apply Hall; left; reflexivity).
    destruct (copy2 (Path_div user_path file) (Path_div model_path file) (st_env s))
      as [[msg|] e'] eqn:Hcopy; simpl in Hrun; [discriminate Hrun|].
    apply IH in Hrun.
    + rewrite Hrun. simpl. rewrite copies_app, <- app_assoc. reflexivity.
    + simpl. intros f Hf. eapply copy_keeps; [exact Hcopy|].
      apply Hall. right. exact Hf.
Qed.

End CopyAll.

(** ** The copy stage as a whole *)

Section CopyStage.

Context {Path Env : Type} {RT : Runtime Path Env}.

(** What [shutil.copy2] is expected to do when it succeeds: nothing
    that existed is gone. *)
Hypothesis copy_keeps : forall src dst e e' p,
  copy2 src dst e = (None, e') ->
  Path_exists e p = true -> Path_exists e' p = true.

(** How the copy loop ends when every expected file is at the source:
    with one copy per file, in order, or at the first copy that
    fails. *)
Lemma copy_model_files_outcome (user_path model_path : Path)
    (expected_files : list string) (s : state Path Env) :
  let pair := fun file => (Path_div user_path file, Path_div model_path file) in
  let run := copy_model_files user_path model_path expected_files s in
  (forall file, In file expected_files ->
     Path_exists (st_env s) (Path_div user_path file) = true) ->
  match fst run with
  | Ok _ => copies (st_out (snd run)) = copies (st_out s) ++ map pair expected_files
  | Raise (OSError msg) =>
      exists copied file rest,
        expected_files = copied ++ file :: rest
        /\ copies (st_out (snd run)) = copies (st_out s) ++ map pair (copied ++ [file])
        /\ List.last (st_out (snd run)) (EvPrint EmptyString)
           = EvCopy (Path_div user_path file) (Path_div model_path file)
  | _ => False
  end.
Proof.
  intros pair run. subst run. revert s.
  induction expected_files as [|file rest IH]; intros s Hall.
  - simpl. rewrite app_nil_r. reflexivity.
  - unfold copy_model_files. simpl. unfold mbind, M_bind.
    rewrite (copy_model_file_present user_path model_path file s)
      by (apply Hall; left; reflexivity).
    destruct (copy2 (Path_div user_path file) (Path_div model_path file) (st_env s))
      as [[msg|] e'] eqn:Hcopy; cbn [fst snd].
    + exists [], file, rest. split; [reflexivity|]. cbn [st_out].
      split; [rewrite copies_app; reflexivity | apply List.last_last].
    + match goal with |- context [for_each rest _ ?s1] =>
        pose proof (IH s1) as Hrec
      end.
      unfold copy_model_files in Hrec. cbn [st_env st_out] in Hrec.
      assert (Hrest : forall f, In f rest ->
                Path_exists e' (Path_div user_path f) = true).
      { intros f Hf. eapply copy_keeps; [exact Hcopy|]. apply Hall. right. exact Hf. }
      specialize (Hrec Hrest).
      destruct (fst (for_each rest (copy_model_file user_path model_path) _))
        as [a|[]|]; try exact Hrec.
      * rewrite Hrec. rewrite copies_app, <- app_assoc. reflexivity.
      * destruct Hrec as (copied & f & rest' & -> & Hcopies & Hlast).
        exists (file :: copied), f, rest'. split; [reflexivity|].
        split; [|exact Hlast].
        rewrite Hcopies. rewrite copies_app, <- app_assoc. reflexivity.
Qed.

(** C10: the copy stage of step 6 copies unconditionally.  In
    user-supplied mode, with the model directory in place and every
    expected file present at the source, the stage calls
    [shutil.copy2(src, dst)] for each expected file in the order of the
    list, whatever the model directory holds: nothing about the
    destination is asked, and no entry is skipped.  The stage either
    completes with exactly these copies, or ends at the first copy that
    fails, with the copies up to that one. *)
Theorem copy_stage_spec (sel : selection Path) (user_path : Path)
    (s : state Path Env) :
  let model_path := Path_of MODEL_DIR in
  let r := Path_mkdir_exist_ok model_path (st_env s) in
  let expected_files := expected_files_of (is_turbo sel) in
  let pair := fun file => (Path_div user_path file, Path_div model_path file) in
  let run := main_step6 sel s in
  is_user_supplied sel = true ->
  user_model_path sel = Some user_path ->
  fst r = None ->
  (forall file, In file expected_files ->
     Path_exists (snd r) (Path_div user_path file) = true) ->
  match fst run with
  | Ok p =>
      p = model_path
      /\ copies (st_out (snd run)) = copies (st_out s) ++ map pair expected_files
  | Raise (OSError msg) =>
      exists copied file rest,
        expected_files = copied ++ file :: rest
        /\ copies (st_out (snd run)) = copies (st_out s) ++ map pair (copied ++ [file])
        /\ List.last (st_out (snd run)) (EvPrint EmptyString)
           = EvCopy (Path_div user_path file) (Path_div model_path file)
  | _ => False
  end.
Proof.
  intros model_path r expected_files pair run Hmode Hpath Hmk Hall.
  subst run r model_path.
  destruct (Path_mkdir_exist_ok (Path_of MODEL_DIR) (st_env s)) as [err e1] eqn:Hmkdir.
  cbn [fst snd] in Hmk, Hall. subst err.
  unfold main_step6. rewrite Hmode, Hpath. cbn zeta.
  erewrite bind_ok by apply print_header_eq.
  erewrite bind_ok.
  2:{ unfold call. cbn [st_env log]. rewrite Hmkdir. reflexivity. }
  subst expected_files pair.
  unfold mbind, M_bind. rewrite print_eq. cbn beta iota.
  match goal with |- context [copy_model_files ?u ?m ?f ?s2] =>
    pose proof (copy_model_files_outcome u m f s2) as Hloop;
    cbv zeta in Hloop; specialize (Hloop Hall);
    destruct (copy_model_files u m f s2) as [[[]|err|prog argv] s3] eqn:Hrun
  end; cbn [fst snd] in Hloop |- *.
  - split; [reflexivity|].
    unfold print_success, print, emit, mret, M_ret. cbn [fst snd st_out].
    rewrite copies_app, Hloop. cbn [st_out log].
    rewrite !copies_app. simpl. rewrite !app_nil_r. reflexivity.
  - destruct err; try exact Hloop.
    destruct Hloop as (copied & file & rest & Hfiles & Hcopies & Hlast).
    exists copied, file, rest. split; [exact Hfiles|]. split; [|exact Hlast].
    rewrite Hcopies. cbn [st_out log].
    rewrite !copies_app. simpl. rewrite !app_nil_r. reflexivity.
  - exact Hloop.
Qed.

End CopyStage.

(** The in-memory machine meets these expectations. *)

Lemma follow_at_file (n : nat) (fs : gmap string Mem.node) (p content : string) :
  fs !! p = Some (Mem.File content) -> Mem.follow n fs p = p.
Proof. intros H. destruct n; simpl; [reflexivity|]. rewrite H. reflexivity. Qed.

Lemma follow_insert_file (n : nat) (fs : gmap string Mem.node)
    (k content p : string) :
  is_Some (fs !! Mem.follow n fs p) ->
  is_Some (<[k := Mem.File content]> fs
             !! Mem.follow n (<[k := Mem.File content]> fs) p).
Proof.
  revert p. induction n as [|n IH]; intros p; simpl.
  - intros [x Hx]. destruct (decide (k = p)) as [->|Hne].
    + rewrite lookup_insert_eq. eauto.
    + rewrite lookup_insert_ne by exact Hne. eauto.
  - destruct (decide (k = p)) as [->|Hne].
    + rewrite lookup_insert_eq. intros _. rewrite lookup_insert_eq. eauto.
    + rewrite (lookup_insert_ne fs k p) by exact Hne.
      destruct (fs !! p) as [[c| |target]|] eqn:Hp.
      * intros _. rewrite lookup_insert_ne, Hp by exact Hne. eauto.
      * intros _. rewrite lookup_insert_ne, Hp by exact Hne. eauto.
      * apply IH.
      * rewrite Hp. intros [x Hx]. discriminate Hx.
Qed.

Lemma files_with_files (m : Mem.machine) (fs : gmap string Mem.node) :
  Mem.files (Mem.with_files m fs) = fs.
Proof. reflexivity. Qed.

Lemma absolute_with_files (m : Mem.machine) (fs : gmap string Mem.node) (p : string) :
  Mem.absolute (Mem.with_files m fs) p = Mem.absolute m p.
Proof. reflexivity. Qed.

Lemma mem_fetched_exists (url dest : string) (m m' : Mem.machine) :
  Mem.fetch url dest m = (None, m') -> Mem.exists_ m' dest = true.
Proof.
  unfold Mem.fetch. destruct (existsb _ _); [discriminate|].
  intros H. injection H as <-.
  unfold Mem.exists_, Mem.lookup_path, Mem.resolve.
  rewrite files_with_files, absolute_with_files.
  rewrite (follow_at_file _ _ _ url) by apply lookup_insert_eq.
  rewrite lookup_insert_eq. reflexivity.
Qed.

Lemma mem_fetch_keeps (url dest : string) (m m' : Mem.machine) (p : string) :
  Mem.fetch url dest m = (None, m') ->
  Mem.exists_ m p = true -> Mem.exists_ m' p = true.
Proof.
  unfold Mem.fetch. destruct (existsb _ _); [discriminate|].
  intros H. injection H as <-.
  unfold Mem.exists_, Mem.lookup_path, Mem.resolve.
  rewrite files_with_files, absolute_with_files.
  intros Hex.
  destruct (follow_insert_file 8 (Mem.files m) (Mem.absolute m dest) url
              (Mem.absolute m p)) as [x ->]; [|reflexivity].
  destruct (Mem.files m !! Mem.follow 8 (Mem.files m) (Mem.absolute m p));
    [eauto | discriminate Hex].
Qed.

Lemma mem_copy_keeps (src dst : string) (m m' : Mem.machine) (p : string) :
  Mem.copy src dst m = (None, m') ->
  Mem.exists_ m p = true -> Mem.exists_ m' p = true.
Proof.
  assert (Hins : forall k content,
            Mem.exists_ m p = true ->
            Mem.exists_ (Mem.with_files m (<[k := Mem.File content]> (Mem.files m))) p
            = true).
  { intros k content. unfold Mem.exists_, Mem.lookup_path, Mem.resolve.
    rewrite files_with_files, absolute_with_files. intros Hex.
    destruct (follow_insert_file 8 (Mem.files m) k content (Mem.absolute m p))
      as [x ->]; [|reflexivity].
    destruct (Mem.files m !! Mem.follow 8 (Mem.files m) (Mem.absolute m p));
      [eauto | discriminate Hex]. }
  unfold Mem.copy.
  destruct (Mem.lookup_path m src) as [[content| |target]|]; try discriminate.
  destruct (Mem.lookup_path m dst) as [[c| |t]|];
    try (destruct (String.eqb _ _); [discriminate|]);
    intros H; injection H as <-; apply Hins.
Qed.

(** * The properties on the in-memory machine *)

Import Scenario.

(** On the bare host the environment is created and the process is
    replaced by the environment's interpreter; run again by that
    interpreter, the step returns with nothing created. *)
Lemma ensure_venv_spec_witness :
  let venv_cmd := ["/usr/bin/python3"; "-m"; "venv"; "/home/u/Chatterbox_TTS"] in
  let handed :=
    {| st_env := host_with_venv;
       st_out := [EvPrint "Creating virtual environment...";
                  EvRun venv_cmd;
                  EvPrint "✓ Virtual environment created";
                  EvPrint "Activating virtual environment...";
                  EvExecv venv_python [venv_python; "ChatterboxInstaller.py"]] |} in
  ensure_venv pr_host v_linux (start host)
  = (Replaced venv_python [venv_python; "ChatterboxInstaller.py"], handed)
  /\ ensure_venv pr_venv v_linux {| st_env := host_with_venv; st_out := [] |}
     = (Ok tt, {| st_env := host_with_venv;
                  st_out := [EvPrint "✓ Virtual environment already exists"] |}).
Proof.
  intros venv_cmd handed.
  pose proof (ensure_venv_spec pr_host v_linux (start host)) as H. cbv zeta in H.
  destruct H as (Hfirst & _ & _ & _ & Hsecond).
  destruct (Hfirst host_with_venv) as (_ & Hstate & Hreplaced).
  - vm_compute. reflexivity.
  - vm_compute. reflexivity.
  - vm_compute. intros E. discriminate E.
  - assert (Hrun : ensure_venv pr_host v_linux (start host)
                   = (Replaced venv_python [venv_python; "ChatterboxInstaller.py"],
                      handed)).
    { rewrite (surjective_pairing (ensure_venv pr_host v_linux (start host))).
      rewrite Hstate, Hreplaced by (vm_compute; reflexivity). reflexivity. }
    split; [exact Hrun|].
    apply (Hsecond venv_python [venv_python; "ChatterboxInstaller.py"] handed []).
    + exact Hrun.
    + vm_compute. reflexivity.
    + vm_compute. reflexivity.
Defined.

(** C2, as stated, fails on the PyTorch install of step 4: when its
    request fails twice, the run ends with status 1 and no further
    package is requested. *)
Lemma torch_install_failure_aborts_run :
  let torch_cmd :=
    [ "/home/u/Chatterbox_TTS/bin/pip"; "install"; "--upgrade";
      "torch==2.6.0"; "torchvision==0.21.0"; "torchaudio==2.6.0";
      "--index-url"; "https://download.pytorch.org/whl/cpu" ] in
  let run := entry_point pr_venv cpu_download (start pip_failing_twice) in
  ending_of (fst run) = ExitStatus 1
  /\ commands_run (st_out (snd run)) = [torch_cmd; torch_cmd]
  /\ List.last (st_out (snd run)) (EvPrint EmptyString)
     = EvTraceback (CalledProcessError torch_cmd 1).
Proof. vm_compute. repeat split; reflexivity. Qed.

(** A dependency whose two attempts fail is reported and the loop goes
    on to the next one. *)
Lemma install_dependencies_retry_and_continue_witness :
  let cmd := ["/home/u/Chatterbox_TTS/bin/pip"; "install"; "--upgrade"; "einops"] in
  fst (subprocess_run cmd pip_failing_twice) = Exited 1
  /\ fst (subprocess_run cmd (snd (subprocess_run cmd pip_failing_twice))) = Exited 1
  /\ install_dependencies v_linux ["einops"; "s3tokenizer"] (start pip_failing_twice)
     = install_dependencies v_linux ["s3tokenizer"]
         {| st_env := host_with_venv;
            st_out := [EvPrint "Installing einops..."; EvRun cmd]
                        ++ retry_notice cmd 1
                        ++ failure_notice "einops" (CalledProcessError cmd 1) |}.
Proof.
  split; [vm_compute; reflexivity|].
  split; [vm_compute; reflexivity|].
  destruct (install_dependencies_retry_and_continue v_linux "einops" ["s3tokenizer"]
              (start pip_failing_twice)) as (_ & _ & _ & _ & H).
  refine (eq_trans (H 1%Z 1%Z _ _ _ _) _);
    try (vm_compute; reflexivity); try (intros E; discriminate E).
Defined.





(** ROCm on Windows ends the run with status 1; CUDA on Windows and
    ROCm on Linux pass. *)
Lemma validate_backend_choice_spec_witness :
  fst (validate_backend_choice "windows" 2 (start host)) = Raise (SystemExit 1)
  /\ validate_backend_choice "windows" 3 (start host) = (Ok tt, start host)
  /\ validate_backend_choice "linux" 2 (start host) = (Ok tt, start host).
Proof.
  split; [|split].
  - apply (validate_backend_choice_spec "windows" 2 (start host)).
    split; [reflexivity | intros E; discriminate E].
  - apply (validate_backend_choice_spec "windows" 3 (start host)).
    intros [E _]. discriminate E.
  - apply (validate_backend_choice_spec "linux" 2 (start host)).
    intros [_ E]. apply E. reflexivity.
Defined.

(** ROCm on Windows ends the run with status 1; CUDA on Windows and
    ROCm on Linux leave step 2 with the choice. *)
Lemma backend_check_spec_witness :
  ending_of (fst (entry_point pr_windows rocm_download (start host))) = ExitStatus 1
  /\ fst (main_step2 "windows" [Line "3"]
            (snd (main_step1 cuda_download (banner pr_windows (start host)))))
     = Ok (3%Z, [])
  /\ fst (main_step2 "linux" [Line "2"]
            (snd (main_step1 rocm_download (banner pr_host (start host)))))
     = Ok (2%Z, []).
Proof.
  pose (step2 := fun (pr : process) (inp : list input_event) =>
          get_user_choice EmptyString backend_options [List.last inp Interrupt]
            (log (snd (main_step1 inp (banner pr (start host))))
               (header_events "Step 2: Backend Selection"
                  ++ [EvPrint ("Great! Now, you'll need to choose your backend:" +:+ nl)]))).
  split; [|split].
  - pose proof (backend_check_spec pr_windows rocm_download [Line "2"] []
                  (start host)
                  (snd (main_step1 rocm_download (banner pr_windows (start host))))
                  (snd (step2 pr_windows rocm_download))
                  {| is_turbo := false; is_user_supplied := false;
                     user_model_path := None |} 2%Z) as H.
    cbv zeta in H.
    destruct H as [H _]; [vm_compute; reflexivity | vm_compute; reflexivity
                         | vm_compute; reflexivity |].
    destruct H as (_ & _ & H); [|exact H].
    split; [reflexivity | vm_compute; intros E; discriminate E].
  - pose proof (backend_check_spec pr_windows cuda_download [Line "3"] []
                  (start host)
                  (snd (main_step1 cuda_download (banner pr_windows (start host))))
                  (snd (step2 pr_windows cuda_download))
                  {| is_turbo := false; is_user_supplied := false;
                     user_model_path := None |} 3%Z) as H.
    cbv zeta in H.
    destruct H as [_ H]; [vm_compute; reflexivity | vm_compute; reflexivity
                         | vm_compute; reflexivity |].
    change "windows" with (str_lower (platform_system pr_windows)) at 1.
    rewrite H; [reflexivity|]. intros [E _]. discriminate E.
  - pose proof (backend_check_spec pr_host rocm_download [Line "2"] []
                  (start host)
                  (snd (main_step1 rocm_download (banner pr_host (start host))))
                  (snd (step2 pr_host rocm_download))
                  {| is_turbo := false; is_user_supplied := false;
                     user_model_path := None |} 2%Z) as H.
    cbv zeta in H.
    destruct H as [_ H]; [vm_compute; reflexivity | vm_compute; reflexivity
                         | vm_compute; reflexivity |].
    change "linux" with (str_lower (platform_system pr_host)) at 1.
    rewrite H; [reflexivity|]. intros [_ E]. apply E. vm_compute. reflexivity.
Defined.

(** A word and a number out of range are refused, then [" 2 "] is
    taken; Ctrl-C ends with status 0. *)
Lemma get_user_choice_spec_witness :
  fst (get_user_choice EmptyString backend_options
         [Line "gpu"; Line "7"; Line " 2 "; Line "y"] (start host))
  = Ok (2%Z, [Line "y"])
  /\ fst (get_user_choice EmptyString backend_options
            [Line "0"; Interrupt; Line "1"] (start host))
     = Raise (SystemExit 0).
Proof.
  pose (s0 := start host).
  destruct (get_user_choice_spec EmptyString backend_options
              [Line "gpu"; Line "7"; Line " 2 "; Line "y"] s0)
    as (_ & Hword & _).
  destruct (get_user_choice_spec EmptyString backend_options
              [Line "0"; Interrupt; Line "1"] s0)
    as (_ & _ & Hrange & _).
  split.
  - unfold s0 in Hword. rewrite (Hword "gpu" _ eq_refl); [|vm_compute; reflexivity].
    match goal with |- fst (get_user_choice _ _ _ ?s) = _ =>
      destruct (get_user_choice_spec EmptyString backend_options
                  [Line "7"; Line " 2 "; Line "y"] s) as (_ & _ & H7 & _)
    end.
    rewrite (H7 "7" _ 7%Z eq_refl); [|vm_compute; reflexivity | simpl; lia].
    match goal with |- fst (get_user_choice _ _ _ ?s) = _ =>
      destruct (get_user_choice_spec EmptyString backend_options
                  [Line " 2 "; Line "y"] s) as (_ & _ & _ & H2 & _)
    end.
    rewrite (H2 " 2 " _ 2%Z eq_refl); [reflexivity | vm_compute; reflexivity |].
    simpl. lia.
  - unfold s0 in Hrange.
    rewrite (Hrange "0" _ 0%Z eq_refl); [|vm_compute; reflexivity | simpl; lia].
    match goal with |- fst (get_user_choice _ _ _ ?s) = _ =>
      destruct (get_user_choice_spec EmptyString backend_options
                  [Interrupt; Line "1"] s) as (_ & _ & _ & _ & Hint)
    end.
    destruct (Hint _ eq_refl) as [-> _]. reflexivity.
Defined.

(** With the four Standard files in the model directory, the download
    stage fetches nothing and succeeds. *)
Lemma download_skips_present_files_witness :
  Forall (fun file =>
            Path_exists model_dir_complete (Path_div (Path_of MODEL_DIR) file) = true)
    ORIGINAL_EXPECTED
  /\ download_model_files (Path_of MODEL_DIR) ORIGINAL_FILES (start model_dir_complete)
     = (Ok tt, log (start model_dir_complete) (map skip_notice ORIGINAL_FILES))
  /\ fetches (st_out (snd (download_model_files (Path_of MODEL_DIR) ORIGINAL_FILES
                             (start model_dir_complete))))
     = [].
Proof.
  split; [repeat constructor; vm_compute; reflexivity|].
  destruct (download_skips_present_files (Path_of MODEL_DIR) (start model_dir_complete))
    as (_ & _ & H).
  apply (H false).
  intros file Hin. simpl in Hin.
  destruct Hin as [<-|[<-|[<-|[<-|[]]]]]; vm_compute; reflexivity.
Defined.

(** The supplied [t3_cfg.safetensors] is copied over the one that the
    model directory already holds. *)
Lemma copy_model_file_spec_witness :
  let src := Path_div (Path_of "/models/orig") "t3_cfg.safetensors" in
  let dst := Path_div (Path_of MODEL_DIR) "t3_cfg.safetensors" in
  let after :=
    snd (copy_model_file (Path_of "/models/orig") (Path_of MODEL_DIR)
           "t3_cfg.safetensors" (start supplied_and_stale)) in
  Path_exists supplied_and_stale src = true
  /\ Mem.lookup_path supplied_and_stale dst = Some (Mem.File "old t3_cfg.safetensors")
  /\ copies (st_out after) = [(src, dst)]
  /\ Mem.lookup_path (st_env after) dst = Some (Mem.File "new t3_cfg.safetensors").
Proof.
  split; [vm_compute; reflexivity|].
  split; [vm_compute; reflexivity|].
  split; [|vm_compute; reflexivity].
  destruct (copy_model_file_spec (Path_of "/models/orig") (Path_of MODEL_DIR)
              "t3_cfg.safetensors" (start supplied_and_stale)) as (_ & H & _).
  apply H; vm_compute; reflexivity.
Defined.

(** The four supplied Standard files are copied in order, over the
    stale file that the model directory holds. *)
Lemma copy_stage_spec_witness :
  let run := main_step6 (supplied_from "/models/orig") (start supplied_and_stale) in
  let dst := Path_div (Path_of MODEL_DIR) "t3_cfg.safetensors" in
  Mem.lookup_path supplied_and_stale dst = Some (Mem.File "old t3_cfg.safetensors")
  /\ fst run = Ok (Path_of MODEL_DIR)
  /\ copies (st_out (snd run))
     = map (fun file => (Path_div (Path_of "/models/orig") file,
                         Path_div (Path_of MODEL_DIR) file)) ORIGINAL_EXPECTED
  /\ Mem.lookup_path (st_env (snd run)) dst = Some (Mem.File "new t3_cfg.safetensors").
Proof.
  intros run dst.
  split; [vm_compute; reflexivity|].
  assert (Hok : fst run = Ok (Path_of MODEL_DIR)) by (vm_compute; reflexivity).
  split; [exact Hok|].
  split; [|vm_compute; reflexivity].
  pose proof (@copy_stage_spec string Mem.machine Mem.runtime mem_copy_keeps
                (supplied_from "/models/orig") "/models/orig"
                (start supplied_and_stale)) as H.
  cbv zeta in H. fold run in H. rewrite Hok in H.
  apply H.
  - reflexivity.
  - reflexivity.
  - vm_compute. reflexivity.
  - intros file Hin. simpl in Hin.
    destruct Hin as [<-|[<-|[<-|[<-|[]]]]]; vm_compute; reflexivity.
Defined.

(** ** Whole runs *)

(** Standard model, download mode, CPU backend, on a bare Linux host:
    the first process creates the environment and hands over to its
    interpreter. *)
Example first_run_hands_over :
  let run := entry_point pr_host cpu_download (start host) in
  ending_of (fst run) = ReplacedBy venv_python [venv_python; "ChatterboxInstaller.py"]
  /\ commands_run (st_out (snd run))
     = [["/usr/bin/python3"; "-m"; "venv"; "/home/u/Chatterbox_TTS"]].
Proof. vm_compute. split; reflexivity. Qed.

(** The second process installs PyTorch from the CPU index, fetches the
    four Standard files into the model directory and ends with
    status 0. *)
Example second_run_completes :
  let run := entry_point pr_venv cpu_download (start host_with_venv) in
  ending_of (fst run) = ExitStatus 0
  /\ List.hd [] (commands_run (st_out (snd run)))
     = [ "/home/u/Chatterbox_TTS/bin/pip"; "install"; "--upgrade";
         "torch==2.6.0"; "torchvision==0.21.0"; "torchaudio==2.6.0";
         "--index-url"; "https://download.pytorch.org/whl/cpu" ]
  /\ map (fun '(_, dest) => dest) (fetches (st_out (snd run)))
     = map (Mem.path_div MODEL_DIR) ORIGINAL_EXPECTED
  /\ In (EvPrint "  • Backend: CPU") (st_out (snd run)).
Proof.
  vm_compute. repeat split; try reflexivity.
  repeat (first [left; reflexivity | right]).
Qed.

(** ROCm on Windows: the run ends with status 1 before anything is
    created or installed. *)
Example rocm_on_windows_is_fatal :
  let run := entry_point pr_windows rocm_download (start host) in
  ending_of (fst run) = ExitStatus 1
  /\ commands_run (st_out (snd run)) = []
  /\ st_env (snd run) = host.
Proof. vm_compute. repeat split; reflexivity. Qed.

(** ROCm on Linux passes the backend check. *)
Example rocm_on_linux_goes_on :
  let run := entry_point pr_host rocm_download (start host) in
  ending_of (fst run) = ReplacedBy venv_python [venv_python; "ChatterboxInstaller.py"].
Proof. vm_compute. reflexivity. Qed.

(** A dependency that fails once and then installs does not show up as
    failed, and the run completes. *)
Example flaky_dependency_is_retried :
  let cmd := ["/home/u/Chatterbox_TTS/bin/pip"; "install"; "--upgrade"; "einops"] in
  let run := install_dependencies v_linux ["einops"; "s3tokenizer"]
               (start pip_failing_once) in
  fst run = Ok tt
  /\ commands_run (st_out (snd run))
     = [cmd; cmd;
        ["/home/u/Chatterbox_TTS/bin/pip"; "install"; "--upgrade"; "s3tokenizer"]].
Proof. vm_compute. split; reflexivity. Qed.

(** User-supplied Standard files are copied over a stale model
    directory, one copy per expected file. *)
Example supplied_files_overwrite :
  let run := copy_model_files (Path_of "/models/orig") (Path_of MODEL_DIR)
               ORIGINAL_EXPECTED (start supplied_and_stale) in
  fst run = Ok tt
  /\ length (copies (st_out (snd run))) = 4%nat
  /\ Forall (fun f =>
               Mem.lookup_path (st_env (snd run)) (Mem.path_div MODEL_DIR f)
               = Some (Mem.File ("new " +:+ f)))
       ORIGINAL_EXPECTED.
Proof. vm_compute. repeat split; repeat constructor. Qed.

(** On the bare model directory the stage fetches the four Standard
    files; run again on the result, it fetches none. *)
Example second_download_fetches_nothing :
  let first := download_model_files (Path_of MODEL_DIR) ORIGINAL_FILES
                 (start host_with_venv) in
  fst first = Ok tt
  /\ length (fetches (st_out (snd first))) = 4%nat
  /\ download_model_files (Path_of MODEL_DIR) ORIGINAL_FILES
       {| st_env := st_env (snd first); st_out := [] |}
     = (Ok tt, {| st_env := st_env (snd first);
                  st_out := map skip_notice ORIGINAL_FILES |}).
Proof.
  split; [vm_compute; reflexivity|].
  split; [vm_compute; reflexivity|].
  apply (@download_again_fetches_nothing string Mem.machine Mem.runtime
           mem_fetched_exists mem_fetch_keeps
           (Path_of MODEL_DIR) ORIGINAL_FILES (start host_with_venv)).
  vm_compute. reflexivity.
Defined.

(** Where [python -m venv] links the environment's interpreter to the
    system one, both interpreters resolve to the same file: the first
    call creates the environment and returns. *)
Example linked_interpreter_resolves_to_host :
  let first := ensure_venv pr_host v_linux (start host_linking) in
  fst first = Ok tt
  /\ commands_run (st_out (snd first))
     = [["/usr/bin/python3"; "-m"; "venv"; "/home/u/Chatterbox_TTS"]]
  /\ Path_resolve (st_env (snd first)) (PYTHON_EXE v_linux) = "/usr/bin/python3".
Proof. vm_compute. repeat split; reflexivity. Qed.

(** The supplied Standard folder passes validation, and the copy stage
    then makes exactly the four copies. *)
Example supplied_files_all_copied :
  let run := copy_model_files (Path_of "/models/orig") (Path_of MODEL_DIR)
               ORIGINAL_EXPECTED (start supplied_and_stale) in
  validate_user_supplied_files supplied_and_stale "/models/orig" ORIGINAL_EXPECTED
  = Returns (true, "All files present")
  /\ copies (st_out (snd run))
     = map (fun file => (Mem.path_div "/models/orig" file, Mem.path_div MODEL_DIR file))
         ORIGINAL_EXPECTED.
Proof.
  split; [vm_compute; reflexivity|].
  refine (eq_trans
            (@copy_model_files_copies_all string Mem.machine Mem.runtime
               mem_copy_keeps (Path_of "/models/orig") (Path_of MODEL_DIR)
               ORIGINAL_EXPECTED (start supplied_and_stale)
               (snd (copy_model_files (Path_of "/models/orig") (Path_of MODEL_DIR)
                       ORIGINAL_EXPECTED (start supplied_and_stale))) _ _) _).
  - intros file Hin. simpl in Hin.
    destruct Hin as [<-|[<-|[<-|[<-|[]]]]]; vm_compute; reflexivity.
  - vm_compute. reflexivity.
  - reflexivity.
Defined.

(** * Further properties of the installer *)

(** ** The local name of a locator *)

(** The pieces of [split] are made of characters of the string, none of
    which is the separator. *)
Lemma split_pieces (sep : ascii) (s piece : string) (c : ascii) :
  In piece (PyStr.split sep s) -> In c (list_ascii_of_string piece) ->
  c <> sep /\ In c (list_ascii_of_string s).
Proof.
  revert piece. induction s as [|d rest IH]; simpl; intros piece Hpiece Hc.
  - destruct Hpiece as [<-|[]]. destruct Hc.
  - destruct (Ascii.eqb_spec d sep) as [->|Hd].
    + destruct Hpiece as [<-|Hpiece]; [destruct Hc|].
      destruct (IH _ Hpiece Hc) as [Hne Hin]. auto.
    + destruct (PyStr.split sep rest) as [|w ws] eqn:E.
      * exfalso. exact (split_nonempty _ _ E).
      * destruct Hpiece as [<-|Hpiece].
        -- simpl in Hc. destruct Hc as [<-|Hc]; [auto|].
           destruct (IH w (or_introl eq_refl) Hc) as [Hne Hin]. auto.
        -- destruct (IH piece (or_intror Hpiece) Hc) as [Hne Hin]. auto.
Qed.

Lemma last_in_list {A : Type} (l : list A) (d : A) : l <> [] -> In (List.last l d) l.
Proof.
  induction l as [|x l IH]; [congruence|]. intros _.
  destruct l as [|y l]; [left; reflexivity|].
  right. apply IH. discriminate.
Qed.

(** X1: whatever the locator, the local name derived from it contains
    neither a slash nor a question mark. *)
Theorem url_filename_is_plain (url : string) :
  Forall (fun c => c <> "/"%char /\ c <> "?"%char)
    (list_ascii_of_string (url_filename url)).
Proof.
  apply List.Forall_forall. intros c Hc. unfold url_filename in Hc.
  set (segment := PyStr.item_last (PyStr.split "/" url)) in *.
  assert (Hseg : In segment (PyStr.split "/" url)).
  { apply last_in_list. apply split_nonempty. }
  assert (Hname : In (PyStr.item_first (PyStr.split "?" segment))
                    (PyStr.split "?" segment)).
  { unfold PyStr.item_first.
    destruct (PyStr.split "?" segment) eqn:E; [|left; reflexivity].
    exfalso. exact (split_nonempty _ _ E). }
  destruct (split_pieces _ _ _ _ Hname Hc) as [Hq Hin].
  destruct (split_pieces _ _ _ _ Hseg Hin) as [Hs _].
  split; assumption.
Qed.

(** X2: locators without a query string.  The name is what follows the
    last slash, so a locator that ends in a slash derives the empty
    name, and a string without any slash or question mark is its own
    name. *)
Theorem url_filename_without_query (base name : string) :
  (forall c, In c (list_ascii_of_string name) -> c <> "/"%char /\ c <> "?"%char) ->
  url_filename (base +:+ "/" +:+ name) = name
  /\ url_filename name = name
  /\ url_filename (base +:+ "/") = EmptyString.
Proof.
  intros Hname.
  assert (Hplain : forall s,
            (forall c, In c (list_ascii_of_string s) -> c <> "/"%char /\ c <> "?"%char) ->
            url_filename s = s).
  { intros s Hs. unfold url_filename.
    rewrite (split_without_sep "/") by (intros c Hc; apply Hs; exact Hc).
    unfold PyStr.item_last, List.last.
    rewrite (split_without_sep "?") by (intros c Hc; apply Hs; exact Hc).
    reflexivity. }
  assert (Hafter : forall s,
            (forall c, In c (list_ascii_of_string s) -> c <> "/"%char /\ c <> "?"%char) ->
            url_filename (base +:+ "/" +:+ s) = s).
  { intros s Hs. unfold url_filename.
    change (base +:+ "/" +:+ s) with (base +:+ String "/" s).
    rewrite split_last_app. apply Hplain. exact Hs. }
  split; [apply Hafter; exact Hname|].
  split; [apply Hplain; exact Hname|].
  change (base +:+ "/") with (base +:+ "/" +:+ EmptyString).
  apply Hafter. intros c [].
Qed.

(** ** Quoted folder paths *)

Lemma endswith_char_app (c : ascii) (s : string) :
  endswith_char c (s +:+ String c EmptyString) = true.
Proof.
  induction s as [|d rest IH]; simpl.
  - apply Ascii.eqb_refl.
  - destruct (rest +:+ String c EmptyString) eqn:E.
    + destruct rest; discriminate E.
    + exact IH.
Qed.

Lemma substring_prefix (p rest : string) :
  String.substring 0 (String.length p) (p +:+ rest) = p.
Proof.
  induction p as [|d p IH]; simpl.
  - destruct rest; reflexivity.
  - rewrite IH. reflexivity.
Qed.

Lemma length_app_one (p : string) (c : ascii) :
  String.length (p +:+ String c EmptyString) = S (String.length p).
Proof. induction p as [|d p IH]; simpl; [reflexivity | rewrite IH; reflexivity]. Qed.

(** X3: the quote stripping of the folder prompt.  A path typed between
    double quotes loses exactly the outer pair, whatever it contains; a
    lone double quote becomes the empty path; and a path that does not
    both start and end with a double quote is left as typed. *)
Theorem strip_quotes_spec (p : string) :
  strip_quotes (String dquote (p +:+ String dquote EmptyString)) = p
  /\ strip_quotes (String dquote EmptyString) = EmptyString
  /\ (startswith_char dquote p = false \/ endswith_char dquote p = false ->
      strip_quotes p = p).
Proof.
  split; [|split].
  - unfold strip_quotes.
    assert (Hend : endswith_char dquote (String dquote (p +:+ String dquote EmptyString))
                   = true).
    { change (String dquote (p +:+ String dquote EmptyString))
        with (String dquote p +:+ String dquote EmptyString).
      apply endswith_char_app. }
    rewrite Hend.
    replace (startswith_char dquote _) with true by reflexivity.
    cbn [andb]. cbn [String.length]. rewrite length_app_one.
    replace (S (S (String.length p)) - 2)%nat with (String.length p) by lia.
    cbn [String.substring]. apply substring_prefix.
  - reflexivity.
  - intros H. unfold strip_quotes.
    destruct H as [-> | ->]; [reflexivity|].
    rewrite andb_false_r. reflexivity.
Qed.

(** ** What the menus do to the machine *)

Section Menus.

Context {Path Env : Type} {RT : Runtime Path Env}.

#[local] Abbreviation state := (state Path Env).
#[local] Abbreviation M := (M Path Env).

Lemma only_talks_ret {A : Type} (a : A) : only_talks (mret a : M A).
Proof. intros s. exists []. rewrite log_nil. split; [reflexivity | constructor]. Qed.

Lemma only_talks_raise {A : Type} (e : exn) : only_talks (raise e : M A).
Proof. intros s. exists []. rewrite log_nil. split; [reflexivity | constructor]. Qed.

Lemma only_talks_emit (ev : event Path) : talk ev -> only_talks (emit ev : M unit).
Proof.
  intros Hev s. exists [ev]. split; [reflexivity|]. constructor; [exact Hev | constructor].
Qed.

Lemma only_talks_print (text : string) : only_talks (print text : M unit).
Proof. apply only_talks_emit. exact I. Qed.

Lemma only_talks_bind {A B : Type} (m : M A) (f : A -> M B) :
  only_talks m -> (forall a, only_talks (f a)) -> only_talks (m ≫= f).
Proof.
  intros Hm Hf s. destruct (Hm s) as (evs1 & H1 & Ht1).
  unfold mbind, M_bind. destruct (m s) as [[a|e|prog argv] s1]; simpl in H1; subst s1.
  - destruct (Hf a (log s evs1)) as (evs2 & H2 & Ht2).
    exists (evs1 ++ evs2). rewrite H2, log_log. split; [reflexivity|].
    apply Forall_app. split; assumption.
  - exists evs1. split; [reflexivity | exact Ht1].
  - exists evs1. split; [reflexivity | exact Ht1].
Qed.

Lemma only_talks_get_env {B : Type} (f : Env -> M B) :
  (forall e, only_talks (f e)) -> only_talks (get_env ≫= f).
Proof.
  intros Hf s. unfold mbind, M_bind, get_env. simpl. apply Hf.
Qed.

Lemma only_talks_for_each {A : Type} (l : list A) (body : A -> M unit) :
  (forall x, only_talks (body x)) -> only_talks (for_each l body).
Proof.
  intros Hbody. induction l as [|x l IH]; simpl.
  - apply only_talks_ret.
  - apply only_talks_bind; [apply Hbody | intros _; exact IH].
Qed.

Lemma only_talks_print_header (text : string) :
  only_talks (print_header text : M unit).
Proof.
  unfold print_header.
  repeat (apply only_talks_bind; [apply only_talks_print | intros _]).
  apply only_talks_print.
Qed.

Lemma only_talks_print_options (i : Z) (options : list string) :
  only_talks (print_options i options : M unit).
Proof.
  revert i. induction options as [|o os IH]; intros i; simpl.
  - apply only_talks_ret.
  - apply only_talks_bind; [apply only_talks_print | intros _; apply IH].
Qed.

Ltac talk_step :=
  first
    [ apply only_talks_ret
    | apply only_talks_raise
    | apply only_talks_print
    | apply only_talks_print_header
    | apply only_talks_print_options
    | apply only_talks_emit; exact I
    | apply only_talks_get_env; intros ?
    | apply only_talks_bind; [|intros ?] ].

Lemma only_talks_get_user_choice (prompt : string) (options : list string)
    (inp : list input_event) :
  only_talks (get_user_choice prompt options inp).
Proof.
  induction inp as [|[text|] rest IH]; simpl.
  - repeat talk_step.
  - repeat talk_step.
    destruct (int_of_str (str_strip text)) as [n|].
    + destruct ((1 <=? n)%Z && (n <=? Z.of_nat (length options))%Z).
      * talk_step.
      * unfold print_error. repeat talk_step. exact IH.
    + unfold print_error. repeat talk_step. exact IH.
  - unfold sys_exit. repeat talk_step.
Qed.

Lemma only_talks_input (prompt : string) (inp : list input_event) :
  only_talks (input prompt inp : M (string * list input_event)).
Proof.
  unfold input. talk_step; [talk_step|].
  destruct inp as [|[text|] rest]; talk_step.
Qed.

(** One round of the folder loop, for every input at most as long as
    [n]. *)
Lemma only_talks_ask_model_folder_upto (expected_files : list string) (n : nat) :
  forall inp, (length inp <= n)%nat ->
  only_talks (ask_model_folder expected_files inp).
Proof.
  induction n as [|n IH]; intros inp Hlen.
  - destruct inp; [|simpl in Hlen; lia]. simpl. repeat talk_step.
  - destruct inp as [|[text|] rest]; simpl.
    + repeat talk_step.
    + talk_step; [talk_step|]. apply only_talks_get_env. intros e.
      destruct (validate_user_supplied_files e (strip_quotes (str_strip text))
                  expected_files) as [[valid message]|err]; [|talk_step].
      destruct valid.
      * unfold print_success. repeat talk_step.
      * unfold print_error. talk_step; [talk_step|]. talk_step; [talk_step|].
        destruct rest as [|[answer|] rest']; try talk_step.
        destruct (negb (String.eqb (str_lower (str_strip answer)) "y")).
        -- unfold sys_exit. repeat talk_step.
        -- apply IH. simpl in Hlen. lia.
    + repeat talk_step.
Qed.

Lemma only_talks_ask_model_folder (expected_files : list string)
    (inp : list input_event) :
  only_talks (ask_model_folder expected_files inp).
Proof. apply (only_talks_ask_model_folder_upto _ (length inp)). lia. Qed.

Lemma only_talks_main_step1 (inp : list input_event) : only_talks (main_step1 inp).
Proof.
  unfold main_step1.
  talk_step; [talk_step|]. talk_step; [talk_step|]. talk_step; [talk_step|].
  apply only_talks_bind;
    [apply only_talks_get_user_choice | intros [model_choice inp1]].
  destruct ((model_choice =? 3)%Z || (model_choice =? 4)%Z).
  - talk_step; [talk_step|]. talk_step; [talk_step|].
    talk_step; [apply only_talks_for_each; intros f; talk_step|].
    apply only_talks_bind;
      [apply only_talks_ask_model_folder | intros [folder inp2]].
    talk_step.
  - unfold print_warning.
    talk_step; [talk_step|]. talk_step; [talk_step|].
    apply only_talks_bind; [apply only_talks_input | intros [answer inp2]].
    destruct (negb (String.eqb (str_lower (str_strip answer)) "y")).
    + unfold sys_exit. repeat talk_step.
    + talk_step.
Qed.

Lemma only_talks_main_step2 (OS : string) (inp : list input_event) :
  only_talks (main_step2 OS inp).
Proof.
  unfold main_step2.
  talk_step; [talk_step|]. talk_step; [talk_step|].
  apply only_talks_bind;
    [apply only_talks_get_user_choice | intros [backend_choice inp1]].
  talk_step.
  - unfold validate_backend_choice, print_error, sys_exit.
    destruct ((backend_choice =? 2)%Z && negb (String.eqb OS "linux")); repeat talk_step.
  - repeat talk_step.
Qed.

Lemma talk_commands_run (evs : list (event Path)) :
  Forall talk evs -> commands_run evs = [] /\ fetches evs = [] /\ copies evs = [].
Proof.
  induction 1 as [|ev evs Hev _ IH]; [auto|].
  destruct ev; try contradiction; exact IH.
Qed.

(** What a computation that only talks leaves as it was. *)
Lemma only_talks_untouched {A : Type} (m : M A) (s : state) :
  only_talks m ->
  st_env (snd (m s)) = st_env s
  /\ commands_run (st_out (snd (m s))) = commands_run (st_out s)
  /\ fetches (st_out (snd (m s))) = fetches (st_out s)
  /\ copies (st_out (snd (m s))) = copies (st_out s).
Proof.
  intros Hm. destruct (Hm s) as (evs & -> & Htalk).
  destruct (talk_commands_run evs Htalk) as (Hc & Hf & Hp).
  unfold log, commands_run, fetches, copies in *. simpl.
  rewrite !flat_map_app, Hc, Hf, Hp, !app_nil_r. auto.
Qed.

(** X5: the model menu, the folder and confirmation prompts and the
    backend menu never touch the machine.  However steps 1 and 2 end,
    by a choice, a refusal, the end of the input or Ctrl-C, no file
    has been created, no child process started, nothing fetched and
    nothing copied. *)
Theorem menus_leave_machine_alone (OS : string) (inp : list input_event) (s : state) :
  (st_env (snd (main_step1 inp s)) = st_env s
   /\ commands_run (st_out (snd (main_step1 inp s))) = commands_run (st_out s)
   /\ fetches (st_out (snd (main_step1 inp s))) = fetches (st_out s)
   /\ copies (st_out (snd (main_step1 inp s))) = copies (st_out s))
  /\ (st_env (snd (main_step2 OS inp s)) = st_env s
      /\ commands_run (st_out (snd (main_step2 OS inp s))) = commands_run (st_out s)
      /\ fetches (st_out (snd (main_step2 OS inp s))) = fetches (st_out s)
      /\ copies (st_out (snd (main_step2 OS inp s))) = copies (st_out s)).
Proof.
  split; apply only_talks_untouched;
    [apply only_talks_main_step1 | apply only_talks_main_step2].
Qed.

End Menus.

(** ** Step 1: the variant and the supplied folder *)

Section Selection.

Context {Path Env : Type} {RT : Runtime Path Env}.

#[local] Abbreviation state := (state Path Env).
#[local] Abbreviation M := (M Path Env).

Lemma bind_ok_inv {A B : Type} (m : M A) (f : A -> M B) (s s' : state) (b : B) :
  (m ≫= f) s = (Ok b, s') ->
  exists a s1, m s = (Ok a, s1) /\ f a s1 = (Ok b, s').
Proof.
  unfold mbind, M_bind. destruct (m s) as [[a|e|prog argv] s1]; try discriminate.
  intros H. eauto.
Qed.

(** The validator raises nothing but the error of a probe. *)
Lemma validate_raises_oserror (e : Env) (folder_path : string)
    (expected_files : list string) (err : exn) :
  validate_user_supplied_files e folder_path expected_files = Raises err ->
  exists msg, err = OSError msg.
Proof.
  unfold validate_user_supplied_files, path_exists.
  destruct (Path_exists e (Path_of folder_path)).
  - cbn [negb orb]. destruct (negb (Path_is_dir e (Path_of folder_path))); [discriminate|].
    assert (Hloop : forall files acc,
              missing_files_from e (Path_of folder_path) files acc = Raises err ->
              exists msg, err = OSError msg).
    { induction files as [|file rest IH]; intros acc; simpl; [discriminate|].
      unfold path_exists.
      destruct (Path_exists e (Path_div (Path_of folder_path) file)); simpl;
        [apply IH|].
      destruct (Path_stat_error e (Path_div (Path_of folder_path) file)) as [msg|].
      - intros H. injection H as <-. eauto.
      - apply IH. }
    destruct (missing_files_from e (Path_of folder_path) expected_files [])
      as [[|f l]|err0] eqn:Hmissing; try discriminate.
    intros H. injection H as <-. exact (Hloop _ _ Hmissing).
  - destruct (Path_stat_error e (Path_of folder_path)) as [msg|]; [|discriminate].
    intros H. injection H as <-. eauto.
Qed.

Lemma ask_model_folder_unfold (expected_files : list string)
    (inp : list input_event) (s : state) :
  ask_model_folder expected_files inp s =
  let s1 := log s [EvPrompt (nl +:+ "Enter the full path to your model folder: ")] in
  match inp with
  | [] => (Raise EOFError, s1)
  | Interrupt :: _ => (Raise KeyboardInterrupt, s1)
  | Line text :: rest =>
      match validate_user_supplied_files (st_env s) (typed_folder text)
              expected_files with
      | Raises err => (Raise err, s1)
      | Returns (true, message) =>
          (Ok (Path_of (typed_folder text), rest), log s1 [EvPrint ("✓ " +:+ message)])
      | Returns (false, message) =>
          let s2 := log s1 [EvPrint ("✗ " +:+ message);
                            EvPrompt "Try again? (y/n): "] in
          match rest with
          | [] => (Raise EOFError, s2)
          | Interrupt :: _ => (Raise KeyboardInterrupt, s2)
          | Line answer :: rest' =>
              if negb (String.eqb (str_lower (str_strip answer)) "y")
              then (Raise (SystemExit 0), log s2 [EvPrint "Installation cancelled."])
              else ask_model_folder expected_files rest' s2
          end
      end
  end.
Proof.
  destruct inp as [|[text|] rest]; simpl; try reflexivity.
  unfold mbind at 1, M_bind at 1. rewrite emit_eq.
  unfold mbind at 1, M_bind at 1, get_env at 1. cbn [st_env log].
  unfold typed_folder.
  destruct (validate_user_supplied_files (st_env s) (strip_quotes (str_strip text))
              expected_files) as [[valid message]|err]; [|reflexivity].
  destruct valid.
  - unfold print_success. erewrite bind_ok by apply print_eq. reflexivity.
  - unfold print_error. erewrite bind_ok by apply print_eq.
    erewrite bind_ok by apply emit_eq. rewrite log_log.
    destruct rest as [|[answer|] rest']; try reflexivity.
    destruct (negb (String.eqb (str_lower (str_strip answer)) "y")); [|reflexivity].
    erewrite bind_ok by apply print_eq. reflexivity.
Qed.

(** How the folder loop can end, for every input at most as long as
    [n]. *)
Lemma ask_model_folder_cases_upto (expected_files : list string) (n : nat) :
  forall inp (s : state), (length inp <= n)%nat ->
  match fst (ask_model_folder expected_files inp s) with
  | Ok (folder, _) =>
      exists text, In (Line text) inp /\ folder = Path_of (typed_folder text)
        /\ validity (st_env s) (typed_folder text) expected_files = Some true
  | Raise (SystemExit code) => code = 0%Z
  | Raise KeyboardInterrupt | Raise EOFError => True
  | Raise (OSError msg) =>
      exists text, In (Line text) inp
        /\ validate_user_supplied_files (st_env s) (typed_folder text) expected_files
           = Raises (OSError msg)
  | _ => False
  end.
Proof.
  induction n as [|n IH]; intros inp s Hlen; rewrite ask_model_folder_unfold.
  - destruct inp; [exact I | simpl in Hlen; lia].
  - destruct inp as [|[text|] rest]; cbn zeta; try exact I.
    destruct (validate_user_supplied_files (st_env s) (typed_folder text)
                expected_files) as [[valid message]|err] eqn:Hvalid.
    2:{ destruct (validate_raises_oserror _ _ _ _ Hvalid) as [msg ->]. cbn [fst].
        exists text. split; [left; reflexivity | exact Hvalid]. }
    destruct valid; cbn [fst].
    + exists text. split; [left; reflexivity|]. split; [reflexivity|].
      unfold validity. rewrite Hvalid. reflexivity.
    + destruct rest as [|[answer|] rest']; try exact I.
      destruct (negb (String.eqb (str_lower (str_strip answer)) "y")); [reflexivity|].
      match goal with |- context [ask_model_folder expected_files rest' ?s2] =>
        pose proof (IH rest' s2) as Hrec
      end.
      cbn [st_env log] in Hrec.
      destruct (fst (ask_model_folder expected_files rest' _))
        as [[folder rest2]|[]|]; try (apply Hrec; simpl in Hlen; lia).
      * destruct Hrec as (t & Hin & Hf & Hv); [simpl in Hlen; lia|].
        exists t. split; [right; right; exact Hin | auto].
      * destruct Hrec as (t & Hin & Hmsg); [simpl in Hlen; lia|].
        exists t. split; [right; right; exact Hin | exact Hmsg].
Qed.

Lemma ask_model_folder_cases (expected_files : list string) (inp : list input_event)
    (s : state) :
  match fst (ask_model_folder expected_files inp s) with
  | Ok (folder, _) =>
      exists text, In (Line text) inp /\ folder = Path_of (typed_folder text)
        /\ validity (st_env s) (typed_folder text) expected_files = Some true
  | Raise (SystemExit code) => code = 0%Z
  | Raise KeyboardInterrupt | Raise EOFError => True
  | Raise (OSError msg) =>
      exists text, In (Line text) inp
        /\ validate_user_supplied_files (st_env s) (typed_folder text) expected_files
           = Raises (OSError msg)
  | _ => False
  end.
Proof. apply (ask_model_folder_cases_upto _ (length inp)). lia. Qed.

(** What [get_user_choice] hands back is the end of what it was
    given. *)
Lemma get_user_choice_rest (prompt : string) (options : list string)
    (inp rest : list input_event) (n : Z) (s : state) :
  fst (get_user_choice prompt options inp s) = Ok (n, rest) ->
  exists used, inp = used ++ rest.
Proof.
  revert s. induction inp as [|[text|] tail IH]; intros s;
    rewrite get_user_choice_unfold; simpl; try discriminate.
  assert (Hnext : forall s0, fst (get_user_choice prompt options tail s0) = Ok (n, rest) ->
                  exists used, Line text :: tail = used ++ rest).
  { intros s0 H. destruct (IH s0 H) as [used ->]. exists (Line text :: used). reflexivity. }
  destruct (int_of_str (str_strip text)) as [k|]; [|apply Hnext].
  destruct ((1 <=? k)%Z && (k <=? Z.of_nat (length options))%Z); simpl; [|apply Hnext].
  intros H. injection H as _ <-. exists [Line text]. reflexivity.
Qed.

(** X6: the folder prompt keeps asking.  After any number of folders
    that fail validation, each followed by the answer y, the first
    folder that passes is handed over, with the input that follows it
    and with the machine untouched. *)
Theorem ask_model_folder_accepts_first_valid (expected_files : list string)
    (tries : list (string * string)) (text : string) (rest : list input_event)
    (s : state) :
  Forall (fun '(bad, answer) =>
            validity (st_env s) (typed_folder bad) expected_files = Some false
            /\ str_lower (str_strip answer) = "y") tries ->
  validity (st_env s) (typed_folder text) expected_files = Some true ->
  fst (ask_model_folder expected_files (attempts tries ++ Line text :: rest) s)
  = Ok (Path_of (typed_folder text), rest)
  /\ st_env (snd (ask_model_folder expected_files
                    (attempts tries ++ Line text :: rest) s)) = st_env s.
Proof.
  intros Htries Hvalid. revert s Htries Hvalid.
  induction tries as [|[bad answer] tries IH]; intros s Htries Hvalid;
    rewrite ask_model_folder_unfold; cbn zeta.
  - simpl. unfold validity in Hvalid.
    destruct (validate_user_supplied_files (st_env s) (typed_folder text)
                expected_files) as [[[|] message]|err]; try discriminate Hvalid.
    split; reflexivity.
  - inversion Htries as [|x l Hhd Hrest]; subst.
    cbn beta iota in Hhd. destruct Hhd as [Hbad Hans].
    change (attempts ((bad, answer) :: tries) ++ Line text :: rest)
      with (Line bad :: Line answer :: (attempts tries ++ Line text :: rest)).
    cbn iota. unfold validity in Hbad.
    destruct (validate_user_supplied_files (st_env s) (typed_folder bad)
                expected_files) as [[[|] message]|err]; try discriminate Hbad.
    rewrite Hans. cbn [negb String.eqb].
    replace (("y" =? "y")%string) with true by reflexivity. cbn [negb].
    match goal with |- context [ask_model_folder expected_files _ ?s2] =>
      destruct (IH s2) as [Hfst Henv]; [exact Hrest | exact Hvalid |]
    end.
    split; [exact Hfst | exact Henv].
Qed.

(** X7: what step 1 hands over.  In user-supplied mode the selection
    carries a folder that was typed on one of the input lines, and that
    folder has passed validation against the expected files of the
    chosen variant, the same list the copy stage of step 6 goes
    through; in download mode it carries none.  The machine is as
    before. *)
Theorem main_step1_selection (inp rest : list input_event) (s s' : state)
    (sel : selection Path) :
  main_step1 inp s = (Ok (sel, rest), s') ->
  (if is_user_supplied sel
   then exists text,
          In (Line text) inp
          /\ user_model_path sel = Some (Path_of (typed_folder text))
          /\ validity (st_env s) (typed_folder text)
               (expected_files_of (is_turbo sel)) = Some true
   else user_model_path sel = None)
  /\ st_env s' = st_env s.
Proof.
  intros Hrun. split.
  2:{ destruct (only_talks_untouched (main_step1 inp) s (only_talks_main_step1 inp))
        as [Henv _]. rewrite Hrun in Henv. exact Henv. }
  unfold main_step1 in Hrun.
  apply bind_ok_inv in Hrun. destruct Hrun as ([] & s1 & H1 & Hrun).
  apply bind_ok_inv in Hrun. destruct Hrun as ([] & s2 & H2 & Hrun).
  apply bind_ok_inv in Hrun. destruct Hrun as ([] & s3 & H3 & Hrun).
  apply bind_ok_inv in Hrun. destruct Hrun as ([choice inp1] & s4 & H4 & Hrun).
  assert (Hused : exists used, inp = used ++ inp1).
  { eapply (get_user_choice_rest _ _ inp inp1 choice s3). rewrite H4. reflexivity. }
  assert (Henv4 : st_env s4 = st_env s).
  { rewrite print_header_eq in H1. injection H1 as <-.
    rewrite print_eq in H2. injection H2 as <-.
    rewrite print_eq in H3. injection H3 as <-.
    destruct (only_talks_untouched (get_user_choice EmptyString model_options inp)
                (log (log (log s (header_events "Step 1: Model Selection"))
                        [EvPrint ("Welcome! Ready to Install Chatterbox? Start by entering an option below:" +:+ nl)])
                   [EvPrint ("Available Models:" +:+ nl)]))
      as [Henv _]; [apply only_talks_get_user_choice|].
    unfold model_options in Henv. rewrite H4 in Henv. exact Henv. }
  destruct ((choice =? 3)%Z || (choice =? 4)%Z).
  - apply bind_ok_inv in Hrun. destruct Hrun as ([] & s5 & H5 & Hrun).
    apply bind_ok_inv in Hrun. destruct Hrun as ([] & s6 & H6 & Hrun).
    apply bind_ok_inv in Hrun. destruct Hrun as ([] & s7 & H7 & Hrun).
    apply bind_ok_inv in Hrun. destruct Hrun as ([folder inp2] & s8 & H8 & Hrun).
    injection Hrun as <- <- <-. cbn [is_user_supplied user_model_path is_turbo].
    assert (Henv7 : st_env s7 = st_env s).
    { rewrite print_eq in H5. injection H5 as <-.
      rewrite print_eq in H6. injection H6 as <-.
      match type of H7 with ?m ?s0 = _ =>
        destruct (only_talks_untouched m s0) as [Henv _];
          [apply only_talks_for_each; intros f; apply only_talks_print|]
      end.
      rewrite H7 in Henv. cbn [snd st_env log] in Henv.
      rewrite Henv. exact Henv4. }
    match type of H8 with ask_model_folder ?exp ?i ?s0 = _ =>
      pose proof (ask_model_folder_cases exp i s0) as Hcases
    end.
    rewrite H8 in Hcases. cbn [fst] in Hcases.
    destruct Hcases as (text & Hin & -> & Hvalid).
    exists text. split.
    { destruct Hused as [used ->]. apply in_or_app. right. exact Hin. }
    split; [reflexivity|]. rewrite <- Henv7. exact Hvalid.
  - apply bind_ok_inv in Hrun. destruct Hrun as ([] & s5 & H5 & Hrun).
    apply bind_ok_inv in Hrun. destruct Hrun as ([] & s6 & H6 & Hrun).
    apply bind_ok_inv in Hrun. destruct Hrun as ([answer inp2] & s7 & H7 & Hrun).
    destruct (negb (String.eqb (str_lower (str_strip answer)) "y")).
    + apply bind_ok_inv in Hrun. destruct Hrun as ([] & s8 & _ & Hrun).
      discriminate Hrun.
    + injection Hrun as <- <- <-. reflexivity.
Qed.

(** X8: what step 2 hands over.  The backend choice is 1, 2 or 3, so
    the list of backend names is never indexed out of range, and the
    ROCm choice (2) comes out of step 2 only on Linux. *)
Theorem main_step2_backend (OS : string) (inp rest : list input_event)
    (s s' : state) (backend_choice : Z) :
  main_step2 OS inp s = (Ok (backend_choice, rest), s') ->
  In backend_choice [1; 2; 3]%Z
  /\ In (backend_name_of backend_choice) ["CPU"; "AMD (ROCm)"; "Nvidia (CUDA)"]
  /\ (backend_choice = 2%Z -> OS = "linux").
Proof.
  intros Hrun. unfold main_step2 in Hrun.
  apply bind_ok_inv in Hrun. destruct Hrun as ([] & s1 & _ & Hrun).
  apply bind_ok_inv in Hrun. destruct Hrun as ([] & s2 & _ & Hrun).
  apply bind_ok_inv in Hrun. destruct Hrun as ([choice inp1] & s3 & Hchoice & Hrun).
  apply bind_ok_inv in Hrun. destruct Hrun as ([] & s4 & Hcheck & Hrun).
  apply bind_ok_inv in Hrun. destruct Hrun as ([] & s5 & _ & Hrun).
  injection Hrun as <- <- <-.
  pose proof (get_user_choice_ends EmptyString backend_options inp s2) as Hends.
  rewrite Hchoice in Hends. cbn [fst] in Hends.
  change (Z.of_nat (length backend_options)) with 3%Z in Hends.
  assert (Hb : choice = 1%Z \/ choice = 2%Z \/ choice = 3%Z) by lia.
  split; [|split].
  - destruct Hb as [->|[->| ->]]; simpl; auto.
  - destruct Hb as [->|[->| ->]]; simpl; auto.
  - intros ->. unfold validate_backend_choice in Hcheck. simpl in Hcheck.
    destruct (String.eqb_spec OS "linux") as [Hos|Hos]; [exact Hos|].
    simpl in Hcheck. apply bind_ok_inv in Hcheck.
    destruct Hcheck as ([] & s6 & _ & Hcheck).
    apply bind_ok_inv in Hcheck. destruct Hcheck as ([] & s7 & _ & Hcheck).
    discriminate Hcheck.
Qed.

End Selection.

(** ** Runs that end before anything is installed *)

Section EarlyExits.

Context {Path Env : Type} {RT : Runtime Path Env}.

#[local] Abbreviation state := (state Path Env).
#[local] Abbreviation M := (M Path Env).

Lemma last_two {A : Type} (l : list A) (a b d : A) :
  List.last (l ++ [a; b]) d = b.
Proof.
  change [a; b] with ([a] ++ [b]). rewrite app_assoc. apply List.last_last.
Qed.

(** The banner starts no child process. *)
Lemma commands_run_banner (pr : process) (s : state) :
  commands_run (st_out (banner pr s)) = commands_run (st_out s).
Proof.
  unfold banner, commands_run. cbn [st_out].
  rewrite flat_map_app. simpl. rewrite app_nil_r. reflexivity.
Qed.

(** X9: a host that is neither Windows nor Linux is refused at once.
    The run ends with status 1 after two lines of text; the screen is
    not cleared, no input is read and the machine is not touched. *)
Theorem unsupported_os_is_refused (pr : process) (inp : list input_event) (s : state) :
  str_lower (platform_system pr) <> "windows" ->
  str_lower (platform_system pr) <> "linux" ->
  entry_point pr inp s
  = (Raise (SystemExit 1),
     log s [EvPrint ("✗ Unsupported operating system: "
                       +:+ str_lower (platform_system pr));
            EvPrint "This installer only supports Windows and Linux"])
  /\ ending_of (fst (entry_point pr inp s)) = ExitStatus 1.
Proof.
  intros Hw Hl. apply String.eqb_neq in Hw. apply String.eqb_neq in Hl.
  assert (Hmain : main pr inp s
                  = (Raise (SystemExit 1),
                     log s [EvPrint ("✗ Unsupported operating system: "
                                       +:+ str_lower (platform_system pr));
                            EvPrint "This installer only supports Windows and Linux"])).
  { unfold main. cbn [existsb]. rewrite Hw, Hl. cbn [orb negb].
    erewrite bind_raise; [reflexivity|].
    unfold print_error. erewrite bind_ok by apply print_eq.
    erewrite bind_ok by apply print_eq. rewrite log_log. reflexivity. }
  destruct (entry_point_system_exit pr inp s _ 1%Z Hmain) as [Hentry Hend].
  split; assumption.
Qed.

(** Step 1 when the download is not confirmed. *)
Lemma main_step1_declined (first answer : string) (rest : list input_event)
    (choice : Z) (s : state) :
  int_of_str (str_strip first) = Some choice ->
  choice = 1%Z \/ choice = 2%Z ->
  str_lower (str_strip answer) <> "y" ->
  fst (main_step1 (Line first :: Line answer :: rest) s) = Raise (SystemExit 0).
Proof.
  intros Hint Hchoice Hanswer. unfold main_step1.
  erewrite bind_ok by apply print_header_eq.
  erewrite bind_ok by apply print_eq.
  erewrite bind_ok by apply print_eq.
  erewrite bind_ok.
  2:{ rewrite get_user_choice_unfold. cbn zeta iota. rewrite Hint.
      replace ((1 <=? choice)%Z && (choice <=? Z.of_nat (length _))%Z) with true
        by (destruct Hchoice as [-> | ->]; reflexivity).
      reflexivity. }
  cbn beta iota.
  replace ((choice =? 3)%Z || (choice =? 4)%Z) with false
    by (destruct Hchoice as [-> | ->]; reflexivity).
  erewrite bind_ok by apply print_eq.
  unfold print_warning. erewrite bind_ok by apply print_eq.
  erewrite bind_ok by (unfold input; erewrite bind_ok by apply emit_eq; reflexivity).
  cbn beta iota. apply String.eqb_neq in Hanswer. rewrite Hanswer. cbn [negb].
  erewrite bind_ok by apply print_eq. reflexivity.
Qed.

(** X10: declining the download.  When the first line picks a download
    variant (1 or 2) and the answer to "Continue?" is anything but y,
    the run ends with status 0 and no child process has been started,
    nothing fetched and nothing copied. *)
Theorem declined_download_ends_run (pr : process) (first answer : string)
    (rest : list input_event) (choice : Z) (s : state) :
  existsb (String.eqb (str_lower (platform_system pr))) ["windows"; "linux"] = true ->
  int_of_str (str_strip first) = Some choice ->
  choice = 1%Z \/ choice = 2%Z ->
  str_lower (str_strip answer) <> "y" ->
  let run := entry_point pr (Line first :: Line answer :: rest) s in
  ending_of (fst run) = ExitStatus 0
  /\ commands_run (st_out (snd run)) = commands_run (st_out s)
  /\ fetches (st_out (snd run)) = fetches (st_out s)
  /\ copies (st_out (snd run)) = copies (st_out s).
Proof.
  intros Hos Hint Hchoice Hanswer run. subst run.
  set (inp := Line first :: Line answer :: rest).
  pose proof (main_step1_declined first answer rest choice (banner pr s)
                Hint Hchoice Hanswer) as Hstep.
  fold inp in Hstep.
  destruct (main_step1 inp (banner pr s)) as [r s1] eqn:H1. cbn [fst] in Hstep.
  subst r.
  destruct (only_talks_untouched (main_step1 inp) (banner pr s)
              (only_talks_main_step1 inp)) as (_ & Hc & Hf & Hp).
  rewrite H1 in Hc, Hf, Hp. cbn [snd] in Hc, Hf, Hp.
  destruct (entry_point_system_exit pr inp s s1 0%Z
              (main_raises_at_step1 pr inp s s1 _ Hos H1)) as [-> _].
  cbn [fst snd ending_of].
  split; [reflexivity|].
  rewrite Hc, Hf, Hp. rewrite commands_run_banner.
  unfold banner, fetches, copies. cbn [st_out].
  rewrite !flat_map_app. simpl. rewrite !app_nil_r. auto.
Qed.

(** At the end of the input, or when every line is refused,
    [get_user_choice] ends with the [EOFError] of [input()]. *)
Lemma get_user_choice_eof (prompt : string) (options : list string)
    (junk : list input_event) (s : state) :
  Forall (refused options) junk ->
  fst (get_user_choice prompt options junk s) = Raise EOFError.
Proof.
  intros Hjunk. revert s.
  induction Hjunk as [|ev junk Hev _ IH]; intros s;
    rewrite get_user_choice_unfold; cbn zeta.
  - reflexivity.
  - destruct ev as [line|]; [|contradiction]. cbn iota. simpl in Hev.
    destruct (int_of_str (str_strip line)) as [k|]; [|apply IH].
    destruct (Z.leb_spec 1 k); simpl; [|apply IH].
    destruct (Z.leb_spec k (Z.of_nat (length options))); simpl; [lia | apply IH].
Qed.

(** X11: input that runs out.  When standard input ends before a valid
    choice at the first menu (every line is refused, or there is no
    line at all), the run does not wait: it ends with status 1, and no
    child process has been started. *)
Theorem exhausted_input_ends_run (pr : process) (inp : list input_event) (s : state) :
  existsb (String.eqb (str_lower (platform_system pr))) ["windows"; "linux"] = true ->
  Forall (refused model_options) inp ->
  ending_of (fst (entry_point pr inp s)) = ExitStatus 1
  /\ commands_run (st_out (snd (entry_point pr inp s))) = commands_run (st_out s)
  /\ List.last (st_out (snd (entry_point pr inp s))) (EvPrint EmptyString)
     = EvTraceback EOFError.
Proof.
  intros Hos Hinp.
  assert (Hstep : fst (main_step1 inp (banner pr s)) = Raise EOFError).
  { unfold main_step1.
    erewrite bind_ok by apply print_header_eq.
    erewrite bind_ok by apply print_eq.
    erewrite bind_ok by apply print_eq.
    match goal with |- fst ((get_user_choice ?p ?o inp ≫= _) ?s0) = _ =>
      pose proof (get_user_choice_eof p o inp s0 Hinp) as Heof;
      destruct (get_user_choice p o inp s0) as [r s1] eqn:Hg
    end.
    cbn [fst] in Heof. subst r.
    erewrite bind_raise by exact Hg. reflexivity. }
  destruct (main_step1 inp (banner pr s)) as [r s1] eqn:H1. cbn [fst] in Hstep.
  subst r.
  destruct (only_talks_untouched (main_step1 inp) (banner pr s)
              (only_talks_main_step1 inp)) as (_ & Hc & _).
  rewrite H1 in Hc. cbn [snd] in Hc.
  rewrite (entry_point_exception pr inp s s1 EOFError
             (main_raises_at_step1 pr inp s s1 _ Hos H1) eq_refl).
  cbn [fst snd ending_of]. split; [reflexivity|]. split.
  - unfold log, commands_run. cbn [st_out]. rewrite flat_map_app. simpl.
    rewrite app_nil_r. fold (commands_run (st_out s1)).
    rewrite Hc. apply commands_run_banner.
  - unfold log. cbn [st_out]. apply last_two.
Qed.

End EarlyExits.

(** ** Steps 3 to 5: the environment and the packages *)

Section Packages.

Context {Path Env : Type} {RT : Runtime Path Env}.

#[local] Abbreviation state := (state Path Env).
#[local] Abbreviation M := (M Path Env).

(** X12: step 3 inside the environment.  When the environment root
    exists and the running interpreter resolves to the environment's
    one, step 3 returns the environment's paths.  With pip in place it
    runs nothing at all; without pip it runs [python -m ensurepip
    --upgrade] once, and a non-zero exit status of that command is
    raised at once (there is no second attempt). *)
Theorem main_step3_inside_environment (pr : process) (OS : string) (s : state) :
  let v := venv_paths OS (Path_resolve (st_env s) (Path_of VENV_NAME)) in
  let shown := header_events "Step 3: Environment Setup"
                 ++ [EvPrint "✓ Virtual environment already exists"] in
  let cmd := [Path_str (PYTHON_EXE v); "-m"; "ensurepip"; "--upgrade"] in
  let r := subprocess_run cmd (st_env s) in
  Path_exists (st_env s) (VENV_DIR v) = true ->
  Path_resolve (st_env s) (Path_of (sys_executable pr))
  = Path_resolve (st_env s) (PYTHON_EXE v) ->
  (Path_exists (st_env s) (PIP_EXE v) = true ->
     main_step3 pr OS s = (Ok v, log s shown))
  /\ (Path_exists (st_env s) (PIP_EXE v) = false ->
      commands_run (st_out (snd (main_step3 pr OS s))) = commands_run (st_out s) ++ [cmd]
      /\ (fst r = Exited 0 -> fst (main_step3 pr OS s) = Ok v)
      /\ (forall rc, fst r = Exited rc -> rc <> 0%Z ->
          fst (main_step3 pr OS s) = Raise (CalledProcessError cmd rc))).
Proof.
  intros v shown cmd r Hroot Hsame.
  assert (Hensure : forall s0 : state, st_env s0 = st_env s ->
            ensure_venv pr v s0
            = (Ok tt, log s0 [EvPrint "✓ Virtual environment already exists"])).
  { intros [e0 out0] Henv. cbn [st_env] in Henv. subst e0.
    unfold ensure_venv, create_venv_if_missing, reexec_inside_venv,
      mbind, M_bind, get_env. simpl.
    rewrite Hroot. simpl.
    rewrite (bool_decide_eq_true_2 _ Hsame). reflexivity. }
  assert (Hstart :
            main_step3 pr OS s
            = (((if negb (Path_exists (st_env s) (PIP_EXE v)) then
                   print "Ensuring pip is available..." ;;
                   run cmd true
                 else mret tt) ;;
                mret v) : M (venv Path)) (log s shown)).
  { unfold main_step3.
    erewrite bind_ok by apply print_header_eq.
    unfold mbind at 1, M_bind at 1, get_env at 1. cbn [st_env log]. fold v.
    erewrite bind_ok by (apply Hensure; reflexivity).
    rewrite log_log. reflexivity. }
  rewrite Hstart.
  split.
  - intros Hpip. rewrite Hpip. reflexivity.
  - intros Hpip. rewrite Hpip. cbn [negb].
    unfold mbind, M_bind. rewrite print_eq, run_check_eq. cbn [st_env st_out log].
    fold r.
    split; [|split].
    + destruct (fst r) as [rc|msg]; [destruct (rc =? 0)%Z|];
        unfold mret, M_ret; cbn [snd st_out];
        unfold commands_run, shown, header_events;
        rewrite !flat_map_app; simpl; rewrite ?app_nil_r; reflexivity.
    + intros ->. reflexivity.
    + intros rc -> Hrc. apply Z.eqb_neq in Hrc. rewrite Hrc. reflexivity.
Qed.

(** A caught [pip_install] never fails. *)
Lemma guarded_pip_install_ok (v : venv Path) (args : list string)
    (after : M unit) (handler : exn -> M unit) (s : state) :
  (forall s0, exists s1, after s0 = (Ok tt, s1)) ->
  (forall e s0, exists s1, handler e s0 = (Ok tt, s1)) ->
  exists s', try_except (pip_install v args ;; after) is_Exception handler s
             = (Ok tt, s').
Proof.
  intros Hafter Hhandler. unfold try_except, mbind, M_bind.
  pose proof (pip_install_ends v args s) as Hends.
  destruct (pip_install v args s) as [[[]|e|prog argv] s1]; cbn [fst] in Hends.
  - destruct (Hafter s1) as [s2 ->]. eauto.
  - rewrite Hends. apply Hhandler.
  - contradiction.
Qed.

(** X13: the outcome of step 4 is the outcome of the PyTorch install.
    For each backend the step announces itself and requests PyTorch
    from the backend's index; if that request fails, the step fails
    with the same exception and does nothing more; for CPU and ROCm
    nothing else happens anyway; for CUDA the flash-attention wheel is
    tried afterwards and cannot make the step fail. *)
Theorem main_step4_outcome (pr : process) (OS : string) (v : venv Path)
    (backend_choice : Z) (s : state) :
  In backend_choice [1; 2; 3]%Z ->
  let s0 := log s (header_events "Step 4: Installing PyTorch"
                     ++ [EvPrint (step4_label backend_choice)]) in
  let torch := pip_install v (torch_args (torch_index backend_choice)) s0 in
  fst (main_step4 pr OS v backend_choice s) = fst torch
  /\ (backend_choice <> 3%Z -> main_step4 pr OS v backend_choice s = torch)
  /\ (forall e, fst torch = Raise e -> main_step4 pr OS v backend_choice s = torch).
Proof.
  intros Hb s0 torch. subst torch s0. unfold main_step4.
  erewrite bind_ok by apply print_header_eq.
  simpl in Hb. destruct Hb as [<-|[<-|[<-|[]]]]; cbn [Z.eqb Pos.eqb];
    erewrite bind_ok by apply print_eq; rewrite log_log;
    cbn [step4_label torch_index Z.eqb Pos.eqb].
  - repeat split; try reflexivity.
  - repeat split; try reflexivity.
  - match goal with |- context [pip_install v ?a ?s0] =>
      pose proof (pip_install_ends v a s0) as Hends;
      destruct (pip_install v a s0) as [[[]|e|prog argv] s1] eqn:Htorch
    end; cbn [fst] in Hends.
    + erewrite bind_ok by exact Htorch.
      erewrite bind_ok by apply print_eq.
      match goal with |- context [try_except (pip_install v ?a ;; ?k) _ ?h ?s2] =>
        destruct (guarded_pip_install_ok v a k h s2) as [s3 Hflash]
      end.
      * intros s4. unfold print_success. rewrite print_eq. eauto.
      * intros e s4. unfold print_warning.
        erewrite bind_ok by apply print_eq. rewrite print_eq. eauto.
      * rewrite Hflash. cbn [fst].
        split; [reflexivity|]. split; [intros H; congruence | intros e H; discriminate H].
    + erewrite bind_raise by exact Htorch. repeat split; reflexivity.
    + contradiction.
Qed.

(** X14: the outcome of step 5 is the outcome of the chatterbox-tts
    install.  If that request fails, the step fails with the same
    exception before any dependency is requested; otherwise the step
    succeeds, whatever happens to the dependencies. *)
Theorem main_step5_outcome (v : venv Path) (s : state) :
  let s0 := log s (header_events "Step 5: Installing Chatterbox-TTS Dependencies"
                     ++ [EvPrint "Installing chatterbox-tts (without dependencies)..."]) in
  let package := pip_install v ["--no-deps"; "chatterbox-tts"] s0 in
  fst (main_step5 v s) = fst package
  /\ (forall e, fst package = Raise e -> main_step5 v s = package).
Proof.
  intros s0 package. subst package s0. unfold main_step5.
  erewrite bind_ok by apply print_header_eq.
  erewrite bind_ok by apply print_eq. rewrite log_log.
  match goal with |- context [pip_install v ?a ?s0] =>
    pose proof (pip_install_ends v a s0) as Hends;
    destruct (pip_install v a s0) as [[[]|e|prog argv] s1] eqn:Hpkg
  end; cbn [fst] in Hends.
  - erewrite bind_ok by exact Hpkg.
    erewrite bind_ok by apply print_eq.
    match goal with |- context [install_dependencies v ?d ?s2] =>
      destruct (install_dependencies_ok v d s2) as [s3 ->]
    end.
    split; [reflexivity | intros e H; discriminate H].
  - erewrite bind_raise by exact Hpkg. split; [reflexivity | intros; reflexivity].
  - contradiction.
Qed.

End Packages.

(** ** Step 6: the model files *)

Section ModelFiles.

Context {Path Env : Type} {RT : Runtime Path Env}.

#[local] Abbreviation state := (state Path Env).
#[local] Abbreviation M := (M Path Env).

(** The round of the download loop for a file that is not there yet. *)
Lemma download_model_file_absent (model_path : Path) (url : string) (s : state) :
  let filename := url_filename url in
  let dest := Path_div model_path filename in
  let r := urlretrieve url dest (st_env s) in
  let started := st_out s ++ [EvPrint ("📥 Downloading " +:+ filename +:+ "...");
                              EvFetch url dest] in
  Path_exists (st_env s) dest = false ->
  download_model_file model_path url s =
  match fst r with
  | Some msg =>
      (Raise (OSError msg),
       {| st_env := snd r;
          st_out := started ++ [EvPrint ("✗ Failed to download " +:+ filename
                                           +:+ ": " +:+ msg)] |})
  | None =>
      (Ok tt, {| st_env := snd r;
                 st_out := started ++ [EvPrint ("✓ Downloaded " +:+ filename)] |})
  end.
Proof.
  intros filename dest r started Habsent. subst filename dest r started.
  unfold download_model_file, download_file, try_except, call,
    print_error, print_success, print, emit, raise, get_env, mbind, M_bind.
  simpl. rewrite Habsent. simpl.
  destruct (urlretrieve url (Path_div model_path (url_filename url)) (st_env s))
    as [[m|] e']; simpl; rewrite <- !app_assoc; reflexivity.
Qed.

(** X15: a locator whose file is not there yet is fetched into the
    model directory under its derived name.  If the fetch fails, the
    failure is printed and raised again: the stage stops there and the
    locators after it are not tried.  If it succeeds, the stage goes on
    with the next locator. *)
Theorem download_of_absent_file (model_path : Path) (url : string)
    (rest : list string) (s : state) :
  let filename := url_filename url in
  let dest := Path_div model_path filename in
  let r := urlretrieve url dest (st_env s) in
  let started := st_out s ++ [EvPrint ("📥 Downloading " +:+ filename +:+ "...");
                              EvFetch url dest] in
  Path_exists (st_env s) dest = false ->
  (forall msg, fst r = Some msg ->
     download_model_files model_path (url :: rest) s
     = (Raise (OSError msg),
        {| st_env := snd r;
           st_out := started ++ [EvPrint ("✗ Failed to download " +:+ filename
                                            +:+ ": " +:+ msg)] |}))
  /\ (fst r = None ->
      download_model_files model_path (url :: rest) s
      = download_model_files model_path rest
          {| st_env := snd r;
             st_out := started ++ [EvPrint ("✓ Downloaded " +:+ filename)] |}).
Proof.
  intros filename dest r started Habsent.
  pose proof (download_model_file_absent model_path url s Habsent) as Hround.
  cbn zeta in Hround. fold filename dest r started in Hround.
  unfold download_model_files. cbn [for_each]. split.
  - intros msg Hr. rewrite Hr in Hround.
    erewrite bind_raise by exact Hround. reflexivity.
  - intros Hr. rewrite Hr in Hround.
    erewrite bind_ok by exact Hround. reflexivity.
Qed.

(** X16: a copy that fails ends the copy stage.  When a file exists at
    the source and [shutil.copy2] raises for it, the stage raises the
    same error right after the attempt, and the files after it are not
    copied. *)
Theorem copy_failure_is_fatal (user_path model_path : Path) (file : string)
    (rest : list string) (s : state) (msg : string) :
  let src := Path_div user_path file in
  let dst := Path_div model_path file in
  Path_exists (st_env s) src = true ->
  fst (copy2 src dst (st_env s)) = Some msg ->
  copy_model_files user_path model_path (file :: rest) s
  = (Raise (OSError msg),
     {| st_env := snd (copy2 src dst (st_env s));
        st_out := st_out s ++ [EvCopy src dst] |}).
Proof.
  intros src dst Hsrc Hcopy. subst src dst.
  unfold copy_model_files. cbn [for_each].
  erewrite bind_raise; [reflexivity|].
  rewrite (copy_model_file_present _ _ _ _ Hsrc). rewrite Hcopy. reflexivity.
Qed.

Lemma copy_model_files_absent (user_path model_path : Path)
    (expected_files : list string) (s : state) :
  (forall file, In file expected_files ->
     Path_exists (st_env s) (Path_div user_path file) = false) ->
  copy_model_files user_path model_path expected_files s = (Ok tt, s).
Proof.
  induction expected_files as [|file rest IH]; intros Habsent; [reflexivity|].
  unfold copy_model_files. cbn [for_each].
  erewrite bind_ok.
  - apply IH. intros f Hf. apply Habsent. right. exact Hf.
  - unfold copy_model_file, mbind, M_bind, get_env. cbn [st_env].
    rewrite (Habsent file (or_introl eq_refl)). reflexivity.
Qed.

(** X17: sources that are gone are passed over in silence.  If none of
    the expected files exists at the supplied folder when step 6 gets
    to them, the step copies nothing, reports "All model files copied"
    all the same and succeeds. *)
Theorem main_step6_passes_over_absent_sources (sel : selection Path)
    (user_path : Path) (s : state) :
  let model_path := Path_of MODEL_DIR in
  let r := Path_mkdir_exist_ok model_path (st_env s) in
  is_user_supplied sel = true ->
  user_model_path sel = Some user_path ->
  fst r = None ->
  (forall file, In file (expected_files_of (is_turbo sel)) ->
     Path_exists (snd r) (Path_div user_path file) = false) ->
  main_step6 sel s
  = (Ok model_path,
     {| st_env := snd r;
        st_out := st_out s ++ header_events "Step 6: Setting Up Model Files"
          ++ [EvMkdir model_path;
              EvPrint ("Copying model files from " +:+ Path_str user_path +:+ "...");
              EvPrint "✓ All model files copied"] |}).
Proof.
  intros model_path r Hmode Hpath Hmkdir Habsent. subst model_path r.
  destruct (Path_mkdir_exist_ok (Path_of MODEL_DIR) (st_env s)) as [err e1] eqn:Hmk.
  cbn [fst snd] in Hmkdir, Habsent |- *. subst err.
  unfold main_step6.
  erewrite bind_ok by apply print_header_eq.
  erewrite bind_ok by (unfold call; cbn [st_env log]; rewrite Hmk; reflexivity).
  rewrite Hmode, Hpath. cbn [str_opt_path].
  erewrite bind_ok.
  2:{ erewrite bind_ok by apply print_eq.
      erewrite bind_ok by (apply copy_model_files_absent; exact Habsent).
      unfold print_success. apply print_eq. }
  unfold mret, M_ret, log, header_events. cbn [st_env st_out].
  rewrite <- !app_assoc. reflexivity.
Qed.

(** *** What each mode of step 6 never does *)

Lemma emits_only_ret {A : Type} (P : event Path -> Prop) (a : A) :
  emits_only P (mret a : M A).
Proof. intros s. exists []. rewrite app_nil_r. split; [reflexivity | constructor]. Qed.

Lemma emits_only_raise {A : Type} (P : event Path -> Prop) (e : exn) :
  emits_only P (raise e : M A).
Proof. intros s. exists []. rewrite app_nil_r. split; [reflexivity | constructor]. Qed.

Lemma emits_only_emit (P : event Path -> Prop) (ev : event Path) :
  P ev -> emits_only P (emit ev : M unit).
Proof.
  intros Hev s. exists [ev]. split; [reflexivity|]. constructor; [exact Hev | constructor].
Qed.

Lemma emits_only_call (P : event Path -> Prop) (ev : event Path)
    (f : Env -> option string * Env) :
  P ev -> emits_only P (call ev f).
Proof.
  intros Hev s. exists [ev]. unfold call.
  destruct (f (st_env s)) as [[msg|] e']; (split; [reflexivity|]);
    constructor; try exact Hev; constructor.
Qed.

Lemma emits_only_bind {A B : Type} (P : event Path -> Prop) (m : M A) (f : A -> M B) :
  emits_only P m -> (forall a, emits_only P (f a)) -> emits_only P (m ≫= f).
Proof.
  intros Hm Hf s. destruct (Hm s) as (evs1 & H1 & Ht1).
  unfold mbind, M_bind. destruct (m s) as [[a|e|prog argv] s1]; cbn [snd] in *.
  - destruct (Hf a s1) as (evs2 & H2 & Ht2).
    exists (evs1 ++ evs2). rewrite H2, H1, app_assoc. split; [reflexivity|].
    apply Forall_app. split; assumption.
  - exists evs1. split; assumption.
  - exists evs1. split; assumption.
Qed.

Lemma emits_only_get_env {B : Type} (P : event Path -> Prop) (f : Env -> M B) :
  (forall e, emits_only P (f e)) -> emits_only P (get_env ≫= f).
Proof. intros Hf s. unfold mbind, M_bind, get_env. cbn [fst snd]. apply Hf. Qed.

Lemma emits_only_try {A : Type} (P : event Path -> Prop) (body : M A)
    (catches : exn -> bool) (handler : exn -> M A) :
  emits_only P body -> (forall e, emits_only P (handler e)) ->
  emits_only P (try_except body catches handler).
Proof.
  intros Hbody Hhandler s. destruct (Hbody s) as (evs1 & H1 & Ht1).
  unfold try_except. destruct (body s) as [[a|e|prog argv] s1]; cbn [snd] in *.
  - exists evs1. split; assumption.
  - destruct (catches e).
    + destruct (Hhandler e s1) as (evs2 & H2 & Ht2).
      exists (evs1 ++ evs2). rewrite H2, H1, app_assoc. split; [reflexivity|].
      apply Forall_app. split; assumption.
    + exists evs1. split; assumption.
  - exists evs1. split; assumption.
Qed.

Lemma emits_only_for_each {A : Type} (P : event Path -> Prop) (l : list A)
    (body : A -> M unit) :
  (forall x, emits_only P (body x)) -> emits_only P (for_each l body).
Proof.
  intros Hbody. induction l as [|x l IH]; cbn [for_each].
  - apply emits_only_ret.
  - apply emits_only_bind; [apply Hbody | intros _; exact IH].
Qed.

Lemma emits_only_print_header (P : event Path -> Prop) (text : string) :
  (forall t, P (EvPrint t)) -> emits_only P (print_header text : M unit).
Proof.
  intros HP. unfold print_header, print.
  repeat (apply emits_only_bind; [apply emits_only_emit, HP | intros _]).
  apply emits_only_emit, HP.
Qed.

Lemma emits_only_copy_model_files (user_path model_path : Path)
    (expected_files : list string) :
  emits_only not_fetch (copy_model_files user_path model_path expected_files).
Proof.
  apply emits_only_for_each. intros file. unfold copy_model_file.
  apply emits_only_get_env. intros e.
  destruct (Path_exists e (Path_div user_path file)); [|apply emits_only_ret].
  apply emits_only_bind; [apply emits_only_call; exact I | intros _].
  apply emits_only_emit. exact I.
Qed.

Lemma emits_only_download_model_files (model_path : Path) (urls : list string) :
  emits_only not_copy (download_model_files model_path urls).
Proof.
  apply emits_only_for_each. intros url. unfold download_model_file.
  apply emits_only_get_env. intros e.
  destruct (negb (Path_exists e (Path_div model_path (url_filename url))));
    [|apply emits_only_emit; exact I].
  unfold download_file.
  apply emits_only_bind; [apply emits_only_emit; exact I | intros _].
  apply emits_only_try.
  - apply emits_only_bind; [apply emits_only_call; exact I | intros _].
    apply emits_only_emit. exact I.
  - intros e0. apply emits_only_bind; [apply emits_only_emit; exact I | intros _].
    apply emits_only_raise.
Qed.

(** X18: the two modes of step 6 exclude each other.  In user-supplied
    mode the step fetches nothing from the network, and in download
    mode it copies nothing, however the step ends. *)
Theorem main_step6_modes_exclusive (sel : selection Path) (s : state) :
  if is_user_supplied sel
  then fetches (st_out (snd (main_step6 sel s))) = fetches (st_out s)
  else copies (st_out (snd (main_step6 sel s))) = copies (st_out s).
Proof.
  destruct (is_user_supplied sel) eqn:Hmode.
  - assert (H : emits_only not_fetch (main_step6 sel)).
    { unfold main_step6. rewrite Hmode.
      apply emits_only_bind; [apply emits_only_print_header; intros t; exact I | intros _].
      apply emits_only_bind; [apply emits_only_call; exact I | intros _].
      apply emits_only_bind; [|intros _; apply emits_only_ret].
      apply emits_only_bind; [apply emits_only_emit; exact I | intros _].
      destruct (user_model_path sel); [|apply emits_only_raise].
      apply emits_only_bind; [apply emits_only_copy_model_files | intros _].
      apply emits_only_emit. exact I. }
    destruct (H s) as (evs & -> & Hevs). unfold fetches. rewrite flat_map_app.
    replace (flat_map _ evs) with (@nil (string * Path)); [apply app_nil_r|].
    symmetry. induction Hevs as [|ev evs Hev _ IH]; [reflexivity|].
    destruct ev; try contradiction; exact IH.
  - assert (H : emits_only not_copy (main_step6 sel)).
    { unfold main_step6. rewrite Hmode.
      apply emits_only_bind; [apply emits_only_print_header; intros t; exact I | intros _].
      apply emits_only_bind; [apply emits_only_call; exact I | intros _].
      apply emits_only_bind; [|intros _; apply emits_only_ret].
      apply emits_only_bind; [apply emits_only_emit; exact I | intros _].
      apply emits_only_download_model_files. }
    destruct (H s) as (evs & -> & Hevs). unfold copies. rewrite flat_map_app.
    replace (flat_map _ evs) with (@nil (Path * Path)); [apply app_nil_r|].
    symmetry. induction Hevs as [|ev evs Hev _ IH]; [reflexivity|].
    destruct ev; try contradiction; exact IH.
Qed.

End ModelFiles.

(** ** Step 7 and the summary *)

Section Verification.

Context {Path Env : Type} {RT : Runtime Path Env}.

#[local] Abbreviation state := (state Path Env).
#[local] Abbreviation M := (M Path Env).

(** One probe: the child's exit status decides, and a child that
    cannot be started counts as a failed probe. *)
Lemma verify_package_eq (v : venv Path) (failed_packages : list string)
    (pkg : string) (s : state) :
  let cmd := probe_cmd v pkg in
  let r := subprocess_run cmd (st_env s) in
  verify_package v failed_packages pkg s =
  match fst r with
  | Exited rc =>
      if (rc =? 0)%Z
      then (Ok failed_packages,
            {| st_env := snd r;
               st_out := st_out s ++ [EvRun cmd; EvPrint ("✓ " +:+ pkg)] |})
      else (Ok (failed_packages ++ [pkg]),
            {| st_env := snd r;
               st_out := st_out s ++ [EvRun cmd; EvPrint ("✗ " +:+ pkg)] |})
  | SpawnFailed msg =>
      (Ok (failed_packages ++ [pkg]),
       {| st_env := snd r;
          st_out := st_out s
            ++ [EvRun cmd;
                EvPrint ("✗ " +:+ pkg +:+ " (check failed: " +:+ msg +:+ ")")] |})
  end.
Proof.
  intros cmd r. subst cmd r.
  unfold verify_package, try_except, run_returncode, print_success, print_error,
    print, emit, mbind, M_bind, probe_cmd.
  destruct (subprocess_run _ (st_env s)) as [[rc|msg] e']; simpl.
  - destruct (rc =? 0)%Z; simpl; rewrite <- !app_assoc; reflexivity.
  - rewrite <- !app_assoc. reflexivity.
Qed.

(** X19: the verification loop.  It never raises; it probes every
    package exactly once, in order, by [python -c "import pkg"] with the
    environment's interpreter; and the packages it reports as failed
    are added, in order, behind the ones reported before.  When the
    probe of the first package exits with status 0, the reported ones
    all come from the later packages; otherwise the first package heads
    them. *)
Theorem verify_packages_spec (v : venv Path) (failed_packages pkgs : list string)
    (s : state) :
  exists reported s',
    verify_packages v failed_packages pkgs s = (Ok (failed_packages ++ reported), s')
    /\ reported `sublist_of` pkgs
    /\ commands_run (st_out s') = commands_run (st_out s) ++ map (probe_cmd v) pkgs
    /\ (forall pkg rest, pkgs = pkg :: rest ->
        if probe_passed (fst (subprocess_run (probe_cmd v pkg) (st_env s)))
        then reported `sublist_of` rest
        else exists reported', reported = pkg :: reported'
                               /\ reported' `sublist_of` rest).
Proof.
  revert failed_packages s.
  induction pkgs as [|pkg rest IH]; intros failed_packages s.
  - exists [], s. cbn [verify_packages]. rewrite !app_nil_r.
    split; [reflexivity|]. split; [constructor|]. split; [reflexivity|].
    intros pkg rest H. discriminate H.
  - cbn [verify_packages]. unfold mbind, M_bind.
    rewrite verify_package_eq. cbn zeta.
    assert (Hrun : forall (out : list (event Path)) (text : string),
              commands_run (out ++ [EvRun (probe_cmd v pkg); EvPrint text])
              = commands_run out ++ [probe_cmd v pkg]).
    { intros out text. unfold commands_run. rewrite flat_map_app. reflexivity. }
    destruct (fst (subprocess_run (probe_cmd v pkg) (st_env s))) as [rc|msg] eqn:Hprobe.
    + destruct (Z.eqb_spec rc 0) as [->|Hrc].
      * match goal with |- context [verify_packages v failed_packages rest ?s1] =>
          destruct (IH failed_packages s1) as (reported & s' & -> & Hsub & Hcmd & _)
        end.
        exists reported, s'. split; [reflexivity|].
        split; [apply sublist_cons; exact Hsub|].
        split.
        { rewrite Hcmd. cbn [st_out]. rewrite Hrun, <- app_assoc. reflexivity. }
        intros p r H. injection H as <- <-.
        rewrite Hprobe. exact Hsub.
      * match goal with |- context [verify_packages v ?f rest ?s1] =>
          destruct (IH f s1) as (reported & s' & -> & Hsub & Hcmd & _)
        end.
        exists (pkg :: reported), s'. rewrite <- app_assoc.
        split; [reflexivity|].
        split; [apply sublist_skip; exact Hsub|].
        split.
        { rewrite Hcmd. cbn [st_out]. rewrite Hrun, <- app_assoc. reflexivity. }
        intros p r H. injection H as <- <-.
        rewrite Hprobe. cbn [probe_passed].
        destruct (Z.eqb_spec rc 0) as [E|_]; [contradiction|]. eauto.
    + match goal with |- context [verify_packages v ?f rest ?s1] =>
        destruct (IH f s1) as (reported & s' & -> & Hsub & Hcmd & _)
      end.
      exists (pkg :: reported), s'. rewrite <- app_assoc.
      split; [reflexivity|].
      split; [apply sublist_skip; exact Hsub|].
      split.
      { rewrite Hcmd. cbn [st_out]. rewrite Hrun, <- app_assoc. reflexivity. }
      intros p r H. injection H as <- <-.
      rewrite Hprobe. cbn [probe_passed]. eauto.
Qed.

Lemma says_ret {A : Type} (a : A) : says (mret a : M A).
Proof.
  intros s. exists a, []. rewrite log_nil. split; [reflexivity | constructor].
Qed.

Lemma says_print (text : string) : says (print text : M unit).
Proof.
  intros s. exists tt, [EvPrint text]. split; [reflexivity|].
  constructor; [exact I | constructor].
Qed.

Lemma says_bind {A B : Type} (m : M A) (f : A -> M B) :
  says m -> (forall a, says (f a)) -> says (m ≫= f).
Proof.
  intros Hm Hf s. destruct (Hm s) as (a & evs1 & H1 & Ht1).
  destruct (Hf a (log s evs1)) as (b & evs2 & H2 & Ht2).
  exists b, (evs1 ++ evs2). unfold mbind, M_bind. rewrite H1, H2, log_log.
  split; [reflexivity|]. apply Forall_app. split; assumption.
Qed.

Lemma says_get_env {B : Type} (f : Env -> M B) :
  (forall e, says (f e)) -> says (get_env ≫= f).
Proof. intros Hf s. unfold mbind, M_bind, get_env. apply Hf. Qed.

Ltac say_step :=
  first
    [ apply says_ret
    | apply says_print
    | apply says_get_env; intros ?
    | apply says_bind; [|intros ?] ].

(** X20: verification informs, it does not decide.  Step 7 and the
    final summary always succeed, whatever the probes find: the
    packages found missing are a part of the critical list, the summary
    says either "All components installed successfully!" (none missing)
    or "Installation completed with warnings" with their names, and the
    run then ends normally either way. *)
Theorem verification_never_fails_the_run (OS : string) (v : venv Path)
    (sel : selection Path) (backend_choice : Z) (model_path : Path) (s : state) :
  exists failed_packages s1 closing,
    main_step7 v s = (Ok failed_packages, s1)
    /\ failed_packages `sublist_of` critical_packages
    /\ final_summary OS v sel backend_choice model_path failed_packages s1
       = (Ok tt, log s1 (header_events "Installation Complete!"
                           ++ verdict failed_packages ++ closing))
    /\ Forall talk closing.
Proof.
  destruct (verify_packages_spec v [] critical_packages
              (log s (header_events "Step 7: Installation Verification"
                        ++ [EvPrint "Verifying Python packages..."])))
    as (failed & s0 & Hverify & Hsub & _).
  cbn [app] in Hverify.
  assert (Hwarn : says (match failed with
                        | _ :: _ =>
                            print_warning (nl +:+ "Some packages failed to install: "
                                             +:+ PyStr.join ", " failed) ;;
                            print_warning "You may need to install these manually later."
                        | [] => mret tt
                        end : M unit)).
  { destruct failed; unfold print_warning; repeat say_step. }
  destruct (Hwarn s0) as ([] & evs & Hw & _).
  exists failed, (log s0 evs).
  assert (Hrest : says (
            print "Configuration:" ;;
            print ("  • Model: Chatterbox " +:+ model_type_of (is_turbo sel)) ;;
            print ("  • Backend: " +:+ backend_name_of backend_choice) ;;
            e ← get_env;
            print ("  • Model files: " +:+ Path_str (Path_resolve e model_path) +:+ nl) ;;
            print "To use Chatterbox-TTS:" ;;
            (if String.eqb OS "linux" then print ("  source " +:+ Path_str (ACTIVATE v))
             else print ("  " +:+ Path_str (ACTIVATE v))) ;;
            print ("  python your_script.py" +:+ nl) ;;
            (if (backend_choice =? 1)%Z
             then print ("Note: Using CPU backend. Use device='cpu' in your scripts." +:+ nl)
             else mret tt) ;;
            print "For audio issues, install ffmpeg:" ;;
            (if String.eqb OS "linux" then print "  sudo apt-get install ffmpeg"
             else print "  Download from: https://ffmpeg.org/download.html") ;;
            print (nl +:+ str_repeat "=" 70) ;;
            print "  Thank you for installing Chatterbox-TTS!" ;;
            print (str_repeat "=" 70 +:+ nl) : M unit)).
  { repeat say_step;
      try (destruct (String.eqb OS "linux"); say_step);
      try (destruct (backend_choice =? 1)%Z; say_step). }
  destruct (Hrest (log (log s0 evs) (header_events "Installation Complete!"
                                       ++ verdict failed)))
    as ([] & closing & Hclosing & Htalk).
  exists closing.
  split; [|split; [exact Hsub|split; [|exact Htalk]]].
  - unfold main_step7.
    erewrite bind_ok by apply print_header_eq.
    erewrite bind_ok by apply print_eq. rewrite log_log.
    erewrite bind_ok by exact Hverify.
    erewrite bind_ok by exact Hw. reflexivity.
  - unfold final_summary.
    erewrite bind_ok by apply print_header_eq.
    erewrite bind_ok.
    2:{ instantiate (1 := log (log (log s0 evs) (header_events "Installation Complete!"))
                            (verdict failed)).
        instantiate (1 := tt).
        destruct failed; unfold verdict, print_success.
        - apply print_eq.
        - erewrite bind_ok by apply print_eq. rewrite print_eq, log_log. reflexivity. }
    rewrite log_log. rewrite Hclosing. rewrite !log_log, <- app_assoc. reflexivity.
Qed.

End Verification.

(** ** How the process ends *)

Section ExitStatus.

Context {Path Env : Type} {RT : Runtime Path Env}.

#[local] Abbreviation state := (state Path Env).
#[local] Abbreviation M := (M Path Env).

Variable script : string.












Lemma ends_says {A : Type} (m : M A) : says m -> always_ends_well script m.
Proof. intros Hm s. destruct (Hm s) as (a & evs & -> & _). exact I. Qed.














End ExitStatus.

Section WholeRun.

Context {Path Env : Type} {RT : Runtime Path Env}.

#[local] Abbreviation state := (state Path Env).
#[local] Abbreviation M := (M Path Env).



End WholeRun.

(** ** Instances of the further properties *)

Ltac name_chars Hin :=
  simpl in Hin;
  repeat (destruct Hin as [<-|Hin]; [split; discriminate|]);
  destruct Hin.

(** A locator without a query string, a bare name, and a locator that
    ends in a slash. *)
Lemma url_filename_without_query_witness :
  url_filename ("https://example.org/models" +:+ "/" +:+ "ve.safetensors")
  = "ve.safetensors"
  /\ url_filename "ve.safetensors" = "ve.safetensors"
  /\ url_filename ("https://example.org/models" +:+ "/") = EmptyString.
Proof.
  apply (url_filename_without_query "https://example.org/models" "ve.safetensors").
  intros c Hin. name_chars Hin.
Defined.

(** The first Standard locator. *)
Lemma url_filename_segment_witness :
  url_filename ("https://huggingface.co/ResembleAI/chatterbox/resolve/main"
                  +:+ "/" +:+ "t3_cfg.safetensors" +:+ "?" +:+ "download=true")
  = "t3_cfg.safetensors".
Proof.
  apply (url_filename_segment
           "https://huggingface.co/ResembleAI/chatterbox/resolve/main"
           "t3_cfg.safetensors" "download=true").
  - intros c Hin. name_chars Hin.
  - intros c Hin. simpl in Hin.
    repeat (destruct Hin as [<-|Hin]; [discriminate|]). destruct Hin.
Defined.

(** A word and a number out of range, then [" 2 "]. *)
Lemma get_user_choice_returns_witness :
  exists s',
    get_user_choice EmptyString backend_options
      ([Line "gpu"; Line "7"] ++ Line " 2 " :: [Line "y"]) (start host)
    = (Ok (2%Z, [Line "y"]), s')
    /\ st_env s' = st_env (start host).
Proof.
  apply (get_user_choice_returns EmptyString backend_options
           [Line "gpu"; Line "7"] " 2 " 2%Z [Line "y"] (start host)).
  - constructor; [vm_compute; exact I|].
    constructor; [|constructor].
    unfold refused.
    replace (int_of_str (str_strip "7")) with (Some 7%Z) by (vm_compute; reflexivity).
    simpl. lia.
  - vm_compute. reflexivity.
  - simpl. lia.
Defined.

(** A folder that does not exist, the answer [" Y "], then the supplied
    folder typed between quotes. *)
Lemma ask_model_folder_accepts_first_valid_witness :
  typed_folder quoted_folder = "/models/orig"
  /\ fst (ask_model_folder ORIGINAL_EXPECTED
            (attempts [("/nowhere", " Y ")] ++ Line quoted_folder :: [Line "1"])
            (start supplied_and_stale))
     = Ok (Path_of (typed_folder quoted_folder), [Line "1"])
  /\ st_env (snd (ask_model_folder ORIGINAL_EXPECTED
                    (attempts [("/nowhere", " Y ")] ++ Line quoted_folder :: [Line "1"])
                    (start supplied_and_stale)))
     = st_env (start supplied_and_stale).
Proof.
  split; [vm_compute; reflexivity|].
  apply (ask_model_folder_accepts_first_valid ORIGINAL_EXPECTED
           [("/nowhere", " Y ")] quoted_folder [Line "1"] (start supplied_and_stale)).
  - constructor; [|constructor]. split; vm_compute; reflexivity.
  - vm_compute. reflexivity.
Defined.

(** Option 3 with the supplied folder. *)
Lemma main_step1_selection_witness :
  let run := main_step1 [Line "3"; Line "/models/orig"; Line "1"]
               (start supplied_and_stale) in
  fst run = Ok (supplied_from "/models/orig", [Line "1"])
  /\ (exists text,
        In (Line text) [Line "3"; Line "/models/orig"; Line "1"]
        /\ user_model_path (supplied_from "/models/orig")
           = Some (Path_of (typed_folder text))
        /\ validity supplied_and_stale (typed_folder text) ORIGINAL_EXPECTED
           = Some true)
  /\ st_env (snd run) = supplied_and_stale.
Proof.
  cbv zeta. split; [vm_compute; reflexivity|].
  apply (main_step1_selection [Line "3"; Line "/models/orig"; Line "1"] [Line "1"]
           (start supplied_and_stale)
           (snd (main_step1 [Line "3"; Line "/models/orig"; Line "1"]
                   (start supplied_and_stale)))
           (supplied_from "/models/orig")).
  vm_compute. reflexivity.
Defined.

(** ROCm chosen on Linux. *)
Lemma main_step2_backend_witness :
  fst (main_step2 "linux" [Line "2"] (start host)) = Ok (2%Z, [])
  /\ In 2%Z [1; 2; 3]%Z
  /\ In (backend_name_of 2) ["CPU"; "AMD (ROCm)"; "Nvidia (CUDA)"]
  /\ (2%Z = 2%Z -> "linux" = "linux").
Proof.
  split; [vm_compute; reflexivity|].
  apply (main_step2_backend "linux" [Line "2"] [] (start host)
           (snd (main_step2 "linux" [Line "2"] (start host))) 2%Z).
  vm_compute. reflexivity.
Defined.

(** The installer on macOS. *)
Lemma unsupported_os_is_refused_witness :
  entry_point pr_mac cpu_download (start host)
  = (Raise (SystemExit 1),
     log (start host)
       [EvPrint ("✗ Unsupported operating system: " +:+ str_lower (platform_system pr_mac));
        EvPrint "This installer only supports Windows and Linux"])
  /\ ending_of (fst (entry_point pr_mac cpu_download (start host))) = ExitStatus 1.
Proof.
  apply (unsupported_os_is_refused pr_mac cpu_download (start host));
    vm_compute; intros E; discriminate E.
Defined.

(** The Turbo download declined with [n]. *)
Lemma declined_download_ends_run_witness :
  let run := entry_point pr_host (Line "2" :: Line "n" :: [Line "1"]) (start host) in
  ending_of (fst run) = ExitStatus 0
  /\ commands_run (st_out (snd run)) = commands_run (st_out (start host))
  /\ fetches (st_out (snd run)) = fetches (st_out (start host))
  /\ copies (st_out (snd run)) = copies (st_out (start host)).
Proof.
  apply (declined_download_ends_run pr_host "2" "n" [Line "1"] 2%Z (start host)).
  - vm_compute. reflexivity.
  - vm_compute. reflexivity.
  - right. reflexivity.
  - vm_compute. intros E. discriminate E.
Defined.

(** Two refused lines, then the end of the input. *)
Lemma exhausted_input_ends_run_witness :
  ending_of (fst (entry_point pr_host [Line "five"; Line "0"] (start host)))
  = ExitStatus 1
  /\ commands_run (st_out (snd (entry_point pr_host [Line "five"; Line "0"] (start host))))
     = commands_run (st_out (start host))
  /\ List.last (st_out (snd (entry_point pr_host [Line "five"; Line "0"] (start host))))
       (EvPrint EmptyString)
     = EvTraceback EOFError.
Proof.
  apply (exhausted_input_ends_run pr_host [Line "five"; Line "0"] (start host)).
  - vm_compute. reflexivity.
  - constructor; [vm_compute; exact I|].
    constructor; [|constructor].
    unfold refused.
    replace (int_of_str (str_strip "0")) with (Some 0%Z) by (vm_compute; reflexivity).
    simpl. lia.
Defined.

(** Inside the environment: with [pip] in place nothing is run; without
    it [ensurepip] is run, and its failure ends the step. *)
Lemma main_step3_inside_environment_witness :
  main_step3 pr_venv "linux" (start host_with_venv)
  = (Ok v_linux,
     log (start host_with_venv)
       (header_events "Step 3: Environment Setup"
          ++ [EvPrint "✓ Virtual environment already exists"]))
  /\ fst (main_step3 pr_venv "linux" (start (venv_without_pip 0))) = Ok v_linux
  /\ fst (main_step3 pr_venv "linux" (start (venv_without_pip 1)))
     = Raise (CalledProcessError [venv_python; "-m"; "ensurepip"; "--upgrade"] 1).
Proof.
  split; [|split].
  - pose proof (main_step3_inside_environment pr_venv "linux" (start host_with_venv)) as H.
    cbv zeta in H.
    destruct H as [H _]; [vm_compute; reflexivity | vm_compute; reflexivity |].
    refine (eq_trans (H _) _); [vm_compute; reflexivity | reflexivity].
  - pose proof (main_step3_inside_environment pr_venv "linux"
                  (start (venv_without_pip 0))) as H.
    cbv zeta in H.
    destruct H as [_ H]; [vm_compute; reflexivity | vm_compute; reflexivity |].
    destruct H as (_ & H & _); [vm_compute; reflexivity|].
    refine (eq_trans (H _) _); [vm_compute; reflexivity | reflexivity].
  - pose proof (main_step3_inside_environment pr_venv "linux"
                  (start (venv_without_pip 1))) as H.
    cbv zeta in H.
    destruct H as [_ H]; [vm_compute; reflexivity | vm_compute; reflexivity |].
    destruct H as (_ & _ & H); [vm_compute; reflexivity|].
    refine (eq_trans (H 1%Z _ _) _);
      [vm_compute; reflexivity | discriminate | reflexivity].
Defined.

(** CUDA chosen while the package index is down: the failure of the
    PyTorch install is the failure of the step, and flash-attention is
    not tried. *)
Lemma main_step4_outcome_witness :
  let s0 := log (start pip_failing_twice)
              (header_events "Step 4: Installing PyTorch" ++ [EvPrint (step4_label 3)]) in
  let torch := pip_install v_linux (torch_args (torch_index 3)) s0 in
  (exists cmd, fst torch = Raise (CalledProcessError cmd 1))
  /\ main_step4 pr_venv "linux" v_linux 3 (start pip_failing_twice) = torch.
Proof.
  cbv zeta. split; [eexists; vm_compute; reflexivity|].
  destruct (main_step4_outcome pr_venv "linux" v_linux 3 (start pip_failing_twice))
    as (_ & _ & H).
  - right. right. left. reflexivity.
  - eapply H. vm_compute. reflexivity.
Defined.

(** The first Standard locator cannot be fetched: the stage ends there. *)
Lemma download_of_absent_file_witness :
  fst (download_model_files (Path_of MODEL_DIR) (first_locator :: List.tl ORIGINAL_FILES)
         (start repository_down))
  = Raise (OSError "HTTP Error 404: Not Found")
  /\ fetches (st_out (snd (download_model_files (Path_of MODEL_DIR)
                             (first_locator :: List.tl ORIGINAL_FILES)
                             (start repository_down))))
     = [(first_locator, Path_div (Path_of MODEL_DIR) "t3_cfg.safetensors")].
Proof.
  pose proof (download_of_absent_file (Path_of MODEL_DIR) first_locator
                (List.tl ORIGINAL_FILES) (start repository_down)) as H.
  cbv zeta in H.
  destruct H as [H _]; [vm_compute; reflexivity|].
  rewrite (H "HTTP Error 404: Not Found") by (vm_compute; reflexivity).
  split; vm_compute; reflexivity.
Defined.

(** A supplied folder whose expected names are directories: the first
    copy fails and ends the stage. *)
Lemma copy_failure_is_fatal_witness :
  validity original_as_directories "/models/dirs" ORIGINAL_EXPECTED = Some true
  /\ fst (copy_model_files (Path_of "/models/dirs") (Path_of MODEL_DIR)
            ("t3_cfg.safetensors" :: List.tl ORIGINAL_EXPECTED)
            (start original_as_directories))
     = Raise (OSError "[Errno 21] Is a directory: '/models/dirs/t3_cfg.safetensors'").
Proof.
  split; [vm_compute; reflexivity|].
  pose proof (copy_failure_is_fatal (Path_of "/models/dirs") (Path_of MODEL_DIR)
                "t3_cfg.safetensors" (List.tl ORIGINAL_EXPECTED)
                (start original_as_directories)
                "[Errno 21] Is a directory: '/models/dirs/t3_cfg.safetensors'") as H.
  cbv zeta in H.
  rewrite H; [reflexivity | vm_compute; reflexivity | vm_compute; reflexivity].
Defined.

(** A supplied folder that has since been removed: step 6 copies
    nothing and says that all files were copied. *)
Lemma main_step6_passes_over_absent_sources_witness :
  let run := main_step6 (supplied_from "/models/gone") (start host) in
  fst run = Ok (Path_of MODEL_DIR)
  /\ copies (st_out (snd run)) = []
  /\ List.last (st_out (snd run)) (EvPrint EmptyString)
     = EvPrint "✓ All model files copied".
Proof.
  cbv zeta.
  pose proof (main_step6_passes_over_absent_sources (supplied_from "/models/gone")
                "/models/gone" (start host)) as H.
  cbv zeta in H.
  rewrite H.
  - repeat split; vm_compute; reflexivity.
  - reflexivity.
  - reflexivity.
  - vm_compute. reflexivity.
  - intros file Hin. simpl in Hin.
    destruct Hin as [<-|[<-|[<-|[<-|[]]]]]; vm_compute; reflexivity.
Defined.

(** ROCm chosen on Windows. *)
Lemma rocm_off_linux_ends_run_witness :
  ending_of (fst (entry_point pr_windows rocm_download (start host))) = ExitStatus 1.
Proof.
  refine (proj2 (rocm_off_linux_ends_run pr_windows rocm_download [Line "2"] []
                   (start host)
                   (snd (main_step1 rocm_download (banner pr_windows (start host))))
                   (snd (get_user_choice EmptyString backend_options [Line "2"]
                           (log (snd (main_step1 rocm_download
                                        (banner pr_windows (start host))))
                              (header_events "Step 2: Backend Selection"
                                 ++ [EvPrint ("Great! Now, you'll need to choose your backend:" +:+ nl)]))))
                   {| is_turbo := false; is_user_supplied := false;
                      user_model_path := None |} _ _ _));
    vm_compute; reflexivity.
Defined.

(** Ctrl-C before anything is typed. *)
Lemma interrupt_at_first_menu_ends_run_witness :
  ending_of (fst (entry_point pr_host (Interrupt :: [Line "1"]) (start host)))
  = ExitStatus 0
  /\ commands_run (st_out (snd (entry_point pr_host (Interrupt :: [Line "1"])
                                  (start host))))
     = commands_run (st_out (start host)).
Proof.
  apply (interrupt_at_first_menu_ends_run pr_host [Line "1"] (start host)).
  vm_compute. reflexivity.
Defined.

(** A quoted folder, and one typed without quotes. *)
Lemma strip_quotes_spec_witness :
  strip_quotes (String dquote ("/models/orig" +:+ String dquote EmptyString))
  = "/models/orig"
  /\ strip_quotes "/models/orig" = "/models/orig".
Proof.
  destruct (strip_quotes_spec "/models/orig") as (Hquoted & _ & Hplain).
  split; [exact Hquoted | apply Hplain; left; reflexivity].
Defined.

(** Three probes, the second of which fails. *)
Lemma verify_packages_spec_witness :
  fst (verify_packages v_linux [] ["torch"; "torchaudio"; "librosa"]
         (start one_import_fails))
  = Ok ["torchaudio"]
  /\ commands_run (st_out (snd (verify_packages v_linux [] ["torch"; "torchaudio"; "librosa"]
                                  (start one_import_fails))))
     = map (probe_cmd v_linux) ["torch"; "torchaudio"; "librosa"].
Proof.
  destruct (verify_packages_spec v_linux [] ["torch"; "torchaudio"; "librosa"]
              (start one_import_fails)) as (reported & s' & Hrun & _ & Hcmd & _).
  rewrite Hrun. cbn [fst snd]. split; [|exact Hcmd].
  assert (E : fst (verify_packages v_linux [] ["torch"; "torchaudio"; "librosa"]
                     (start one_import_fails)) = Ok ["torchaudio"])
    by (vm_compute; reflexivity).
  rewrite Hrun in E. exact E.
Defined.
